(** * TaskMasterClient: status vocabulary, version gate, task documents,
      status mutation, hierarchy reconstruction and progress counters.

    A shallow embedding of the data-resolution layer of the extension
    (class [TaskMasterClient]).  JavaScript values read from disk are
    modelled as JSON trees, typed [Task] objects as records, thrown
    errors as a sum type, and the channels the client talks to (MCP
    server, CLI, file system, clock) as an explicit world that every
    operation threads through. *)

From Stdlib Require Import ZArith Ascii String List Bool Lia.
From stdpp Require Import base option strings list gmap sorting.

Import ListNotations.
Local Open Scope string_scope.
Local Open Scope list_scope.

(* ===================================================================== *)
(** * JavaScript objects used as lookup tables *)
(* ===================================================================== *)

Module JsObject.

(** An object literal [{ k1: v1, ... }] has the keys written in it as
    own properties and inherits the members of [Object.prototype].
    [obj[key]] finds an own property first, then an inherited member,
    and is [undefined] otherwise. *)
Inductive Lookup (A : Type) : Type :=
| Own (v : A)
| Inherited (member : string)
| Undefined.
Arguments Own {A} v.
Arguments Inherited {A} member.
Arguments Undefined {A}.

(** The property names of [Object.prototype]; each of them holds a
    function or an object, hence a truthy value. *)
Definition objectPrototypeMembers : list string :=
  [ "constructor"; "__defineGetter__"; "__defineSetter__"; "hasOwnProperty";
    "__lookupGetter__"; "__lookupSetter__"; "isPrototypeOf";
    "propertyIsEnumerable"; "toString"; "valueOf"; "__proto__";
    "toLocaleString" ].

Definition isPrototypeMember (key : string) : bool :=
  existsb (String.eqb key) objectPrototypeMembers.

Fixpoint ownProperty {A : Type} (obj : list (string * A)) (key : string) : option A :=
  match obj with
  | [] => None
  | (k, v) :: rest => if String.eqb k key then Some v else ownProperty rest key
  end.

Definition get {A : Type} (obj : list (string * A)) (key : string) : Lookup A :=
  match ownProperty obj key with
  | Some v => Own v
  | None => if isPrototypeMember key then Inherited key else Undefined
  end.

End JsObject.

(* ===================================================================== *)
(** * Status normalizer *)
(* ===================================================================== *)

(** The extension's status type, a union of string literals. *)
Inductive TaskStatus : Type :=
| Todo | InProgress | Completed | Blocked | Deferred | Cancelled | Review.

Definition statusToken (s : TaskStatus) : string :=
  match s with
  | Todo => "todo"
  | InProgress => "in-progress"
  | Completed => "completed"
  | Blocked => "blocked"
  | Deferred => "deferred"
  | Cancelled => "cancelled"
  | Review => "review"
  end.

Definition allStatuses : list TaskStatus :=
  [Todo; InProgress; Completed; Blocked; Deferred; Cancelled; Review].

Definition TaskStatus_eqb (a b : TaskStatus) : bool :=
  String.eqb (statusToken a) (statusToken b).

(** What [normalizeStatus] hands back at run time: one of the status
    literals, or, when the raw string names a member of
    [Object.prototype], that inherited member. *)
Inductive StatusValue : Type :=
| SvStatus (s : TaskStatus)
| SvInherited (member : string).

Module StatusNormalizer.

(** [statusMap] of [normalizeStatus]. *)
Definition normalizeMap : list (string * TaskStatus) :=
  [ ("pending", Todo);
    ("todo", Todo);
    ("in-progress", InProgress);
    ("in_progress", InProgress);
    ("completed", Completed);
    ("done", Completed);
    ("blocked", Blocked);
    ("deferred", Deferred);
    ("cancelled", Cancelled);
    ("review", Review) ].

(** [return statusMap[status] || 'todo'].  Every own value and every
    inherited member is truthy, so [||] only replaces [undefined]. *)
Definition normalizeStatus (status : string) : StatusValue :=
  match JsObject.get normalizeMap status with
  | JsObject.Own s => SvStatus s
  | JsObject.Inherited m => SvInherited m
  | JsObject.Undefined => SvStatus Todo
  end.

(** [statusMap] of [denormalizeStatus]. *)
Definition denormalizeMap : list (string * string) :=
  [ ("todo", "pending");
    ("in-progress", "in-progress");
    ("completed", "done");
    ("blocked", "blocked");
    ("deferred", "deferred");
    ("cancelled", "cancelled");
    ("review", "review") ].

(** [return statusMap[status] || status] for a [status] of type
    [TaskStatus]; the empty string is the only falsy string. *)
Definition denormalizeStatus (status : TaskStatus) : string :=
  match JsObject.ownProperty denormalizeMap (statusToken status) with
  | Some raw => if String.eqb raw "" then statusToken status else raw
  | None => statusToken status
  end.

(** The token the backing system expects for each status. *)
Definition writeToken (s : TaskStatus) : string :=
  match s with
  | Todo => "pending"
  | Completed => "done"
  | other => statusToken other
  end.

(** The raw strings of the mapping table. *)
Definition rawStatuses : list string := map fst normalizeMap.

(** The composed map of a raw string: normalize, then denormalize.  A
    raw string that normalizes to an inherited member has no status to
    denormalize. *)
Definition roundTrip (raw : string) : option string :=
  match normalizeStatus raw with
  | SvStatus s => Some (denormalizeStatus s)
  | SvInherited _ => None
  end.

End StatusNormalizer.

(* ===================================================================== *)
(** * Version compatibility gate *)
(* ===================================================================== *)

Module VersionGate.

Local Open Scope Z_scope.

Definition isDigit (c : ascii) : bool :=
  let n := nat_of_ascii c in (48 <=? n)%nat && (n <=? 57)%nat.

(** The longest prefix of digits, and what follows it. *)
Fixpoint takeDigits (s : string) : string * string :=
  match s with
  | EmptyString => (EmptyString, EmptyString)
  | String c rest =>
      if isDigit c
      then let '(ds, tl) := takeDigits rest in (String c ds, tl)
      else (EmptyString, s)
  end.

Definition expectDot (s : string) : option string :=
  match s with
  | String "."%char rest => Some rest
  | _ => None
  end.

(** A match of [(\d+)\.(\d+)\.(\d+)] anchored at the start of [s].
    [\d+] is greedy, and giving back digits never helps because the
    next token is a dot: each group is a maximal run of digits. *)
Definition matchHere (s : string) : option (string * string * string) :=
  let '(g1, r1) := takeDigits s in
  if String.eqb g1 "" then None else
  match expectDot r1 with
  | None => None
  | Some r2 =>
      let '(g2, r3) := takeDigits r2 in
      if String.eqb g2 "" then None else
      match expectDot r3 with
      | None => None
      | Some r4 =>
          let '(g3, _) := takeDigits r4 in
          if String.eqb g3 "" then None else Some (g1, g2, g3)
      end
  end.

(** [v.match(/(\d+)\.(\d+)\.(\d+)/)]: the leftmost match. *)
Fixpoint regexMatch (s : string) : option (string * string * string) :=
  match matchHere s with
  | Some m => Some m
  | None =>
      match s with
      | EmptyString => None
      | String _ rest => regexMatch rest
      end
  end.

Definition digitValue (c : ascii) : Z := Z.of_nat (nat_of_ascii c) - 48.

Fixpoint parseIntFrom (acc : Z) (s : string) : Z :=
  match s with
  | EmptyString => acc
  | String c rest => parseIntFrom (10 * acc + digitValue c) rest
  end.

(** [parseInt] of a string of decimal digits.  JavaScript numbers are
    exact up to 2^53; the segments are modelled as exact integers. *)
Definition parseInt (s : string) : Z := parseIntFrom 0 s.

(** The local [parseCLIVersion]: [major; minor; patch], or [0; 0; 0]
    when the string holds no [d.d.d]. *)
Definition parseCLIVersion (v : string) : Z * Z * Z :=
  match regexMatch v with
  | Some (a, b, c) => (parseInt a, parseInt b, parseInt c)
  | None => (0, 0, 0)
  end.

Definition major (v : string) : Z := fst (fst (parseCLIVersion v)).
Definition minor (v : string) : Z := snd (fst (parseCLIVersion v)).

Record VersionCheck : Type := mkVersionCheck {
  compatible : bool;
  cliVersion : option string;
  mcpVersion : option string;
  warning : option string
}.

(** [!version]: [null] and the empty string are falsy. *)
Definition unknown (version : option string) : bool :=
  match version with
  | None => true
  | Some v => String.eqb v ""
  end.

Definition minorTolerance : Z := 20.

(** [checkVersionCompatibility], from the two versions obtained by
    [getCLIVersion] and [getMCPVersion]. *)
Definition checkVersionCompatibility (cli mcp : option string) : VersionCheck :=
  if unknown cli && unknown mcp then
    mkVersionCheck true None None
      (Some "Unable to determine version compatibility - both CLI and MCP unavailable")
  else if unknown cli then
    mkVersionCheck true None mcp (Some "CLI not available, using MCP only")
  else if unknown mcp then
    mkVersionCheck true cli None (Some "MCP not available, using CLI only")
  else
    let c := default "" cli in
    let m := default "" mcp in
    if negb (major c =? major m)%Z then
      mkVersionCheck false cli mcp
        (Some ("Major version mismatch: CLI v" +:+ c +:+ " vs MCP v" +:+ m
               +:+ ". This may cause data inconsistencies."))
    else if (minorTolerance <? Z.abs (minor c - minor m))%Z then
      mkVersionCheck false cli mcp
        (Some ("Significant version difference: CLI v" +:+ c +:+ " vs MCP v" +:+ m
               +:+ ". Consider updating both to the same version."))
    else
      mkVersionCheck true cli mcp None.

End VersionGate.

(* ===================================================================== *)
(** * Parsed JSON documents and the JavaScript operations used on them *)
(* ===================================================================== *)

(** A parsed JSON value.  A number is kept by the decimal text that
    [String(n)] prints for it ("1", "2.5", "-3"), which is also what
    [n.toString()] returns; zero is "0".  An object lists its own
    properties in insertion order, each key once. *)
#[local] Unset Elimination Schemes.
Inductive JSON : Type :=
| JNull
| JBool (b : bool)
| JNum (repr : string)
| JStr (s : string)
| JArr (items : list JSON)
| JObj (fields : list (string * JSON)).
#[local] Set Elimination Schemes.

(** Errors a JavaScript operation throws. *)
Inductive JsError : Type :=
| TypeError (what : string)
| SyntaxError
| Error (message : string).

Inductive Result (A : Type) : Type :=
| Ok (a : A)
| Throw (e : JsError).
Arguments Ok {A} a.
Arguments Throw {A} e.

Definition isOk {A : Type} (r : Result A) : bool :=
  match r with Ok _ => true | Throw _ => false end.

Definition rbind {A B : Type} (r : Result A) (k : A -> Result B) : Result B :=
  match r with
  | Ok a => k a
  | Throw e => Throw e
  end.

Module Js.

(** Truthiness: [null], [false], [0] and [""] are falsy. *)
Definition truthy (v : JSON) : bool :=
  match v with
  | JNull => false
  | JBool b => b
  | JNum r => negb (String.eqb r "0")
  | JStr s => negb (String.eqb s "")
  | JArr _ | JObj _ => true
  end.

Definition isArray (v : JSON) : bool :=
  match v with JArr _ => true | _ => false end.

(** [typeof v === 'object'] ([typeof null] is ['object'] too). *)
Definition typeofObject (v : JSON) : bool :=
  match v with JNull | JArr _ | JObj _ => true | _ => false end.

(** Canonical array index: the decimal text of a natural number. *)
Fixpoint indexOfDigits (acc : nat) (s : string) : option nat :=
  match s with
  | EmptyString => Some acc
  | String c rest =>
      if VersionGate.isDigit c
      then indexOfDigits (10 * acc + (nat_of_ascii c - 48)) rest
      else None
  end.

Definition arrayIndex (key : string) : option nat :=
  match key with
  | EmptyString => None
  | String "0"%char EmptyString => Some 0
  | String "0"%char _ => None
  | _ => indexOfDigits 0 key
  end.

(** [v[key]] for a value that is neither [null] nor [undefined]: the
    own property, if any.  [None] stands for [undefined].  Members
    inherited from a prototype ([length], [toString], ...) are not
    JSON values; they carry none of the properties the client reads
    ([tasks], [id], [subtasks], ...) and are read as [None], which is
    what every test the client makes on them comes to. *)
Definition own (v : JSON) (key : string) : option JSON :=
  match v with
  | JObj fields => JsObject.ownProperty fields key
  | JArr items =>
      match arrayIndex key with
      | Some i => items !! i
      | None => None
      end
  | _ => None
  end.

(** [v.key]: reading a property of [null] throws. *)
Definition get (v : JSON) (key : string) : Result (option JSON) :=
  match v with
  | JNull => Throw (TypeError ("Cannot read properties of null (reading '" +:+ key +:+ "')"))
  | _ => Ok (own v key)
  end.

(** [obj.key = value] on an object: an existing own property keeps its
    place, a new one is appended. *)
Fixpoint setField (fields : list (string * JSON)) (key : string) (value : JSON)
  : list (string * JSON) :=
  match fields with
  | [] => [(key, value)]
  | (k, v) :: rest =>
      if String.eqb k key then (k, value) :: rest
      else (k, v) :: setField rest key value
  end.

Definition set (obj : JSON) (key : string) (value : JSON) : JSON :=
  match obj with
  | JObj fields => JObj (setField fields key value)
  | _ => obj
  end.

Definition joinComma (parts : list string) : string :=
  match parts with
  | [] => ""
  | p :: rest => fold_left (fun acc q => acc +:+ "," +:+ q) rest p
  end.

(** [v.toString()] for a value that is neither [null] nor [undefined],
    which is also its conversion to a property key.  An array joins
    its elements with commas ([null] elements print as nothing); an
    object prints as [[object Object]], unless it has an own
    [toString] property, which a JSON value cannot make callable. *)
Fixpoint toString (v : JSON) : Result string :=
  match v with
  | JNull => Ok "null"
  | JBool true => Ok "true"
  | JBool false => Ok "false"
  | JNum r => Ok r
  | JStr s => Ok s
  | JArr items =>
      rbind
        ((fix each (l : list JSON) : Result (list string) :=
            match l with
            | [] => Ok []
            | JNull :: l' => rbind (each l') (fun ps => Ok ("" :: ps))
            | x :: l' =>
                rbind (toString x) (fun p => rbind (each l') (fun ps => Ok (p :: ps)))
            end) items)
        (fun parts => Ok (joinComma parts))
  | JObj fields =>
      match JsObject.ownProperty fields "toString" with
      | Some _ => Throw (TypeError "toString is not a function")
      | None => Ok "[object Object]"
      end
  end.

(** [task.id.toString()]. *)
Definition idToString (task : JSON) : Result string :=
  rbind (get task "id") (fun id =>
    match id with
    | None => Throw (TypeError "Cannot read properties of undefined (reading 'toString')")
    | Some JNull => Throw (TypeError "Cannot read properties of null (reading 'toString')")
    | Some v => toString v
    end).

End Js.

(* ===================================================================== *)
(** * Typed tasks *)
(* ===================================================================== *)

(** Modelled from the spec: the interface [Task] of [types.ts], which
    the client imports and which is not part of the sources at hand.
    The scalar fields a task merely carries are kept in a record of
    their own. *)
Record TaskFields : Type := mkTaskFields {
  title : string;
  description : string;
  details : string;
  testStrategy : string;
  status : string;
  priority : string;
  category : option string;
  dependencies : list string;
  created : string;
  updated : string
}.

#[local] Unset Elimination Schemes.
Inductive Task : Type :=
| mkTask (id : string) (fields : TaskFields) (parentId : option string)
         (subtasks : list Task).
#[local] Set Elimination Schemes.

Definition idOf (t : Task) : string := let 'mkTask i _ _ _ := t in i.
Definition fieldsOf (t : Task) : TaskFields := let 'mkTask _ f _ _ := t in f.
Definition parentIdOf (t : Task) : option string := let 'mkTask _ _ p _ := t in p.
Definition subtasksOf (t : Task) : list Task := let 'mkTask _ _ _ l := t in l.

(* ===================================================================== *)
(** * The world the client runs in *)
(* ===================================================================== *)

(** What a file holds, as [fs.existsSync], [fs.readFileSync] and
    [JSON.parse] see it. *)
Inductive File : Type :=
| NoFile
| Unparsable
| Doc (content : JSON).

Inductive Channel : Type := MCP | CLI | DirectFile.

(** What the client does to the outside, in order.  [Probe] is a
    question about a channel (availability, version); [Attempt] is the
    attempt to carry out the named operation over the channel. *)
Inductive Event : Type :=
| Probe (c : Channel) (what : string)
| Attempt (c : Channel) (operation : string)
| Written (path : string).

(** What [mcpClient.getTasks] followed by [validateTasksResponse] comes
    to: the call throws, the response is rejected, or a list of
    sanitized tasks is accepted. *)
Inductive McpTasks : Type :=
| McpThrows
| McpRejected
| McpAccepted (tasks : list Task).

(** The surroundings an operation cannot change: the answers of the MCP
    server and of the CLI, the configuration and the clock. *)
Record Env : Type := mkEnv {
  (** the answer to the n-th call of [isMCPServerAvailable] *)
  mcpAvailable : nat -> bool;
  (** whether [mcpClient.setTaskStatus] resolves *)
  mcpSetTaskStatus : string -> TaskStatus -> string -> bool;
  (** [mcpClient.getTasks(tag)], validated *)
  mcpGetTasks : string -> McpTasks;
  (** [mcpClient.getVersion?.()]: [None] when it throws *)
  mcpGetVersion : option (option string);
  (** standard output of [task-master --version]: [None] when it fails *)
  cliVersionOutput : option string;
  (** setting [claudeTaskMaster.preferCLIOnVersionMismatch] *)
  preferCLIOnVersionMismatch : bool;
  (** setting [claudeTaskMaster.versionCheckInterval] *)
  versionCheckInterval : Z;
  (** [Date.now()] *)
  nowMillis : Z;
  (** [new Date().toISOString()] *)
  nowISO : string;
  (** [tagManager.getCurrentTag()] *)
  managerTag : string
}.

(** What an operation can change: the files, the client's caches and the
    record of what it did. *)
Record State : Type := mkState {
  (** [tasks/tasks.json] *)
  tasksJson : File;
  (** [state.json], by the string it holds under [currentTag]: [None]
      when the file is missing or cannot be read, [""] when it has no
      tag *)
  persistedTag : option string;
  taskMasterInstalled : option bool;
  cachedCliVersion : option string;
  cachedMcpVersion : option string;
  versionCheckTimestamp : Z;
  mcpProbes : nat;
  trace : list Event
}.

Definition withTasksJson (f : File) (s : State) : State :=
  mkState f (persistedTag s) (taskMasterInstalled s) (cachedCliVersion s)
          (cachedMcpVersion s) (versionCheckTimestamp s) (mcpProbes s) (trace s).

Definition withTrace (t : list Event) (s : State) : State :=
  mkState (tasksJson s) (persistedTag s) (taskMasterInstalled s) (cachedCliVersion s)
          (cachedMcpVersion s) (versionCheckTimestamp s) (mcpProbes s) t.

Definition withProbes (n : nat) (s : State) : State :=
  mkState (tasksJson s) (persistedTag s) (taskMasterInstalled s) (cachedCliVersion s)
          (cachedMcpVersion s) (versionCheckTimestamp s) n (trace s).

Definition withCliCache (installed : bool) (version : option string) (stamp : Z)
    (s : State) : State :=
  mkState (tasksJson s) (persistedTag s) (Some installed) version
          (cachedMcpVersion s) stamp (mcpProbes s) (trace s).

Definition withMcpVersion (version : option string) (s : State) : State :=
  mkState (tasksJson s) (persistedTag s) (taskMasterInstalled s) (cachedCliVersion s)
          version (versionCheckTimestamp s) (mcpProbes s) (trace s).

(** An asynchronous method of the client: it reads the environment,
    threads the state and either resolves or rejects. *)
Definition Client (A : Type) : Type := Env -> State -> Result A * State.

Definition ret {A : Type} (a : A) : Client A := fun _ s => (Ok a, s).

Definition throw {A : Type} (e : JsError) : Client A := fun _ s => (Throw e, s).

Definition bind {A B : Type} (c : Client A) (k : A -> Client B) : Client B :=
  fun env s =>
    match c env s with
    | (Ok a, s') => k a env s'
    | (Throw e, s') => (Throw e, s')
    end.

(** [try { c } catch (error) { handler(error) }] *)
Definition tryCatch {A : Type} (c : Client A) (handler : JsError -> Client A) : Client A :=
  fun env s =>
    match c env s with
    | (Ok a, s') => (Ok a, s')
    | (Throw e, s') => handler e env s'
    end.

Definition liftResult {A : Type} (r : Result A) : Client A := fun _ s => (r, s).

Definition ask : Client Env := fun env s => (Ok env, s).

Definition getState : Client State := fun _ s => (Ok s, s).

Definition modify (f : State -> State) : Client unit := fun _ s => (Ok tt, f s).

Definition record (e : Event) (s : State) : State := withTrace (trace s ++ [e]) s.

Definition emit (e : Event) : Client unit := modify (record e).

Declare Scope client_scope.
Delimit Scope client_scope with client.
Notation "'do' x <- c ; k" := (bind c (fun x => k))
  (at level 10, x name, c at level 100, k at level 200) : client_scope.
Notation "'run' c ; k" := (bind c (fun _ => k))
  (at level 10, c at level 100, k at level 200) : client_scope.
Local Open Scope client_scope.

(* ===================================================================== *)
(** * Format detection and extraction *)
(* ===================================================================== *)

Module Format.

(** The record the extractor returns.  [tasks] is not a copy: it is
    the very array found in the container, so what is later done to
    its elements is done to the container; [origin] is the path of
    property names under which that array sits. *)
Record Extracted : Type := mkExtracted {
  tasks : list JSON;
  isTaggedFormat : bool;
  currentTag : string;
  origin : list string;
  originalContainer : JSON
}.

(** [data && data.tasks && Array.isArray(data.tasks)], with the array
    when the test holds. *)
Definition tasksArrayOf (data : option JSON) : option (list JSON) :=
  match data with
  | Some d =>
      if Js.truthy d then
        match Js.own d "tasks" with
        | Some (JArr items) => Some items
        | _ => None
        end
      else None
  | None => None
  end.

(** The tag read from [state.json]:
    [currentTag = stateData.currentTag || 'master'] when the file can
    be read, and the initial ['master'] otherwise. *)
Definition tagFromState (persisted : option string) : string :=
  match persisted with
  | Some tag => if String.eqb tag "" then "master" else tag
  | None => "master"
  end.

Definition unknownFormat : JsError := Error "Unknown tasks.json format".

Definition noTasksInTag (tag : string) : JsError :=
  Error ("No tasks found in tag '" +:+ tag +:+ "' or 'master' tag.").

(** The tag lookup shared by the two tagged branches: the tasks of the
    current tag, else those of [master], else an error. *)
Definition tasksOfTag (tagsObject : JSON) (prefix : list string) (tag : string)
    (container : JSON) : Result Extracted :=
  match tasksArrayOf (Js.own tagsObject tag) with
  | Some items => Ok (mkExtracted items true tag (prefix ++ [tag; "tasks"]) container)
  | None =>
      match tasksArrayOf (Js.own tagsObject "master") with
      | Some items =>
          Ok (mkExtracted items true "master" (prefix ++ ["master"; "tasks"]) container)
      | None => Throw (noTasksInTag tag)
      end
  end.

(** The last two branches: the legacy shape, else the error. *)
Definition legacyOrUnknown (tasksContainer : JSON) : Result Extracted :=
  match Js.own tasksContainer "tasks" with
  | Some (JArr items) => Ok (mkExtracted items false "master" ["tasks"] tasksContainer)
  | _ => Throw unknownFormat
  end.

(** [extractTasksFromContainer]. *)
Definition extractTasksFromContainer (persisted : option string) (tasksContainer : JSON)
  : Result Extracted :=
  match tasksContainer with
  | JArr items => Ok (mkExtracted items false "master" [] tasksContainer)
  | _ =>
      rbind (Js.get tasksContainer "master") (fun master =>
        match tasksArrayOf master with
        | Some _ => tasksOfTag tasksContainer [] (tagFromState persisted) tasksContainer
        | None =>
            match Js.own tasksContainer "tags" with
            | Some tags =>
                if Js.truthy tags && Js.typeofObject tags
                then tasksOfTag tags ["tags"] (tagFromState persisted) tasksContainer
                else legacyOrUnknown tasksContainer
            | None => legacyOrUnknown tasksContainer
            end
        end)
  end.

(** The tag lookup of [getTasks]: as above, but an empty list where
    the extractor throws. *)
Definition rawTasksOfTag (tagsObject : JSON) (tag : string) : list JSON :=
  match tasksArrayOf (Js.own tagsObject tag) with
  | Some items => items
  | None =>
      match tasksArrayOf (Js.own tagsObject "master") with
      | Some items => items
      | None => []
      end
  end.

Definition legacyOrNothing (parsed : JSON) : list JSON :=
  match Js.own parsed "tasks" with
  | Some (JArr items) => items
  | _ => []
  end.

(** The statement of [getTasks] that fills [rawTasks] from the parsed
    [tasks.json]. *)
Definition rawTasksOf (persisted : option string) (parsed : JSON) : Result (list JSON) :=
  match parsed with
  | JArr items => Ok items
  | _ =>
      rbind (Js.get parsed "master") (fun master =>
        match tasksArrayOf master with
        | Some _ => Ok (rawTasksOfTag parsed (tagFromState persisted))
        | None =>
            match Js.own parsed "tags" with
            | Some tags =>
                if Js.truthy tags && Js.typeofObject tags
                then Ok (rawTasksOfTag tags (tagFromState persisted))
                else Ok (legacyOrNothing parsed)
            | None => Ok (legacyOrNothing parsed)
            end
        end)
  end.

Definition itemsOf (v : option JSON) : list JSON :=
  match v with Some (JArr items) => items | _ => [] end.

Definition nullContainer : JsError :=
  TypeError "Cannot read properties of null (reading 'master')".

(** The four supported shapes, each as a test on the document alone. *)
Definition isFlatArray (doc : JSON) : bool := Js.isArray doc.

Definition isDirectTag (doc : JSON) : bool :=
  match tasksArrayOf (Js.own doc "master") with Some _ => true | None => false end.

Definition isNestedTag (doc : JSON) : bool :=
  match Js.own doc "tags" with
  | Some tags => Js.truthy tags && Js.typeofObject tags
  | None => false
  end.

Definition isLegacy (doc : JSON) : bool :=
  match Js.own doc "tasks" with Some (JArr _) => true | _ => false end.

End Format.

(* ===================================================================== *)
(** * Task store mutator: status updates in a task document *)
(* ===================================================================== *)

Module Mutator.

Import StatusNormalizer.

(** [task.status = this.denormalizeStatus(status);
     task.updated = new Date().toISOString();] *)
Definition markUpdated (status : TaskStatus) (now : string) (task : JSON) : JSON :=
  Js.set (Js.set task "status" (JStr (denormalizeStatus status))) "updated" (JStr now).

(** [for (const task of tasks) if (task.id.toString() === taskId.toString())
     { ...update...; taskUpdated = true; break; }]
    The result is [None] when no element matched, else the list with
    the first matching element updated.  The same loop runs over the
    main tasks and over the subtasks of an item. *)
Fixpoint updateFirstMatch (taskId : string) (status : TaskStatus) (now : string)
    (tasks : list JSON) : Result (option (list JSON)) :=
  match tasks with
  | [] => Ok None
  | task :: rest =>
      rbind (Js.idToString task) (fun id =>
        if String.eqb id taskId
        then Ok (Some (markUpdated status now task :: rest))
        else rbind (updateFirstMatch taskId status now rest)
                   (fun r => Ok (option_map (cons task) r)))
  end.

Definition notIterable : JsError := TypeError "item.subtasks is not iterable".

Definition noIdOnCharacter : JsError :=
  TypeError "Cannot read properties of undefined (reading 'toString')".

(** One turn of the outer loop of [updateSubtaskRecursive], for the
    element [item]: [None] when nothing under [item] matched, else
    [item] with the match updated.  The recursion follows the source:
    first the subtasks of [item] themselves, then, through the
    recursive call, what lies below them. *)
Fixpoint updateWithin (taskId : string) (status : TaskStatus) (now : string)
    (item : JSON) {struct item} : Result (option JSON) :=
  match item with
  | JNull => Throw (TypeError "Cannot read properties of null (reading 'subtasks')")
  | JObj fields =>
      rbind
        ((fix property (fs : list (string * JSON)) : Result (option (list (string * JSON))) :=
            match fs with
            | [] => Ok None
            | (k, v) :: rest =>
                if String.eqb k "subtasks" then
                  if Js.truthy v then
                    match v with
                    | JArr subtasks =>
                        rbind (updateFirstMatch taskId status now subtasks) (fun direct =>
                          match direct with
                          | Some subtasks' => Ok (Some ((k, JArr subtasks') :: rest))
                          | None =>
                              rbind
                                ((fix each (l : list JSON) : Result (option (list JSON)) :=
                                    match l with
                                    | [] => Ok None
                                    | x :: l' =>
                                        rbind (updateWithin taskId status now x) (fun r =>
                                          match r with
                                          | Some x' => Ok (Some (x' :: l'))
                                          | None =>
                                              rbind (each l')
                                                    (fun r' => Ok (option_map (cons x) r'))
                                          end)
                                    end) subtasks)
                                (fun deep =>
                                   Ok (option_map (fun subtasks' => (k, JArr subtasks') :: rest)
                                                  deep))
                          end)
                    | JStr _ => Throw noIdOnCharacter
                    | _ => Throw notIterable
                    end
                  else Ok None
                else rbind (property rest) (fun r => Ok (option_map (cons (k, v)) r))
            end) fields)
        (fun r => Ok (option_map JObj r))
  | _ => Ok None
  end.

(** [updateSubtaskRecursive(items)]. *)
Fixpoint updateSubtaskRecursive (taskId : string) (status : TaskStatus) (now : string)
    (items : list JSON) : Result (option (list JSON)) :=
  match items with
  | [] => Ok None
  | item :: rest =>
      rbind (updateWithin taskId status now item) (fun r =>
        match r with
        | Some item' => Ok (Some (item' :: rest))
        | None =>
            rbind (updateSubtaskRecursive taskId status now rest)
                  (fun r' => Ok (option_map (cons item) r'))
        end)
  end.

(** The search of [setTaskStatus]: main tasks first, subtasks when no
    main task matched. *)
Definition updateTasks (taskId : string) (status : TaskStatus) (now : string)
    (tasks : list JSON) : Result (option (list JSON)) :=
  rbind (updateFirstMatch taskId status now tasks) (fun main =>
    match main with
    | Some tasks' => Ok (Some tasks')
    | None => updateSubtaskRecursive taskId status now tasks
    end).

(** The container as it is once the elements of the extracted array
    have been changed in place: the array at [path] is [value]. *)
Fixpoint putAt (path : list string) (value : JSON) (container : JSON) : JSON :=
  match path with
  | [] => value
  | key :: rest =>
      match container with
      | JObj fields =>
          JObj
            ((fix put (fs : list (string * JSON)) : list (string * JSON) :=
                match fs with
                | [] => []
                | (k, v) :: fs' =>
                    if String.eqb k key then (k, putAt rest value v) :: fs'
                    else (k, v) :: put fs'
                end) fields)
      | JArr items =>
          match Js.arrayIndex key with
          | Some i =>
              match items !! i with
              | Some v => JArr (<[i := putAt rest value v]> items)
              | None => container
              end
          | None => container
          end
      | _ => container
      end
  end.

Definition cannotSet (key : string) : JsError :=
  TypeError ("Cannot set properties of undefined (setting '" +:+ key +:+ "')").

(** [holder[tag].tasks = tasks]: the assignment needs [holder[tag]] to
    be an object.  On an array it adds a property that
    [JSON.stringify] does not print; on a member inherited from
    [Object.prototype] it leaves the document alone; on anything else
    it throws. *)
Definition assignTasksOfTag (holder : JSON) (tag : string) (tasks : list JSON)
  : Result JSON :=
  match Js.own holder tag with
  | Some (JObj fields) => Ok (putAt [tag] (Js.set (JObj fields) "tasks" (JArr tasks)) holder)
  | Some (JArr _) => Ok holder
  | Some _ => Throw (cannotSet "tasks")
  | None =>
      if JsObject.isPrototypeMember tag then Ok holder else Throw (cannotSet "tasks")
  end.

(** [writeTasksToContainer], up to the text handed to
    [fs.writeFileSync]: the container that is serialized. *)
Definition writeTasksToContainer (tasks : list JSON) (isTaggedFormat : bool)
    (currentTag : string) (originalContainer : JSON) : Result JSON :=
  if isTaggedFormat then
    match Js.get originalContainer "tags" with
    | Throw e => Throw e
    | Ok (Some tags) =>
        if Js.truthy tags && Js.typeofObject tags
        then rbind (assignTasksOfTag tags currentTag tasks)
                   (fun tags' => Ok (Js.set originalContainer "tags" tags'))
        else assignTasksOfTag originalContainer currentTag tasks
    | Ok None => assignTasksOfTag originalContainer currentTag tasks
    end
  else if Js.isArray originalContainer then Ok (JArr tasks)
  else Ok (Js.set originalContainer "tasks" (JArr tasks)).

End Mutator.

(* ===================================================================== *)
(** * The client's operations over its channels *)
(* ===================================================================== *)

Module TaskMasterClient.

Import StatusNormalizer.

(** [isMCPServerAvailable]: it never rejects; every failure inside it
    is caught and answered [false]. *)
Definition isMCPServerAvailable : Client bool :=
  run emit (Probe MCP "isAvailable");
  do env <- ask;
  do st <- getState;
  run modify (withProbes (S (mcpProbes st)));
  ret (mcpAvailable env (mcpProbes st)).

(** [isTaskMasterInstalled], with its cache. *)
Definition isTaskMasterInstalled : Client bool :=
  do env <- ask;
  do st <- getState;
  match taskMasterInstalled st with
  | Some installed =>
      if (nowMillis env - versionCheckTimestamp st <? versionCheckInterval env)%Z
      then ret installed
      else
        run emit (Probe CLI "--version");
        match cliVersionOutput env with
        | Some out => run modify (withCliCache true (Some out) (nowMillis env)); ret true
        | None => run modify (withCliCache false None (nowMillis env)); ret false
        end
  | None =>
      run emit (Probe CLI "--version");
      match cliVersionOutput env with
      | Some out => run modify (withCliCache true (Some out) (nowMillis env)); ret true
      | None => run modify (withCliCache false None (nowMillis env)); ret false
      end
  end.

Definition getCLIVersion : Client (option string) :=
  run isTaskMasterInstalled;
  do st <- getState;
  ret (cachedCliVersion st).

(** [getMCPVersion]: [result || 'unknown'] when the server answers,
    [null] when it is not available or the call throws. *)
Definition getMCPVersion : Client (option string) :=
  tryCatch
    (do available <- isMCPServerAvailable;
     if available then
       run emit (Probe MCP "getVersion");
       do env <- ask;
       match mcpGetVersion env with
       | None => throw (Error "getVersion failed")
       | Some result =>
           let version :=
             match result with
             | Some v => if String.eqb v "" then "unknown" else v
             | None => "unknown"
             end in
           run modify (withMcpVersion (Some version));
           ret (Some version)
       end
     else ret None)
    (fun _ => ret None).

Definition checkVersionCompatibility : Client VersionGate.VersionCheck :=
  do cli <- getCLIVersion;
  do mcp <- getMCPVersion;
  ret (VersionGate.checkVersionCompatibility cli mcp).

(** Where the tasks that [getTasks] hands on come from.  The typed
    list of the MCP channel is returned as it is; the raw list read
    from [tasks.json] is what the normalization and
    [processTaskHierarchy] are then applied to; [FromTaskFiles] stands
    for the directory of single task files, read when there is no
    [tasks.json]; [NoTasks] is the empty list of the outer [catch]. *)
Inductive TasksOrigin : Type :=
| FromMCP (tasks : list Task)
| FromTasksJson (rawTasks : list JSON)
| FromTaskFiles
| NoTasks.

(** [getTasks], up to the choice of the source. *)
Definition getTasks : Client TasksOrigin :=
  tryCatch
    (do versionCheck <- checkVersionCompatibility;
     do env <- ask;
     let shouldSkipMCP :=
       negb (VersionGate.compatible versionCheck)
       && preferCLIOnVersionMismatch env
       && bool_decide (VersionGate.cliVersion versionCheck <> None) in
     do tryMCP <- (if shouldSkipMCP then ret false else isMCPServerAvailable);
     do viaMCP <-
       (if tryMCP then
          tryCatch
            (run emit (Attempt MCP "getTasks");
             match mcpGetTasks env (managerTag env) with
             | McpAccepted tasks => ret (Some tasks)
             | McpRejected => ret None
             | McpThrows => throw (Error "MCP getTasks failed")
             end)
            (fun _ => ret None)
        else ret None);
     match viaMCP with
     | Some tasks => ret (FromMCP tasks)
     | None =>
         run emit (Attempt DirectFile "getTasks");
         do st <- getState;
         match tasksJson st with
         | Doc parsed =>
             do rawTasks <- liftResult (Format.rawTasksOf (persistedTag st) parsed);
             ret (FromTasksJson rawTasks)
         | Unparsable => throw SyntaxError
         | NoFile => ret FromTaskFiles
         end
     end)
    (fun _ => ret NoTasks).

Definition tasksJsonNotFound : JsError := Error "tasks.json not found".

Definition taskNotFound (taskId : string) : JsError :=
  Error ("Task with ID " +:+ taskId +:+ " not found.").

(** The file operations of [setTaskStatus]. *)
Definition setTaskStatusInFile (taskId : string) (status : TaskStatus) : Client unit :=
  run emit (Attempt DirectFile "setTaskStatus");
  do st <- getState;
  match tasksJson st with
  | NoFile => throw tasksJsonNotFound
  | Unparsable => throw SyntaxError
  | Doc tasksContainer =>
      do info <- liftResult (Format.extractTasksFromContainer (persistedTag st) tasksContainer);
      do env <- ask;
      do updated <- liftResult (Mutator.updateTasks taskId status (nowISO env)
                                                    (Format.tasks info));
      match updated with
      | Some tasks =>
          let container := Mutator.putAt (Format.origin info) (JArr tasks) tasksContainer in
          do written <- liftResult (Mutator.writeTasksToContainer tasks
                                      (Format.isTaggedFormat info) (Format.currentTag info)
                                      container);
          run modify (withTasksJson (Doc written));
          emit (Written "tasks.json")
      | None => throw (taskNotFound taskId)
      end
  end.

(** [setTaskStatus]. *)
Definition setTaskStatus (taskId : string) (status : TaskStatus) : Client unit :=
  tryCatch
    (do available <- isMCPServerAvailable;
     do served <-
       (if available then
          tryCatch
            (run emit (Attempt MCP "setTaskStatus");
             do env <- ask;
             if mcpSetTaskStatus env taskId status (managerTag env)
             then ret true
             else throw (Error "MCP setTaskStatus failed"))
            (fun _ => ret false)
        else ret false);
     if served then ret tt else setTaskStatusInFile taskId status)
    (fun error => throw error).

End TaskMasterClient.

(* ===================================================================== *)
(** * Hierarchy builder *)
(* ===================================================================== *)

Module Hierarchy.

Definition isDot (c : ascii) : bool := Ascii.eqb c "."%char.

(** [taskId.includes('.')] *)
Fixpoint includesDot (s : string) : bool :=
  match s with
  | EmptyString => false
  | String c rest => isDot c || includesDot rest
  end.

(** [(taskId.match(/\./g) || []).length] *)
Fixpoint getNestingLevel (s : string) : nat :=
  match s with
  | EmptyString => 0
  | String c rest => (if isDot c then 1 else 0) + getNestingLevel rest
  end.

(** [taskId.lastIndexOf('.')], [None] for [-1]. *)
Fixpoint lastIndexOfDot (s : string) : option nat :=
  match s with
  | EmptyString => None
  | String c rest =>
      match lastIndexOfDot rest with
      | Some i => Some (S i)
      | None => if isDot c then Some 0 else None
      end
  end.

(** [taskId.substring(0, lastDotIndex)]; a negative end counts as 0. *)
Definition getParentId (taskId : string) : string :=
  match lastIndexOfDot taskId with
  | Some i => String.substring 0 i taskId
  | None => ""
  end.

(** An object held by [taskMap].  The objects are shared: the map, the
    [subtasks] arrays and [rootTasks] all hold references to them, and
    a reference is the key of the object in the map.  [copy] is
    [{ ...task, subtasks: task.subtasks || [] }], and [pushed] lists
    the references that [parent.subtasks.push(task)] has added to its
    array since. *)
Record TaskObject : Type := mkTaskObject {
  copy : Task;
  pushed : list string
}.

(** A JavaScript [Map]: keys in the order of their first insertion. *)
Record TaskMap : Type := mkTaskMap {
  keys : list string;
  objects : gmap string TaskObject
}.

Definition emptyMap : TaskMap := mkTaskMap [] ∅.

Definition mapSet (key : string) (value : TaskObject) (m : TaskMap) : TaskMap :=
  mkTaskMap
    (match objects m !! key with Some _ => keys m | None => keys m ++ [key] end)
    (<[key := value]> (objects m)).

Definition mapGet (key : string) (m : TaskMap) : option TaskObject := objects m !! key.

Definition setParentId (parent : string) (t : Task) : Task :=
  mkTask (idOf t) (fieldsOf t) (Some parent) (subtasksOf t).

Section Collation.

(** [a.localeCompare(b, undefined, { numeric: true })]: the sign of
    the comparison is the runtime's business. *)
Variable localeCompare : string -> string -> Z.

(** The comparator handed to [sort]. *)
Definition compareIds (a b : string) : Z :=
  let depthA := getNestingLevel a in
  let depthB := getNestingLevel b in
  if negb (depthA =? depthB)%nat
  then (Z.of_nat depthA - Z.of_nat depthB)%Z
  else localeCompare a b.

(** [Array.prototype.sort] is stable; with a consistent comparator
    every stable sort returns the same array, which insertion from
    the left builds. *)
Fixpoint insertSorted (x : string) (sorted : list string) : list string :=
  match sorted with
  | [] => [x]
  | y :: rest =>
      if (compareIds x y <? 0)%Z then x :: y :: rest
      else y :: insertSorted x rest
  end.

Definition sortIds (ids : list string) : list string :=
  fold_left (fun sorted x => insertSorted x sorted) ids [].

(** First pass: [taskMap.set(task.id, { ...task, subtasks: ... })]. *)
Definition buildMap (tasks : list Task) : TaskMap :=
  fold_left (fun m task => mapSet (idOf task) (mkTaskObject task []) m) tasks emptyMap.

(** The state of the second pass: the objects, and [rootTasks]. *)
Record Pass : Type := mkPass {
  heap : gmap string TaskObject;
  rootTasks : list string
}.

(** One turn of [sortedTaskIds.forEach]. *)
Definition place (st : Pass) (taskId : string) : Pass :=
  if includesDot taskId then
    let parentId := getParentId taskId in
    match heap st !! parentId with
    | Some parent =>
        let pushedTo :=
          <[parentId := mkTaskObject (copy parent) (pushed parent ++ [taskId])]> (heap st) in
        match pushedTo !! taskId with
        | Some task =>
            mkPass (<[taskId := mkTaskObject (setParentId parentId (copy task))
                                             (pushed task)]> pushedTo)
                   (rootTasks st)
        | None => mkPass pushedTo (rootTasks st)
        end
    | None => mkPass (heap st) (rootTasks st ++ [taskId])
    end
  else mkPass (heap st) (rootTasks st ++ [taskId]).

Definition secondPass (m : TaskMap) : Pass :=
  fold_left place (sortIds (keys m)) (mkPass (objects m) []).

(** The task behind a reference, as the caller sees it: the object's
    own fields, and behind each reference of its [subtasks] array
    the task it names.  [depth] bounds how far references are
    followed. *)
Fixpoint resolve (depth : nat) (h : gmap string TaskObject) (ref : string)
  : option Task :=
  match h !! ref with
  | None => None
  | Some obj =>
      let own := copy obj in
      Some (mkTask (idOf own) (fieldsOf own) (parentIdOf own)
              (subtasksOf own ++
               match depth with
               | O => []
               | S d => omap (resolve d h) (pushed obj)
               end))
  end.

(** A pushed task has one more dot than the task it is pushed to, so
    no chain of references is longer than the deepest id. *)
Definition maxDepth (ids : list string) : nat :=
  fold_right Nat.max 0 (map getNestingLevel ids).

Definition hasSubtasks (t : Task) : bool :=
  match subtasksOf t with [] => false | _ :: _ => true end.

(** [processTaskHierarchy]. *)
Definition processTaskHierarchy (tasks : list Task) : list Task :=
  if existsb hasSubtasks tasks then tasks
  else if negb (existsb (fun t => includesDot (idOf t)) tasks) then tasks
  else
    let taskMap := buildMap tasks in
    let final := secondPass taskMap in
    omap (resolve (S (maxDepth (keys taskMap))) (heap final)) (rootTasks final).

End Collation.

(** A task occurs in a forest, at the top or below. *)
Inductive InForest (t : Task) : list Task -> Prop :=
| InForest_here forest : In t forest -> InForest t forest
| InForest_below forest p :
    In p forest -> InForest t (subtasksOf p) -> InForest t forest.

(** [placed] stands for the input task [t]: it has the id of [t] and
    the fields of an input task with that id, which is [t] itself when
    the ids of the input are distinct (the map keeps one task per
    id). *)
Definition StandsFor (tasks : list Task) (t placed : Task) : Prop :=
  idOf placed = idOf t
  /\ exists source,
      In source tasks
      /\ idOf source = idOf t
      /\ fieldsOf placed = fieldsOf source
      /\ (parentIdOf placed = parentIdOf source
          \/ parentIdOf placed = Some (getParentId (idOf t)))
      /\ (NoDup (map idOf tasks) -> source = t).

(** A collation for the examples: the order of the code units. *)
Definition byCodeUnits (a b : string) : Z :=
  match String.compare a b with
  | Lt => (-1)%Z
  | Eq => 0%Z
  | Gt => 1%Z
  end.

Definition plainFields (name : string) : TaskFields :=
  mkTaskFields name "" "" "" "todo" "medium" None [] "" "".

Definition plainTask (taskId : string) : Task := mkTask taskId (plainFields taskId) None [].

(** The ids of the spec's two examples together: a tree under "1" and
    the orphan "2.5". *)
Definition sampleTasks : list Task :=
  map plainTask ["1.2.1"; "2.5"; "1"; "1.2"; "1.1"].

(** The id has a dot and the map holds its parent id. *)
Definition attachable (initial : gmap string TaskObject) (taskId : string) : Prop :=
  includesDot taskId = true /\ is_Some (initial !! getParentId taskId).

(** What every state of the second pass keeps of the map it started
    from: the keys; of each object the id, the fields and its own
    subtasks, and the parent id unless the object was attached; and of
    each pushed reference that it names an object of the map whose
    parent is the object pushed to. *)
Record Kept (initial : gmap string TaskObject) (st : Pass) : Prop := mkKept {
  kept_keys : forall k, is_Some (heap st !! k) <-> is_Some (initial !! k);
  kept_copy : forall k obj,
    heap st !! k = Some obj ->
    exists obj0,
      initial !! k = Some obj0
      /\ idOf (copy obj) = idOf (copy obj0)
      /\ fieldsOf (copy obj) = fieldsOf (copy obj0)
      /\ subtasksOf (copy obj) = subtasksOf (copy obj0)
      /\ (parentIdOf (copy obj) = parentIdOf (copy obj0)
          \/ (attachable initial k /\ parentIdOf (copy obj) = Some (getParentId k)));
  kept_pushed : forall k obj y,
    heap st !! k = Some obj ->
    In y (pushed obj) ->
    includesDot y = true
    /\ getParentId y = k
    /\ exists objy, heap st !! y = Some objy /\ parentIdOf (copy objy) = Some k
}.

(** Where a processed id has gone: into the [subtasks] of its parent
    when it is attachable, into [rootTasks] otherwise. *)
Definition Placed (initial : gmap string TaskObject) (st : Pass) (taskId : string) : Prop :=
  (attachable initial taskId ->
   exists parent, heap st !! getParentId taskId = Some parent /\ In taskId (pushed parent))
  /\ (~ attachable initial taskId -> In taskId (rootTasks st)).

End Hierarchy.

(* ===================================================================== *)
(** * Progress counters *)
(* ===================================================================== *)

Module Progress.

Import StatusNormalizer.

Record Counts : Type := mkCounts {
  total : nat;
  completed : nat;
  inProgress : nat;
  todo : nat;
  blocked : nat
}.

Definition zero : Counts := mkCounts 0 0 0 0 0.

(** The body of both counting loops: [total++], then the [switch] on
    [this.normalizeStatus(task.status)]. *)
Definition count (c : Counts) (taskStatus : string) : Counts :=
  let c := mkCounts (S (total c)) (completed c) (inProgress c) (todo c) (blocked c) in
  match normalizeStatus taskStatus with
  | SvStatus Completed =>
      mkCounts (total c) (S (completed c)) (inProgress c) (todo c) (blocked c)
  | SvStatus InProgress =>
      mkCounts (total c) (completed c) (S (inProgress c)) (todo c) (blocked c)
  | SvStatus Todo =>
      mkCounts (total c) (completed c) (inProgress c) (S (todo c)) (blocked c)
  | SvStatus Blocked =>
      mkCounts (total c) (completed c) (inProgress c) (todo c) (S (blocked c))
  | _ => c
  end.

(** [countMainTasks] *)
Definition countMainTasks (c : Counts) (taskItems : list Task) : Counts :=
  fold_left (fun c task => count c (status (fieldsOf task))) taskItems c.

(** One turn of the loop of [countAllItems]: the task, then
    [countAllItems(task.subtasks)]. *)
Fixpoint countItem (c : Counts) (task : Task) {struct task} : Counts :=
  match task with
  | mkTask _ f _ subs =>
      (fix countAll (c : Counts) (l : list Task) : Counts :=
         match l with
         | [] => c
         | t :: l' => countAll (countItem c t) l'
         end) (count c (status f)) subs
  end.

(** [countAllItems] *)
Definition countAllItems (c : Counts) (taskItems : list Task) : Counts :=
  fold_left countItem taskItems c.

Record TaskProgress : Type := mkTaskProgress {
  legacyTotal : nat;
  legacyCompleted : nat;
  legacyInProgress : nat;
  legacyTodo : nat;
  legacyBlocked : nat;
  mainTasks : Counts;
  allItems : Counts
}.

(** [getTaskProgress], from the tasks that [getTasks] resolved to. *)
Definition getTaskProgress (tasks : list Task) : TaskProgress :=
  let main := countMainTasks zero tasks in
  let all := countAllItems zero tasks in
  mkTaskProgress (total all) (completed all) (inProgress all) (todo all) (blocked all)
                 main all.

(** Every task of a forest with all its nested subtasks, parents
    first. *)
Fixpoint withDescendants (task : Task) : list Task :=
  match task with
  | mkTask _ _ _ subs =>
      task :: (fix below (l : list Task) : list Task :=
                 match l with
                 | [] => []
                 | t :: l' => withDescendants t ++ below l'
                 end) subs
  end.

Definition allTasks (forest : list Task) : list Task :=
  flat_map withDescendants forest.

Definition plus (a b : Counts) : Counts :=
  mkCounts (total a + total b) (completed a + completed b) (inProgress a + inProgress b)
           (todo a + todo b) (blocked a + blocked b).

(** How many of the tasks normalize to the given status. *)
Definition having (s : TaskStatus) (items : list Task) : nat :=
  length (List.filter (fun t =>
                         match normalizeStatus (status (fieldsOf t)) with
                         | SvStatus s' => TaskStatus_eqb s s'
                         | SvInherited _ => false
                         end) items).

(** The counters of a list of tasks, each counted once. *)
Definition tally (items : list Task) : Counts :=
  mkCounts (length items) (having Completed items) (having InProgress items)
           (having Todo items) (having Blocked items).

End Progress.

(* ===================================================================== *)
(** * Vocabulary of the statements *)
(* ===================================================================== *)

Module TaskDocument.

(** The id of a raw task as the client compares it, when it has one. *)
Definition ownId (task : JSON) : list string :=
  match Js.idToString task with
  | Ok id => [id]
  | Throw _ => []
  end.

(** The ids of a raw task and of its subtasks at every level. *)
Fixpoint idsOfTask (task : JSON) {struct task} : list string :=
  ownId task ++
  match task with
  | JObj fields =>
      (fix property (fs : list (string * JSON)) : list string :=
         match fs with
         | [] => []
         | (k, v) :: rest =>
             if String.eqb k "subtasks" then
               match v with
               | JArr subtasks =>
                   (fix each (l : list JSON) : list string :=
                      match l with
                      | [] => []
                      | x :: l' => idsOfTask x ++ each l'
                      end) subtasks
               | _ => []
               end
             else property rest
         end) fields
  | _ => []
  end.

Definition allIds (tasks : list JSON) : list string := flat_map idsOfTask tasks.

(** The ids that the stored document holds, at every level: those of
    the tasks that the extractor finds in [tasks.json]; there are none
    when the file is missing, does not parse, or has no format that the
    extractor knows. *)
Definition storedIds (st : State) : list string :=
  match tasksJson st with
  | Doc container =>
      match Format.extractTasksFromContainer (persistedTag st) container with
      | Ok info => allIds (Format.tasks info)
      | Throw _ => []
      end
  | _ => []
  end.

Definition isIdValue (v : JSON) : bool :=
  match v with JStr _ | JNum _ => true | _ => false end.

(** A raw task as the interface [Task] wants it: an object whose [id]
    is a string or a number and whose [subtasks], when it has any, is
    an array of such objects. *)
Fixpoint wellTyped (task : JSON) {struct task} : bool :=
  match task with
  | JObj fields =>
      match JsObject.ownProperty fields "id" with
      | Some v => isIdValue v
      | None => false
      end
      &&
      (fix property (fs : list (string * JSON)) : bool :=
         match fs with
         | [] => true
         | (k, v) :: rest =>
             if String.eqb k "subtasks" then
               match v with
               | JArr subtasks =>
                   (fix each (l : list JSON) : bool :=
                      match l with
                      | [] => true
                      | x :: l' => wellTyped x && each l'
                      end) subtasks
               | _ => negb (Js.truthy v)
               end
             else property rest
         end) fields
  | _ => false
  end.

(** The channels over which an operation was attempted, in order. *)
Fixpoint attemptsOf (events : list Event) : list Channel :=
  match events with
  | [] => []
  | Attempt c _ :: rest => c :: attemptsOf rest
  | _ :: rest => attemptsOf rest
  end.

Definition Channel_eqb (a b : Channel) : bool :=
  match a, b with
  | MCP, MCP | CLI, CLI | DirectFile, DirectFile => true
  | _, _ => false
  end.

Definition attempts (c : Channel) (events : list Event) : nat :=
  length (List.filter (Channel_eqb c) (attemptsOf events)).

(** What an operation added to the trace. *)
Definition eventsOf {A : Type} (operation : Client A) (env : Env) (st : State)
  : list Event :=
  drop (length (trace st)) (trace (snd (operation env st))).

(** The turn of the loop of [updateSubtaskRecursive] for a well-typed
    [item] finds nothing when no id of [item] is the one looked for. *)
Definition notFoundWithin (taskId : string) (status : TaskStatus) (now : string)
    (item : JSON) : Prop :=
  wellTyped item = true ->
  ~ In taskId (idsOfTask item) ->
  Mutator.updateWithin taskId status now item = Ok None.

(** The turn of the loop of [updateSubtaskRecursive] for any [item]
    changes it only when an id of [item] is the one looked for. *)
Definition foundWithin (taskId : string) (status : TaskStatus) (now : string)
    (item : JSON) : Prop :=
  forall item',
    Mutator.updateWithin taskId status now item = Ok (Some item') ->
    In taskId (idsOfTask item).

(** Whether the MCP server takes a status update: it is available at
    the next probe and its [setTaskStatus] resolves. *)
Definition servedByMCP (env : Env) (st : State) (taskId : string) (status : TaskStatus)
  : bool :=
  mcpAvailable env (mcpProbes st) && mcpSetTaskStatus env taskId status (managerTag env).

(** Whether [getTasks] distrusts the MCP server, which is its
    [shouldSkipMCP]: the version check that opens it finds the versions
    not compatible, the CLI is preferred on a mismatch, and a CLI
    version is known. *)
Definition skipsMCP (env : Env) (st : State) : bool :=
  match fst (TaskMasterClient.checkVersionCompatibility env st) with
  | Ok versionCheck =>
      negb (VersionGate.compatible versionCheck)
      && preferCLIOnVersionMismatch env
      && bool_decide (VersionGate.cliVersion versionCheck <> None)
  | Throw _ => false
  end.

(** Whether [getTasks] attempts the MCP channel: it does not distrust
    the server, and the server is available at the probe that follows
    the version check. *)
Definition asksMCP (env : Env) (st : State) : bool :=
  negb (skipsMCP env st)
  && mcpAvailable env (mcpProbes (snd (TaskMasterClient.checkVersionCompatibility env st))).

(** Whether the MCP server answers [getTasks]: it is asked, and its
    list is accepted. *)
Definition answeredByMCP (env : Env) (st : State) : bool :=
  asksMCP env st
  && match mcpGetTasks env (managerTag env) with
     | McpAccepted _ => true
     | _ => false
     end.

(** A direct-tag document with the tag [master], whose only main task
    is "1" with the subtasks "1.1" and "1.2"; every other property of
    the three tasks and every other tag is arbitrary. *)
Definition subtaskObject (id : string) (others : list (string * JSON)) : JSON :=
  JObj (("id", JStr id) :: others).

Definition parentObject (subtasks : list JSON) (others : list (string * JSON)) : JSON :=
  JObj (("id", JNum "1") :: ("subtasks", JArr subtasks) :: others).

Definition taggedDocument (parent : JSON) (otherTags : list (string * JSON)) : JSON :=
  JObj (("master", JObj [("tasks", JArr [parent])]) :: otherTags).

(** An environment without MCP server and without CLI. *)
Definition offline : Env :=
  mkEnv (fun _ => false) (fun _ _ _ => false) (fun _ => McpThrows) None None true
        300000 0 "2026-03-01T10:00:00.000Z" "master".

(** An environment whose MCP server answers the probes and then fails
    every call. *)
Definition failingMCP : Env :=
  mkEnv (fun _ => true) (fun _ _ _ => false) (fun _ => McpThrows) None None true
        300000 0 "2026-03-01T10:00:00.000Z" "master".

(** An environment whose CLI is version 0.31.0 and whose MCP server is
    available and accepts every call, but has no [getVersion]. *)
Definition versionlessMCP : Env :=
  mkEnv (fun _ => true) (fun _ _ _ => true) (fun _ => McpAccepted []) (Some None)
        (Some "0.31.0") true 300000 0 "2026-03-01T10:00:00.000Z" "master".

(** A fresh client over the given [tasks.json]; there is no
    [state.json]. *)
Definition freshOver (doc : JSON) : State :=
  mkState (Doc doc) None None None None 0 0 [].

(** The document of the scenario before and after the status of
    subtask 1.2 is set: [sibling], [subtask] and [parent] are the
    properties that the three tasks have besides their ids, and
    [otherTags] is what the document holds besides [master]. *)
Definition scenarioBefore (sibling subtask parent otherTags : list (string * JSON)) : JSON :=
  taggedDocument
    (parentObject [subtaskObject "1.1" sibling; subtaskObject "1.2" subtask] parent)
    otherTags.

Definition scenarioAfter (now : string)
    (sibling subtask parent otherTags : list (string * JSON)) : JSON :=
  taggedDocument
    (parentObject
       [ subtaskObject "1.1" sibling;
         subtaskObject "1.2"
           (Js.setField (Js.setField subtask "status" (JStr "done")) "updated" (JStr now)) ]
       parent)
    otherTags.

Definition stamped2025 (title status : string) : list (string * JSON) :=
  [("title", JStr title); ("status", JStr status);
   ("updated", JStr "2025-01-01T00:00:00.000Z")].

(** The scenario with every task stamped in 2025. *)
Definition scenario : JSON :=
  scenarioBefore (stamped2025 "first" "pending") (stamped2025 "second" "pending")
                 (stamped2025 "main" "in-progress") [].

(** The main tasks of a direct-tag document under [master]. *)
Definition masterTasks (doc : File) : list JSON :=
  match doc with
  | Doc d => Format.itemsOf (Js.own (default JNull (Js.own d "master")) "tasks")
  | _ => []
  end.

(** A document that holds the tag [feature] with one task, and no
    [master]. *)
Definition featureOnly : JSON :=
  JObj [("feature",
         JObj [("tasks", JArr [JObj [("id", JNum "1"); ("title", JStr "A");
                                     ("status", JStr "pending")]])])].

End TaskDocument.

(* ===================================================================== *)
(** * Task ids *)
(* ===================================================================== *)

Module TaskIds.

Import Hierarchy.

(** [s.split('.')]: the segments between the dots, of which there is
    always at least one. *)
Fixpoint splitOnDot (s : string) : list string :=
  match s with
  | EmptyString => [""]
  | String c rest =>
      if isDot c then "" :: splitOnDot rest
      else
        match splitOnDot rest with
        | segment :: segments => String c segment :: segments
        | [] => [String c ""]
        end
  end.

(** [parts.join('.')] *)
Fixpoint joinDot (parts : list string) : string :=
  match parts with
  | [] => ""
  | [part] => part
  | part :: rest => part +:+ "." +:+ joinDot rest
  end.

(** [extractParentTaskId] of [extension.ts]: [idStr.split('.')[0]] for
    a dotted id, [undefined] otherwise. *)
Definition extractParentTaskId (taskId : string) : option string :=
  if includesDot taskId then head (splitOnDot taskId) else None.

(** The order in which the sort of [processTaskHierarchy] puts two ids
    of different nesting levels: the one of fewer dots first. *)
Definition byLevel (a b : string) : Prop := getNestingLevel a <= getNestingLevel b.

End TaskIds.

(* ===================================================================== *)
(** * Mutations of the task file besides the status of a task *)
(* ===================================================================== *)

Module TaskVocabulary.

(** Whether the id of a raw task prints as [id]. *)
Definition hasId (id : string) (task : JSON) : bool :=
  match Js.idToString task with
  | Ok own => String.eqb own id
  | Throw _ => false
  end.

(** Whether a raw task has an id to print. *)
Definition hasAnId (task : JSON) : bool := isOk (Js.idToString task).

End TaskVocabulary.

Module TaskOperations.

Import StatusNormalizer TaskMasterClient.

(** [tasks.find(task => task.id.toString() === id)]: the first element
    whose id prints as [id], with the elements before and after it;
    the callback throws on an element without id. *)
Fixpoint findById (id : string) (tasks : list JSON)
  : Result (option (list JSON * JSON * list JSON)) :=
  match tasks with
  | [] => Ok None
  | task :: rest =>
      rbind (Js.idToString task) (fun own =>
        if String.eqb own id then Ok (Some ([], task, rest))
        else
          rbind (findById id rest) (fun found =>
            Ok (option_map (fun '(before, t, after) => (task :: before, t, after)) found)))
  end.

(** [tasks.filter(task => task.id.toString() !== taskId.toString())] *)
Fixpoint withoutId (taskId : string) (tasks : list JSON) : Result (list JSON) :=
  match tasks with
  | [] => Ok []
  | task :: rest =>
      rbind (Js.idToString task) (fun id =>
        rbind (withoutId taskId rest) (fun kept =>
          Ok (if String.eqb id taskId then kept else task :: kept)))
  end.

Definition mainTaskNotFound (taskId : string) : JsError :=
  Error ("Main task " +:+ taskId +:+ " not found.").

(** [deleteTask]: the file is the only channel. *)
Definition deleteTask (taskId : string) : Client unit :=
  tryCatch
    (run emit (Attempt DirectFile "deleteTask");
     do st <- getState;
     match tasksJson st with
     | NoFile => throw tasksJsonNotFound
     | Unparsable => throw SyntaxError
     | Doc tasksContainer =>
         do info <- liftResult (Format.extractTasksFromContainer (persistedTag st)
                                  tasksContainer);
         do filteredTasks <- liftResult (withoutId taskId (Format.tasks info));
         if (length filteredTasks <? length (Format.tasks info))%nat then
           do written <- liftResult (Mutator.writeTasksToContainer filteredTasks
                                       (Format.isTaggedFormat info) (Format.currentTag info)
                                       tasksContainer);
           run modify (withTasksJson (Doc written));
           emit (Written "tasks.json")
         else throw (mainTaskNotFound taskId)
     end)
    (fun error => throw error).

Definition parentNotFound (parentTaskId : string) : JsError :=
  Error ("Parent task with ID " +:+ parentTaskId +:+ " not found.").

Definition noSubtasks (parentTaskId : string) : JsError :=
  Error ("Parent task " +:+ parentTaskId +:+ " has no subtasks.").

Definition subtaskNotFound (subtaskId parentTaskId : string) : JsError :=
  Error ("Subtask with ID " +:+ subtaskId +:+ " not found in parent task "
         +:+ parentTaskId +:+ ".").

Definition findNotAFunction : JsError :=
  TypeError "parentTask.subtasks.find is not a function".

(** The search and the assignments of [setSubtaskStatus] on the
    extracted tasks: the parent among the main tasks, the subtask
    among the subtasks of the parent; then the status and the stamp
    of the subtask, and the stamp of the parent. *)
Definition updateSubtaskOf (parentTaskId subtaskId : string) (status : TaskStatus)
    (now : string) (tasks : list JSON) : Result (list JSON) :=
  rbind (findById parentTaskId tasks) (fun parent =>
    match parent with
    | None => Throw (parentNotFound parentTaskId)
    | Some (before, parentTask, after) =>
        match Js.own parentTask "subtasks" with
        | Some subtasks =>
            if Js.truthy subtasks then
              match subtasks with
              | JArr items =>
                  rbind (findById subtaskId items) (fun sub =>
                    match sub with
                    | None => Throw (subtaskNotFound subtaskId parentTaskId)
                    | Some (earlier, subtask, later) =>
                        let items' :=
                          earlier ++ Mutator.markUpdated status now subtask :: later in
                        Ok (before
                            ++ Js.set (Js.set parentTask "subtasks" (JArr items'))
                                      "updated" (JStr now)
                            :: after)
                    end)
              | _ => Throw findNotAFunction
              end
            else Throw (noSubtasks parentTaskId)
        | None => Throw (noSubtasks parentTaskId)
        end
    end).

(** The file operations of [setSubtaskStatus]. *)
Definition setSubtaskStatusInFile (parentTaskId subtaskId : string) (status : TaskStatus)
  : Client unit :=
  run emit (Attempt DirectFile "setSubtaskStatus");
  do st <- getState;
  match tasksJson st with
  | NoFile => throw tasksJsonNotFound
  | Unparsable => throw SyntaxError
  | Doc tasksContainer =>
      do info <- liftResult (Format.extractTasksFromContainer (persistedTag st) tasksContainer);
      do env <- ask;
      do tasks <- liftResult (updateSubtaskOf parentTaskId subtaskId status (nowISO env)
                                              (Format.tasks info));
      let container := Mutator.putAt (Format.origin info) (JArr tasks) tasksContainer in
      do written <- liftResult (Mutator.writeTasksToContainer tasks
                                  (Format.isTaggedFormat info) (Format.currentTag info)
                                  container);
      run modify (withTasksJson (Doc written));
      emit (Written "tasks.json")
  end.

(** [setSubtaskStatus]: the MCP server is asked to set the status of
    [subtaskId]; the file is the fallback. *)
Definition setSubtaskStatus (parentTaskId subtaskId : string) (status : TaskStatus)
  : Client unit :=
  tryCatch
    (do available <- isMCPServerAvailable;
     do served <-
       (if available then
          tryCatch
            (run emit (Attempt MCP "setTaskStatus");
             do env <- ask;
             if mcpSetTaskStatus env subtaskId status (managerTag env)
             then ret true
             else throw (Error "MCP setTaskStatus failed"))
            (fun _ => ret false)
        else ret false);
     if served then ret tt else setSubtaskStatusInFile parentTaskId subtaskId status)
    (fun error => throw error).

(** [Object.assign(task, updates)] on an object: the own enumerable
    properties of [updates] are assigned in their order.  [updates] is
    given by these properties, each with a JSON value.  An assignment
    to [__proto__] reaches the setter that [Object.prototype] has for
    it and makes no own property. *)
Definition assign (task : JSON) (updates : list (string * JSON)) : JSON :=
  fold_left (fun target kv =>
               if String.eqb (fst kv) "__proto__" then target
               else Js.set target (fst kv) (snd kv))
            updates task.

(** [Object.assign(task, updates); task.updated = new Date().toISOString();] *)
Definition applyUpdates (updates : list (string * JSON)) (now : string) (task : JSON) : JSON :=
  Js.set (assign task updates) "updated" (JStr now).

(** [updateTask]: the MCP server is asked whether it is there and is
    not used; the main tasks of the file are searched. *)
Definition updateTask (taskId : string) (updates : list (string * JSON)) : Client unit :=
  tryCatch
    (run isMCPServerAvailable;
     run emit (Attempt DirectFile "updateTask");
     do st <- getState;
     match tasksJson st with
     | NoFile => throw tasksJsonNotFound
     | Unparsable => throw SyntaxError
     | Doc tasksContainer =>
         do info <- liftResult (Format.extractTasksFromContainer (persistedTag st)
                                  tasksContainer);
         do env <- ask;
         do found <- liftResult (findById taskId (Format.tasks info));
         match found with
         | Some (before, task, after) =>
             let tasks := before ++ applyUpdates updates (nowISO env) task :: after in
             let container := Mutator.putAt (Format.origin info) (JArr tasks) tasksContainer in
             do written <- liftResult (Mutator.writeTasksToContainer tasks
                                         (Format.isTaggedFormat info) (Format.currentTag info)
                                         container);
             run modify (withTasksJson (Doc written));
             emit (Written "tasks.json")
         | None => throw (taskNotFound taskId)
         end
     end)
    (fun error => throw error).

End TaskOperations.

(* ===================================================================== *)
(** * Queries on the resolved tasks *)
(* ===================================================================== *)

Module TaskQueries.

Import Hierarchy TaskIds.

(** [tasks.find(task => task.id.toString() === id)] on typed tasks,
    whose ids are strings. *)
Definition findTask (id : string) (tasks : list Task) : option Task :=
  List.find (fun t => String.eqb (idOf t) id) tasks.

(** [parts[0] || ''] for [parts = taskId.split('.')]. *)
Definition firstSegment (taskId : string) : string := hd "" (splitOnDot taskId).

(** [s.split('.').slice(1).join('.')]: what follows the first dot. *)
Definition afterFirstDot (s : string) : string := joinDot (tl (splitOnDot s)).

(** One turn of the loop of [findSubtaskById], for the element [task]:
    a subtask of [task] with the id, else what the recursive call on
    the subtasks of [task] finds. *)
Fixpoint findBelow (taskId : string) (task : Task) {struct task} : option Task :=
  match task with
  | mkTask _ _ _ subtasks =>
      match findTask taskId subtasks with
      | Some found => Some found
      | None =>
          (fix each (l : list Task) : option Task :=
             match l with
             | [] => None
             | t :: l' =>
                 match findBelow taskId t with
                 | Some found => Some found
                 | None => each l'
                 end
             end) subtasks
      end
  end.

(** The local [findSubtaskById] of [getTaskDetails]. *)
Fixpoint findSubtaskById (taskId : string) (searchTasks : list Task) : option Task :=
  match searchTasks with
  | [] => None
  | task :: rest =>
      match findBelow taskId task with
      | Some found => Some found
      | None => findSubtaskById taskId rest
      end
  end.

(** [getTaskDetails], from the tasks that [getTasks] resolved to.  An
    absent [subtaskId] and an empty one are both falsy.  A task
    without [subtasks] has the empty list here; the tests on
    [mainTask.subtasks] and on [task.subtasks.length] come to the same
    result for both. *)
Definition getTaskDetails (tasks : list Task) (taskId : string) (subtaskId : option string)
  : option Task :=
  let plain :=
    if includesDot taskId then
      let mainTaskId := firstSegment taskId in
      let subtaskIdFromDot := afterFirstDot taskId in
      if String.eqb mainTaskId "" then None
      else
        match findTask mainTaskId tasks with
        | Some mainTask =>
            if String.eqb subtaskIdFromDot "" then None
            else
              List.find (fun sub => String.eqb (idOf sub) taskId
                                    || String.eqb (idOf sub) subtaskIdFromDot)
                        (subtasksOf mainTask)
        | None => None
        end
    else
      match findTask taskId tasks with
      | Some mainTask => Some mainTask
      | None => findSubtaskById taskId tasks
      end in
  match subtaskId with
  | Some sub =>
      if String.eqb sub "" then plain
      else
        match findTask taskId tasks with
        | Some mainTask =>
            match findTask sub (subtasksOf mainTask) with
            | Some found => Some found
            | None =>
                match findTask (taskId +:+ "." +:+ sub) (subtasksOf mainTask) with
                | Some found => Some found
                | None =>
                    List.find (fun s => includesDot (idOf s)
                                        && String.eqb (afterFirstDot (idOf s)) sub)
                              (subtasksOf mainTask)
                end
            end
        | None => None
        end
  | None => plain
  end.

(** [priorityOrder] of [getNextTask]. *)
Definition priorityOrder : list (string * Z) :=
  [("critical", 4%Z); ("high", 3%Z); ("medium", 2%Z); ("low", 1%Z)].

(** [priorityOrder[priority] || 0]: a number, or the member that the
    table inherits from [Object.prototype] under that name. *)
Definition priorityOf (task : Task) : JsObject.Lookup Z :=
  JsObject.get priorityOrder (priority (fieldsOf task)).

(** The number for a priority that is no inherited member. *)
Definition rank (task : Task) : Z :=
  match priorityOf task with
  | JsObject.Own n => n
  | _ => 0%Z
  end.

(** The comparator [(a, b) => bPriority - aPriority].  With an
    inherited member on either side the difference is [NaN], which
    [sort] takes for [0]. *)
Definition byPriority (a b : Task) : Z :=
  match priorityOf a, priorityOf b with
  | JsObject.Inherited _, _ | _, JsObject.Inherited _ => 0%Z
  | _, _ => (rank b - rank a)%Z
  end.

(** The filter of [getNextTask]: not completed, and every dependency
    names a main task that is completed. *)
Definition isAvailable (tasks : list Task) (task : Task) : bool :=
  negb (String.eqb (status (fieldsOf task)) "completed")
  && forallb (fun depId =>
                match findTask depId tasks with
                | Some dep => String.eqb (status (fieldsOf dep)) "completed"
                | None => false
                end)
             (dependencies (fieldsOf task)).

Section Sort.

Context {A : Type} (compare : A -> A -> Z).

(** [Array.prototype.sort] with a consistent comparator: the stable
    sort, built by insertion from the left. *)
Fixpoint insertBy (x : A) (sorted : list A) : list A :=
  match sorted with
  | [] => [x]
  | y :: rest =>
      if (compare x y <? 0)%Z then x :: y :: rest
      else y :: insertBy x rest
  end.

Definition sortBy (items : list A) : list A :=
  fold_left (fun sorted x => insertBy x sorted) items [].

End Sort.

(** [getNextTask], from the tasks that [getTasks] resolved to:
    [availableTasks[0] || null] after the sort. *)
Definition getNextTask (tasks : list Task) : option Task :=
  head (sortBy byPriority (List.filter (isAvailable tasks) tasks)).

End TaskQueries.

(* ===================================================================== *)
(** * The tree view: expansion state and status groups *)
(* ===================================================================== *)

Module TreeView.

(** The expansion state of [TaskProvider]: the flag [allExpanded], the
    set [expandedItems], and how often [refresh()] was asked for. *)
Record Expansion : Type := mkExpansion {
  allExpanded : bool;
  expandedItems : gset string;
  refreshes : nat
}.

(** [refresh()] schedules the redraw and leaves the expansion state
    alone; the calls are counted. *)
Definition refresh (s : Expansion) : Expansion :=
  mkExpansion (allExpanded s) (expandedItems s) (S (refreshes s)).

(** [expandAll] *)
Definition expandAll (s : Expansion) : Expansion :=
  refresh (mkExpansion true ∅ (refreshes s)).

(** [collapseAll] *)
Definition collapseAll (s : Expansion) : Expansion :=
  refresh (mkExpansion false ∅ (refreshes s)).

(** [toggleExpansion] *)
Definition toggleExpansion (itemKey : string) (s : Expansion) : Expansion :=
  let items :=
    if decide (itemKey ∈ expandedItems s)
    then expandedItems s ∖ {[itemKey]}
    else expandedItems s ∪ {[itemKey]} in
  refresh (mkExpansion (if allExpanded s then false else allExpanded s) items (refreshes s)).

(** [isExpanded] *)
Definition isExpanded (itemKey : string) (s : Expansion) : bool :=
  if allExpanded s then true else bool_decide (itemKey ∈ expandedItems s).

(** The table [groups] of [groupTasksByStatus], in the order of its
    keys. *)
Definition groupKeys : list string :=
  ["todo"; "in-progress"; "completed"; "blocked"; "deferred"; "cancelled"; "review"].

Definition emptyGroups : list (string * list Task) := map (fun k => (k, [])) groupKeys.

(** The key under which [groupTasksByStatus] looks a status up. *)
Definition groupKeyOf (taskStatus : string) : string :=
  if String.eqb taskStatus "pending" then "todo"
  else if String.eqb taskStatus "done" then "completed"
  else taskStatus.

Fixpoint pushTo (key : string) (task : Task) (groups : list (string * list Task))
  : list (string * list Task) :=
  match groups with
  | [] => []
  | (k, members) :: rest =>
      if String.eqb k key then (k, members ++ [task]) :: rest
      else (k, members) :: pushTo key task rest
  end.

Definition pushNotAFunction : JsError := TypeError "statusGroup.push is not a function".

(** One turn of [tasks.forEach]: [groups[normalizedStatus]] is one of
    the seven arrays, or a member inherited from [Object.prototype],
    which is truthy and has no [push], or [undefined]. *)
Definition groupTask (groups : list (string * list Task)) (task : Task)
  : Result (list (string * list Task)) :=
  let key := groupKeyOf (status (fieldsOf task)) in
  match JsObject.get groups key with
  | JsObject.Own _ => Ok (pushTo key task groups)
  | JsObject.Inherited _ => Throw pushNotAFunction
  | JsObject.Undefined => Ok groups
  end.

(** [groupTasksByStatus] *)
Definition groupTasksByStatus (tasks : list Task) : Result (list (string * list Task)) :=
  fold_left (fun acc task => rbind acc (fun groups => groupTask groups task))
            tasks (Ok emptyGroups).

End TreeView.

(* ===================================================================== *)
(** * Validation of a tasks response *)
(* ===================================================================== *)

Module Validation.

Import StatusNormalizer.

(** A task as [validateTasksResponse] builds it: [id], [title],
    [description], [details] and the dependencies are strings;
    [status] is what [normalizeStatus] returns; [priority],
    [category], [created] and [updated] are taken over as they
    come. *)
#[local] Unset Elimination Schemes.
Inductive Sanitized : Type :=
| mkSanitized (id title description details : string) (status : StatusValue)
              (priority category created updated : JSON) (dependencies : list string)
              (subtasks : list Sanitized).
#[local] Set Elimination Schemes.

Definition sanitizedId (s : Sanitized) : string :=
  let 'mkSanitized i _ _ _ _ _ _ _ _ _ _ := s in i.
Definition sanitizedTitle (s : Sanitized) : string :=
  let 'mkSanitized _ t _ _ _ _ _ _ _ _ _ := s in t.
Definition sanitizedStatus (s : Sanitized) : StatusValue :=
  let 'mkSanitized _ _ _ _ st _ _ _ _ _ _ := s in st.
Definition sanitizedSubtasks (s : Sanitized) : list Sanitized :=
  let 'mkSanitized _ _ _ _ _ _ _ _ _ _ l := s in l.

(** [task.key] when it is truthy. *)
Definition truthyOwn (task : JSON) (key : string) : option JSON :=
  match Js.own task key with
  | Some v => if Js.truthy v then Some v else None
  | None => None
  end.

(** [task.key || fallback] *)
Definition orElse (task : JSON) (key : string) (fallback : JSON) : JSON :=
  default fallback (truthyOwn task key).

(** [task.key ? String(task.key) : ''] *)
Definition stringOrEmpty (task : JSON) (key : string) : Result string :=
  match truthyOwn task key with
  | Some v => Js.toString v
  | None => Ok ""
  end.

(** [this.normalizeStatus(task.status || 'pending')]: the lookup
    converts its key to a string. *)
Definition statusOf (task : JSON) : Result StatusValue :=
  match truthyOwn task "status" with
  | Some v => rbind (Js.toString v) (fun key => Ok (normalizeStatus key))
  | None => Ok (normalizeStatus "pending")
  end.

(** [dependencies.map(dep => String(dep))] *)
Fixpoint strings (values : list JSON) : Result (list string) :=
  match values with
  | [] => Ok []
  | v :: rest =>
      rbind (Js.toString v) (fun s => rbind (strings rest) (fun ss => Ok (s :: ss)))
  end.

Definition dependenciesOf (task : JSON) : Result (list string) :=
  match Js.own task "dependencies" with
  | Some (JArr values) => strings values
  | _ => Ok []
  end.

(** Whether the loop keeps an entry: it is truthy and so are its [id]
    and its [title]. *)
Definition accepted (task : JSON) : bool :=
  Js.truthy task
  && bool_decide (is_Some (truthyOwn task "id"))
  && bool_decide (is_Some (truthyOwn task "title")).

(** One turn of the loop of [validateTasksResponse]: [None] for an
    entry that is skipped.  The recursive call on [task.subtasks] has
    its own [try], so that what it throws empties the subtasks and no
    more. *)
Fixpoint sanitize (now : string) (task : JSON) {struct task} : Result (option Sanitized) :=
  if negb (Js.truthy task) then Ok None
  else
    match truthyOwn task "id", truthyOwn task "title" with
    | Some id, Some title =>
        rbind (Js.toString id) (fun id' =>
        rbind (Js.toString title) (fun title' =>
        rbind (stringOrEmpty task "description") (fun description' =>
        rbind (stringOrEmpty task "details") (fun details' =>
        rbind (statusOf task) (fun status' =>
        rbind (dependenciesOf task) (fun dependencies' =>
          Ok (Some
                (mkSanitized id' title' description' details' status'
                   (orElse task "priority" (JStr "medium"))
                   (orElse task "category" (JStr ""))
                   (orElse task "created" (JStr now))
                   (orElse task "updated" (JStr now))
                   dependencies'
                   match task with
                   | JObj fields =>
                       (fix property (fs : list (string * JSON)) : list Sanitized :=
                          match fs with
                          | [] => []
                          | (k, v) :: rest =>
                              if String.eqb k "subtasks" then
                                match v with
                                | JArr subtasks =>
                                    match
                                      (fix each (l : list JSON) : Result (list Sanitized) :=
                                         match l with
                                         | [] => Ok []
                                         | x :: l' =>
                                             rbind (sanitize now x) (fun kept =>
                                             rbind (each l') (fun others =>
                                               Ok (match kept with
                                                   | Some s => s :: others
                                                   | None => others
                                                   end)))
                                         end) subtasks
                                    with
                                    | Ok validated => validated
                                    | Throw _ => []
                                    end
                                | _ => []
                                end
                              else property rest
                          end) fields
                   | _ => []
                   end))))))))
    | _, _ => Ok None
    end.

(** The loop over the entries of the response. *)
Fixpoint sanitizeAll (now : string) (tasks : list JSON) : Result (list Sanitized) :=
  match tasks with
  | [] => Ok []
  | task :: rest =>
      rbind (sanitize now task) (fun kept =>
      rbind (sanitizeAll now rest) (fun others =>
        Ok (match kept with
            | Some s => s :: others
            | None => others
            end)))
  end.

(** [validateTasksResponse]: [None] stands for [null]. *)
Definition validateTasksResponse (now : string) (tasks : JSON) : option (list Sanitized) :=
  match tasks with
  | JArr items =>
      match sanitizeAll now items with
      | Ok validTasks => Some validTasks
      | Throw _ => None
      end
  | _ => None
  end.

(** What the loop keeps of an entry [item] as the task [s]: the id and
    the title as strings, the status normalized, and for subtasks what
    the function returns for [item.subtasks] when that is an array,
    nothing otherwise or when that call returns [null]. *)
Definition keptAs (now : string) (item : JSON) (s : Sanitized) : Prop :=
  exists id title,
    truthyOwn item "id" = Some id
    /\ truthyOwn item "title" = Some title
    /\ Js.toString id = Ok (sanitizedId s)
    /\ Js.toString title = Ok (sanitizedTitle s)
    /\ statusOf item = Ok (sanitizedStatus s)
    /\ sanitizedSubtasks s
       = match Js.own item "subtasks" with
         | Some (JArr subtasks) => default [] (validateTasksResponse now (JArr subtasks))
         | _ => []
         end.

End Validation.

(* ===================================================================== *)
(** * Inputs of the examples *)
(* ===================================================================== *)

Module Samples.

Import StatusNormalizer Format TaskDocument Hierarchy Validation.

(** The tasks of the scenario, and what the extraction yields for it. *)
Definition firstSubtask : JSON := subtaskObject "1.1" (stamped2025 "first" "pending").

Definition secondSubtask : JSON := subtaskObject "1.2" (stamped2025 "second" "pending").

Definition mainTask : JSON :=
  parentObject [firstSubtask; secondSubtask] (stamped2025 "main" "in-progress").

Definition scenarioInfo : Extracted :=
  mkExtracted [mainTask] true "master" ["master"; "tasks"] scenario.

(** Typed tasks for the examples: the main tasks "1" and "2"; under
    "1" the subtasks "1.1" and "2", and under "1.1" the subtask "7". *)
Definition leaf (taskId : string) : Task := plainTask taskId.

Definition withSubtasks (taskId : string) (subtasks : list Task) : Task :=
  mkTask taskId (plainFields taskId) None subtasks.

Definition tree : list Task :=
  [withSubtasks "1" [withSubtasks "1.1" [leaf "7"]; leaf "2"]; leaf "2"].

(** Three main tasks: "1" of low priority, "2" and "3" of high
    priority, "3" depending on "1". *)
Definition prioritized (taskId taskPriority : string) (deps : list string) : Task :=
  mkTask taskId (mkTaskFields taskId "" "" "" "todo" taskPriority None deps "" "") None [].

Definition queue : list Task :=
  [prioritized "1" "low" []; prioritized "2" "high" []; prioritized "3" "high" ["1"]].

(** A response of three entries, of which the second is [null] and the
    third has no title; and what is kept of it. *)
Definition response : JSON :=
  JArr [ JObj [("id", JNum "1"); ("title", JStr "A"); ("status", JStr "done")];
         JNull;
         JObj [("id", JNum "2")] ].

Definition validated (now : string) : list Sanitized :=
  [ mkSanitized "1" "A" "" "" (SvStatus Completed) (JStr "medium") (JStr "")
                (JStr now) (JStr now) [] [] ].

(** A document with both tagged shapes: [master] with its tasks at the
    top, and an object under [tags] that has a [master] of its own. *)
Definition bothShapes : JSON :=
  JObj [ ("master", JObj [("tasks", JArr [mainTask])]);
         ("tags", JObj [("master", JObj [("tasks", JArr [])])]) ].

End Samples.

(* ===================================================================== *)
(** * Properties of the status normalizer *)
(* ===================================================================== *)

Module StatusNormalizerFacts.

Import StatusNormalizer.

Lemma statusToken_inj (a b : TaskStatus) : statusToken a = statusToken b -> a = b.
Proof. destruct a, b; simpl; intros H; first [reflexivity | discriminate H]. Qed.

(** C4, as stated, fails: [completed] is not the only status whose
    write token differs from the status itself; [todo] is written
    back as [pending]. *)
Lemma denormalizeStatus_not_identity_up_to_completed :
  ~ (forall s : TaskStatus,
       denormalizeStatus s = if TaskStatus_eqb s Completed then "done" else statusToken s).
Proof.
  intros H. specialize (H Todo). vm_compute in H. discriminate H.
Qed.

(** C4, amended: [denormalizeStatus] returns the status itself for
    in-progress, blocked, deferred, cancelled and review, and it has
    two exceptions, [todo -> "pending"] and [completed -> "done"]. *)
Theorem denormalizeStatus_table (s : TaskStatus) :
  denormalizeStatus s = writeToken s.
Proof. destruct s; reflexivity. Qed.

(** Every own entry of the table round-trips to a fixed point of the
    composed map, the write token of its status. *)
Lemma roundTrip_fixed_point (raw : string) (s : TaskStatus) :
  In (raw, s) normalizeMap ->
  roundTrip raw = Some (writeToken s) /\ roundTrip (writeToken s) = Some (writeToken s).
Proof.
  simpl. intros H.
  repeat (destruct H as [H | H]; [inversion H; subst; split; reflexivity |]).
  destruct H.
Qed.

Lemma ownProperty_None_not_raw (raw : string) :
  ~ In raw rawStatuses -> JsObject.ownProperty normalizeMap raw = None.
Proof.
  unfold rawStatuses. generalize normalizeMap as table.
  induction table as [| [k v] table IH]; simpl; intros Hnot; [reflexivity |].
  destruct (String.eqb_spec k raw) as [-> | Hne].
  - exfalso. apply Hnot. now left.
  - apply IH. intros Hin. apply Hnot. now right.
Qed.

(** A string outside the table that is not the name of a member of
    [Object.prototype] normalizes to [todo]. *)
Lemma normalizeStatus_unknown (raw : string) :
  ~ In raw rawStatuses ->
  JsObject.isPrototypeMember raw = false ->
  normalizeStatus raw = SvStatus Todo.
Proof.
  intros Hnot Hmember. unfold normalizeStatus, JsObject.get.
  rewrite (ownProperty_None_not_raw raw Hnot), Hmember. reflexivity.
Qed.

(** C6: the string "constructor" is not in the mapping table, and
    [normalizeStatus] does not answer [todo] for it: the lookup
    [statusMap[status]] finds the member that the table inherits from
    [Object.prototype], which is truthy, so ['todo'] is not
    substituted. *)
Theorem normalizeStatus_constructor :
  ~ In "constructor" rawStatuses /\
  normalizeStatus "constructor" = SvInherited "constructor" /\
  normalizeStatus "constructor" <> SvStatus Todo.
Proof.
  split; [| split].
  - vm_compute. intros H. repeat (destruct H as [H | H]; [discriminate H |]). exact H.
  - reflexivity.
  - vm_compute. discriminate.
Qed.

End StatusNormalizerFacts.

(* ===================================================================== *)
(** * Properties of the version gate *)
(* ===================================================================== *)

Module VersionGateFacts.

Import VersionGate.
Local Open Scope Z_scope.

(** The policy on the two values that [getCLIVersion] and
    [getMCPVersion] return: when both are truthy the result is
    incompatible exactly when the major segments differ or the minor
    segments differ by more than 20; when either is [null] or empty the
    result is compatible and carries a warning. *)
Theorem checkVersionCompatibility_policy (cli mcp : option string) :
  let result := checkVersionCompatibility cli mcp in
  let c := default "" cli in
  let m := default "" mcp in
  if unknown cli || unknown mcp
  then compatible result = true /\ warning result <> None
  else compatible result
       = (major c =? major m) && negb (20 <? Z.abs (minor c - minor m)).
Proof.
  unfold checkVersionCompatibility, minorTolerance.
  destruct (unknown cli), (unknown mcp); simpl; try (split; [reflexivity | discriminate]).
  destruct (major _ =? major _); simpl; [| reflexivity].
  destruct (20 <? _); reflexivity.
Qed.

(** A major mismatch is incompatible whatever the rest. *)
Lemma major_mismatch_incompatible (c m : string) :
  c <> "" -> m <> "" -> major c <> major m ->
  compatible (checkVersionCompatibility (Some c) (Some m)) = false.
Proof.
  intros Hc Hm Hmajor.
  pose proof (checkVersionCompatibility_policy (Some c) (Some m)) as H.
  simpl in H. apply String.eqb_neq in Hc, Hm. rewrite Hc, Hm in H. simpl in H.
  rewrite H. apply Z.eqb_neq in Hmajor. now rewrite Hmajor.
Qed.

(** The two cases of the spec: 1.x against 2.x, and a minor
    difference of 5. *)
Example major_1_against_2 :
  compatible (checkVersionCompatibility (Some "1.4.0") (Some "2.4.0")) = false.
Proof. reflexivity. Qed.

Example minor_difference_of_5 :
  compatible (checkVersionCompatibility (Some "0.17.0") (Some "0.22.3")) = true.
Proof. reflexivity. Qed.

Example minor_difference_of_21 :
  compatible (checkVersionCompatibility (Some "0.10.0") (Some "0.31.0")) = false.
Proof. reflexivity. Qed.

End VersionGateFacts.

(* ===================================================================== *)
(** * Properties of the format extractor *)
(* ===================================================================== *)

Module FormatFacts.

Import Format.

Lemma tasksArrayOf_None_inv (doc : JSON) :
  isDirectTag doc = false -> tasksArrayOf (Js.own doc "master") = None.
Proof. unfold isDirectTag. now destruct (tasksArrayOf _). Qed.

Lemma legacyOrUnknown_legacy (doc : JSON) :
  isLegacy doc = true ->
  legacyOrUnknown doc
  = Ok (mkExtracted (itemsOf (Js.own doc "tasks")) false "master" ["tasks"] doc).
Proof.
  unfold isLegacy, legacyOrUnknown.
  destruct (Js.own doc "tasks") as [[| | | | items |] |]; try discriminate; reflexivity.
Qed.

Lemma legacyOrUnknown_unknown (doc : JSON) :
  isLegacy doc = false -> legacyOrUnknown doc = Throw unknownFormat.
Proof.
  unfold isLegacy, legacyOrUnknown.
  destruct (Js.own doc "tasks") as [[| | | | items |] |]; try discriminate; reflexivity.
Qed.

(** The extractor, branch by branch. *)
Lemma extractTasksFromContainer_cases (persisted : option string) (doc : JSON) :
  extractTasksFromContainer persisted doc =
    (if isFlatArray doc then
       Ok (mkExtracted (itemsOf (Some doc)) false "master" [] doc)
     else if isDirectTag doc then
       tasksOfTag doc [] (tagFromState persisted) doc
     else if isNestedTag doc then
       tasksOfTag (default JNull (Js.own doc "tags")) ["tags"] (tagFromState persisted) doc
     else if isLegacy doc then
       Ok (mkExtracted (itemsOf (Js.own doc "tasks")) false "master" ["tasks"] doc)
     else
       Throw (match doc with JNull => nullContainer | _ => unknownFormat end)).
Proof.
  destruct doc as [| b | r | s | items | fields]; try reflexivity.
  unfold extractTasksFromContainer, isFlatArray, isDirectTag, isNestedTag. simpl.
  destruct (tasksArrayOf (JsObject.ownProperty fields "master")); [reflexivity |].
  destruct (JsObject.ownProperty fields "tags") as [tags |]; simpl.
  - destruct (Js.truthy tags && Js.typeofObject tags); [reflexivity |].
    destruct (isLegacy (JObj fields)) eqn:Hl.
    + now apply legacyOrUnknown_legacy.
    + now apply legacyOrUnknown_unknown.
  - destruct (isLegacy (JObj fields)) eqn:Hl.
    + now apply legacyOrUnknown_legacy.
    + now apply legacyOrUnknown_unknown.
Qed.

(** C7: the extractor is decided by the first of the four shape tests
    that holds, tried in the order flat array, direct tag, nested
    tag, legacy; a document that passes none of them makes it throw:
    the unknown-format error, or, for the document [null], the type
    error of the first property read.  No task list is returned for
    such a document. *)
Theorem extractTasksFromContainer_first_match (persisted : option string) (doc : JSON) :
  extractTasksFromContainer persisted doc =
    (if isFlatArray doc then
       Ok (mkExtracted (itemsOf (Some doc)) false "master" [] doc)
     else if isDirectTag doc then
       tasksOfTag doc [] (tagFromState persisted) doc
     else if isNestedTag doc then
       tasksOfTag (default JNull (Js.own doc "tags")) ["tags"] (tagFromState persisted) doc
     else if isLegacy doc then
       Ok (mkExtracted (itemsOf (Js.own doc "tasks")) false "master" ["tasks"] doc)
     else
       Throw (match doc with JNull => nullContainer | _ => unknownFormat end))
  /\ (isFlatArray doc = false -> isDirectTag doc = false ->
      isNestedTag doc = false -> isLegacy doc = false ->
      isOk (extractTasksFromContainer persisted doc) = false
      /\ (doc <> JNull -> extractTasksFromContainer persisted doc = Throw unknownFormat)).
Proof.
  split; [apply extractTasksFromContainer_cases |].
  intros Hflat Hdirect Hnested Hlegacy.
  rewrite extractTasksFromContainer_cases, Hflat, Hdirect, Hnested, Hlegacy.
  split; [reflexivity |].
  intros Hnull. destruct doc; congruence.
Qed.

(** C10: an object document without a [master] entry holding a tasks
    array, without a [tags] object and without a top-level tasks array
    is an unknown format for the extractor, and [getTasks] reads no
    task from it, whatever other tags it holds and whatever tag
    [state.json] names. *)
Theorem object_without_master_is_unknown (persisted : option string)
    (fields : list (string * JSON)) :
  isDirectTag (JObj fields) = false ->
  isNestedTag (JObj fields) = false ->
  isLegacy (JObj fields) = false ->
  extractTasksFromContainer persisted (JObj fields) = Throw unknownFormat
  /\ rawTasksOf persisted (JObj fields) = Ok [].
Proof.
  intros Hdirect Hnested Hlegacy. split.
  - rewrite extractTasksFromContainer_cases, Hdirect, Hnested, Hlegacy. reflexivity.
  - unfold rawTasksOf. simpl.
    change (JsObject.ownProperty fields "master") with (Js.own (JObj fields) "master").
    rewrite (tasksArrayOf_None_inv _ Hdirect).
    unfold isNestedTag in Hnested. simpl in Hnested.
    assert (Hnone : legacyOrNothing (JObj fields) = []).
    { unfold legacyOrNothing. unfold isLegacy in Hlegacy.
      destruct (Js.own (JObj fields) "tasks") as [[| | | | items |] |];
        try discriminate; reflexivity. }
    destruct (JsObject.ownProperty fields "tags") as [tags |].
    + rewrite Hnested. now rewrite Hnone.
    + now rewrite Hnone.
Qed.

Lemma extractTasksFromContainer_first_match_witness :
  isOk (extractTasksFromContainer (Some "feature") TaskDocument.featureOnly) = false
  /\ (TaskDocument.featureOnly <> JNull ->
      extractTasksFromContainer (Some "feature") TaskDocument.featureOnly
      = Throw unknownFormat).
Proof.
  apply (extractTasksFromContainer_first_match (Some "feature") TaskDocument.featureOnly);
    reflexivity.
Defined.

Lemma object_without_master_is_unknown_witness :
  extractTasksFromContainer (Some "feature") TaskDocument.featureOnly = Throw unknownFormat
  /\ rawTasksOf (Some "feature") TaskDocument.featureOnly = Ok [].
Proof.
  apply (object_without_master_is_unknown (Some "feature")); reflexivity.
Defined.

End FormatFacts.

(* ===================================================================== *)
(** * Properties of the task store mutator *)
(* ===================================================================== *)

Module MutatorFacts.

Import Mutator TaskDocument.

(** Induction over a JSON value, its array elements and its property
    values. *)
Lemma JSON_induction (P : JSON -> Prop) :
  P JNull ->
  (forall b, P (JBool b)) ->
  (forall r, P (JNum r)) ->
  (forall s, P (JStr s)) ->
  (forall items, Forall P items -> P (JArr items)) ->
  (forall fields, Forall (fun kv => P (snd kv)) fields -> P (JObj fields)) ->
  forall v, P v.
Proof.
  intros Hnull Hbool Hnum Hstr Harr Hobj.
  exact (fix go (v : JSON) : P v :=
           match v with
           | JNull => Hnull
           | JBool b => Hbool b
           | JNum r => Hnum r
           | JStr s => Hstr s
           | JArr items =>
               Harr items
                 ((fix all (l : list JSON) : Forall P l :=
                     match l with
                     | [] => List.Forall_nil P
                     | x :: l' => @List.Forall_cons _ P x l' (go x) (all l')
                     end) items)
           | JObj fields =>
               Hobj fields
                 ((fix all (l : list (string * JSON)) : Forall (fun kv => P (snd kv)) l :=
                     match l with
                     | [] => List.Forall_nil _
                     | kv :: l' =>
                         @List.Forall_cons _ (fun kv => P (snd kv)) kv l'
                                           (go (snd kv)) (all l')
                     end) fields)
           end).
Qed.

(** The recursion of [updateWithin] over the subtasks of an item is
    [updateSubtaskRecursive]. *)
Lemma updateWithin_eq (taskId : string) (status : TaskStatus) (now : string) (item : JSON) :
  updateWithin taskId status now item =
  match item with
  | JNull => Throw (TypeError "Cannot read properties of null (reading 'subtasks')")
  | JObj fields =>
      match JsObject.ownProperty fields "subtasks" with
      | None => Ok None
      | Some v =>
          if Js.truthy v then
            match v with
            | JArr subtasks =>
                rbind (updateFirstMatch taskId status now subtasks) (fun direct =>
                  match direct with
                  | Some subtasks' =>
                      Ok (Some (JObj (Js.setField fields "subtasks" (JArr subtasks'))))
                  | None =>
                      rbind (updateSubtaskRecursive taskId status now subtasks) (fun deep =>
                        Ok (option_map
                              (fun subtasks' =>
                                 JObj (Js.setField fields "subtasks" (JArr subtasks')))
                              deep))
                  end)
            | JStr _ => Throw noIdOnCharacter
            | _ => Throw notIterable
            end
          else Ok None
      end
  | _ => Ok None
  end.
Proof.
  destruct item as [| b | r | s | items | fields]; try reflexivity.
  simpl.
  match goal with
  | |- rbind (?property fields) _ = _ =>
      assert (Hproperty : forall fs,
        property fs =
        match JsObject.ownProperty fs "subtasks" with
        | None => Ok None
        | Some v =>
            if Js.truthy v then
              match v with
              | JArr subtasks =>
                  rbind (updateFirstMatch taskId status now subtasks) (fun direct =>
                    match direct with
                    | Some subtasks' => Ok (Some (Js.setField fs "subtasks" (JArr subtasks')))
                    | None =>
                        rbind (updateSubtaskRecursive taskId status now subtasks) (fun deep =>
                          Ok (option_map
                                (fun subtasks' => Js.setField fs "subtasks" (JArr subtasks'))
                                deep))
                    end)
              | JStr _ => Throw noIdOnCharacter
              | _ => Throw notIterable
              end
            else Ok None
        end)
  end.
  { induction fs as [| [k v] fs IH]; [reflexivity |].
    simpl. destruct (String.eqb k "subtasks") eqn:Hk.
    - destruct (Js.truthy v); [| reflexivity].
      destruct v as [| b | r | s | subtasks | fs']; try reflexivity.
      destruct (updateFirstMatch taskId status now subtasks) as [[direct |] | e];
        try reflexivity.
      simpl.
      assert (Heach :
        (fix each (l : list JSON) : Result (option (list JSON)) :=
           match l with
           | [] => Ok None
           | x :: l' =>
               rbind (updateWithin taskId status now x) (fun r =>
                 match r with
                 | Some x' => Ok (Some (x' :: l'))
                 | None => rbind (each l') (fun r' => Ok (option_map (cons x) r'))
                 end)
           end) subtasks = updateSubtaskRecursive taskId status now subtasks).
      { induction subtasks as [| x l IHl]; [reflexivity |].
        simpl. destruct (updateWithin taskId status now x) as [[x' |] | e]; try reflexivity.
        simpl. now rewrite IHl. }
      rewrite Heach.
      destruct (updateSubtaskRecursive taskId status now subtasks) as [[deep |] | e];
        reflexivity.
    - rewrite IH.
      destruct (JsObject.ownProperty fs "subtasks") as [w |]; [| reflexivity].
      destruct (Js.truthy w); [| reflexivity].
      destruct w as [| b | r | s | subtasks | fs']; try reflexivity.
      destruct (updateFirstMatch taskId status now subtasks) as [[direct |] | e];
        try reflexivity.
      simpl.
      destruct (updateSubtaskRecursive taskId status now subtasks) as [[deep |] | e];
        reflexivity. }
  rewrite Hproperty.
  destruct (JsObject.ownProperty fields "subtasks") as [w |]; [| reflexivity].
  destruct (Js.truthy w); [| reflexivity].
  destruct w as [| b | r | s | subtasks | fs']; try reflexivity.
  destruct (updateFirstMatch taskId status now subtasks) as [[direct |] | e];
    try reflexivity.
  simpl.
  destruct (updateSubtaskRecursive taskId status now subtasks) as [[deep |] | e];
    reflexivity.
Qed.

Lemma idsOfTask_eq (task : JSON) :
  idsOfTask task =
  ownId task ++
  match task with
  | JObj fields =>
      match JsObject.ownProperty fields "subtasks" with
      | Some (JArr subtasks) => allIds subtasks
      | _ => []
      end
  | _ => []
  end.
Proof.
  destruct task as [| b | r | s | items | fields]; try reflexivity.
  simpl. f_equal.
  induction fields as [| [k v] fields IH]; [reflexivity |].
  simpl. destruct (String.eqb k "subtasks"); [| exact IH].
  destruct v as [| b | r | s | subtasks | fs]; reflexivity.
Qed.

Lemma wellTyped_eq (task : JSON) :
  wellTyped task =
  match task with
  | JObj fields =>
      match JsObject.ownProperty fields "id" with
      | Some v => isIdValue v
      | None => false
      end
      &&
      match JsObject.ownProperty fields "subtasks" with
      | Some (JArr subtasks) => forallb wellTyped subtasks
      | Some v => negb (Js.truthy v)
      | None => true
      end
  | _ => false
  end.
Proof.
  destruct task as [| b | r | s | items | fields]; try reflexivity.
  simpl. f_equal.
  induction fields as [| [k v] fields IH]; [reflexivity |].
  simpl. destruct (String.eqb k "subtasks"); [| exact IH].
  destruct v as [| b | r | s | subtasks | fs]; reflexivity.
Qed.

Lemma wellTyped_idToString (task : JSON) :
  wellTyped task = true -> exists id, Js.idToString task = Ok id /\ ownId task = [id].
Proof.
  rewrite wellTyped_eq. destruct task as [| b | r | s | items | fields]; try discriminate.
  intros H. apply andb_true_iff in H as [Hid _].
  unfold ownId, Js.idToString. simpl.
  destruct (JsObject.ownProperty fields "id") as [[| b | r | s | items | fs] |];
    try discriminate; eexists; split; reflexivity.
Qed.

Lemma ownId_in_idsOfTask (task : JSON) (id : string) :
  In id (ownId task) -> In id (idsOfTask task).
Proof. rewrite idsOfTask_eq. intros H. apply in_or_app. now left. Qed.

Section Search.

Variables (taskId : string) (status : TaskStatus) (now : string).

Lemma updateFirstMatch_not_found (tasks : list JSON) :
  forallb wellTyped tasks = true ->
  ~ In taskId (allIds tasks) ->
  updateFirstMatch taskId status now tasks = Ok None.
Proof.
  induction tasks as [| task rest IH]; [reflexivity |].
  simpl. intros Hwt Hnot. apply andb_true_iff in Hwt as [Hwt Hrest].
  unfold allIds in Hnot. simpl in Hnot.
  destruct (wellTyped_idToString task Hwt) as [id [Hid Hown]].
  rewrite Hid. simpl.
  destruct (String.eqb_spec id taskId) as [-> | Hne].
  - exfalso. apply Hnot. apply in_or_app. left. apply ownId_in_idsOfTask.
    rewrite Hown. now left.
  - rewrite IH; [reflexivity | exact Hrest |].
    intros Hin. apply Hnot. apply in_or_app. now right.
Qed.

Lemma updateSubtaskRecursive_not_found_from (items : list JSON) :
  Forall (notFoundWithin taskId status now) items ->
  forallb wellTyped items = true ->
  ~ In taskId (allIds items) ->
  updateSubtaskRecursive taskId status now items = Ok None.
Proof.
  induction 1 as [| item rest Hitem _ IH]; [reflexivity |].
  simpl. intros Hwt Hnot. apply andb_true_iff in Hwt as [Hwt Hrest].
  unfold allIds in Hnot. simpl in Hnot.
  rewrite Hitem; [| exact Hwt | intros Hin; apply Hnot; apply in_or_app; now left].
  simpl. rewrite IH; [reflexivity | exact Hrest |].
  intros Hin. apply Hnot. apply in_or_app. now right.
Qed.

Lemma ownProperty_Forall (P : JSON -> Prop) (fields : list (string * JSON))
    (key : string) (v : JSON) :
  Forall (fun kv => P (snd kv)) fields ->
  JsObject.ownProperty fields key = Some v ->
  P v.
Proof.
  induction 1 as [| [k w] rest Hw _ IH]; [discriminate |].
  simpl. destruct (String.eqb k key); [| exact IH].
  intros [= <-]. exact Hw.
Qed.

Lemma notFoundWithin_all (v : JSON) :
  (notFoundWithin taskId status now) v /\ (forall items, v = JArr items -> Forall (notFoundWithin taskId status now) items).
Proof.
  induction v as [| b | r | s | items IH | fields IH] using JSON_induction;
    try (split; [intros Hwt; discriminate Hwt | intros items' [=]]).
  - subst items'. eapply Forall_impl; [exact IH |]. intros x [Hx _]. exact Hx.
  - split; [| intros items' [=]].
    intros Hwt Hnot. rewrite updateWithin_eq. rewrite wellTyped_eq in Hwt.
    rewrite idsOfTask_eq in Hnot. apply andb_true_iff in Hwt as [_ Hsub].
    destruct (JsObject.ownProperty fields "subtasks") as [w |] eqn:Hw; [| reflexivity].
    pose proof (ownProperty_Forall
                  (fun v => notFoundWithin taskId status now v /\
                            (forall items, v = JArr items ->
                                           Forall (notFoundWithin taskId status now) items))
                  _ _ _ IH Hw) as [_ Hw'].
    destruct w as [| b | r | s | subtasks | fs]; simpl in *;
      [ reflexivity
      | destruct b; [discriminate Hsub | reflexivity]
      | destruct (String.eqb r "0"); [reflexivity | discriminate Hsub]
      | destruct (String.eqb s ""); [reflexivity | discriminate Hsub]
      |
      | discriminate Hsub ].
    assert (Hnot' : ~ In taskId (allIds subtasks)).
    { intros Hin. apply Hnot. apply in_or_app. now right. }
    rewrite (updateFirstMatch_not_found subtasks Hsub Hnot'). simpl.
    rewrite (updateSubtaskRecursive_not_found_from subtasks (Hw' subtasks eq_refl) Hsub Hnot').
    reflexivity.
Qed.

Lemma updateSubtaskRecursive_not_found (tasks : list JSON) :
  forallb wellTyped tasks = true ->
  ~ In taskId (allIds tasks) ->
  updateSubtaskRecursive taskId status now tasks = Ok None.
Proof.
  apply updateSubtaskRecursive_not_found_from.
  apply Forall_forall. intros x _. apply notFoundWithin_all.
Qed.

(** The search of [setTaskStatus] finds nothing when no task of the
    list, at any level, carries the id. *)
Lemma updateTasks_not_found (tasks : list JSON) :
  forallb wellTyped tasks = true ->
  ~ In taskId (allIds tasks) ->
  updateTasks taskId status now tasks = Ok None.
Proof.
  intros Hwt Hnot. unfold updateTasks.
  rewrite (updateFirstMatch_not_found tasks Hwt Hnot). simpl.
  now apply updateSubtaskRecursive_not_found.
Qed.

(** Whatever the elements are, a loop that changes one of them has met
    the id. *)
Lemma updateFirstMatch_met (tasks tasks' : list JSON) :
  updateFirstMatch taskId status now tasks = Ok (Some tasks') ->
  In taskId (allIds tasks).
Proof.
  revert tasks'. induction tasks as [| task rest IH]; intros tasks'; [discriminate |].
  simpl. unfold allIds. simpl.
  destruct (Js.idToString task) as [id |] eqn:Hid; [| discriminate]. simpl.
  destruct (String.eqb_spec id taskId) as [-> | Hne].
  - intros _. apply in_or_app. left. apply ownId_in_idsOfTask.
    unfold ownId. rewrite Hid. now left.
  - destruct (updateFirstMatch taskId status now rest) as [[found |] |]; try discriminate.
    intros _. apply in_or_app. right. exact (IH found eq_refl).
Qed.

Lemma updateSubtaskRecursive_met_from (items items' : list JSON) :
  Forall (foundWithin taskId status now) items ->
  updateSubtaskRecursive taskId status now items = Ok (Some items') ->
  In taskId (allIds items).
Proof.
  intros Hall. revert items'.
  induction Hall as [| item rest Hitem _ IH]; intros items'; [discriminate |].
  simpl. unfold allIds. simpl.
  destruct (updateWithin taskId status now item) as [[item' |] |] eqn:Hwithin;
    try discriminate; simpl.
  - intros _. apply in_or_app. left. exact (Hitem item' Hwithin).
  - destruct (updateSubtaskRecursive taskId status now rest) as [[found |] |];
      try discriminate.
    intros _. apply in_or_app. right. exact (IH found eq_refl).
Qed.

Lemma foundWithin_all (v : JSON) :
  foundWithin taskId status now v
  /\ (forall items, v = JArr items -> Forall (foundWithin taskId status now) items).
Proof.
  induction v as [| b | r | s | items IH | fields IH] using JSON_induction;
    try (split; [intros item'; discriminate | intros items' [=]]).
  - subst items'. eapply Forall_impl; [exact IH |]. intros x [Hx _]. exact Hx.
  - split; [| intros items' [=]].
    intros item'. rewrite updateWithin_eq, idsOfTask_eq.
    destruct (JsObject.ownProperty fields "subtasks") as [w |] eqn:Hw; [| discriminate].
    pose proof (ownProperty_Forall
                  (fun v => foundWithin taskId status now v /\
                            (forall items, v = JArr items ->
                                           Forall (foundWithin taskId status now) items))
                  _ _ _ IH Hw) as [_ Hw'].
    destruct (Js.truthy w); [| discriminate].
    destruct w as [| b | r | s | subtasks | fs]; try discriminate.
    destruct (updateFirstMatch taskId status now subtasks) as [[direct |] |] eqn:Hdirect;
      try discriminate; simpl.
    + intros _. apply in_or_app. right. exact (updateFirstMatch_met _ _ Hdirect).
    + destruct (updateSubtaskRecursive taskId status now subtasks) as [[deep |] |] eqn:Hdeep;
        try discriminate.
      intros _. apply in_or_app. right.
      exact (updateSubtaskRecursive_met_from _ _ (Hw' subtasks eq_refl) Hdeep).
Qed.

(** The search of [setTaskStatus] changes a list, whatever its
    elements are, only when a task of it, at some level, carries the
    id. *)
Lemma updateTasks_met (tasks tasks' : list JSON) :
  updateTasks taskId status now tasks = Ok (Some tasks') ->
  In taskId (allIds tasks).
Proof.
  unfold updateTasks.
  destruct (updateFirstMatch taskId status now tasks) as [[main |] |] eqn:Hmain;
    try discriminate; simpl.
  - intros _. exact (updateFirstMatch_met _ _ Hmain).
  - apply updateSubtaskRecursive_met_from.
    apply Forall_forall. intros x _. apply foundWithin_all.
Qed.

End Search.

End MutatorFacts.

(* ===================================================================== *)
(** * Properties of the client's operations *)
(* ===================================================================== *)

Module ClientFacts.

Import Mutator TaskDocument TaskMasterClient.

Lemma tryCatch_rethrow {A : Type} (c : Client A) (env : Env) (st : State) :
  tryCatch c (fun error => throw error) env st = c env st.
Proof. unfold tryCatch, throw. now destruct (c env st) as [[a | e] st']. Qed.

Lemma isMCPServerAvailable_run (env : Env) (st : State) :
  isMCPServerAvailable env st
  = (Ok (mcpAvailable env (mcpProbes st)),
     withProbes (S (mcpProbes st)) (record (Probe MCP "isAvailable") st)).
Proof. reflexivity. Qed.

(** [setTaskStatus], channel by channel. *)
Lemma setTaskStatus_run (taskId : string) (status : TaskStatus) (env : Env) (st : State) :
  setTaskStatus taskId status env st =
  let probed := withProbes (S (mcpProbes st)) (record (Probe MCP "isAvailable") st) in
  if mcpAvailable env (mcpProbes st) then
    let tried := record (Attempt MCP "setTaskStatus") probed in
    if mcpSetTaskStatus env taskId status (managerTag env)
    then (Ok tt, tried)
    else setTaskStatusInFile taskId status env tried
  else setTaskStatusInFile taskId status env probed.
Proof.
  unfold setTaskStatus. rewrite tryCatch_rethrow.
  unfold bind at 1. rewrite isMCPServerAvailable_run.
  destruct (mcpAvailable env (mcpProbes st)); [| reflexivity].
  unfold bind, tryCatch, emit, modify, ask, ret, throw. simpl.
  destruct (mcpSetTaskStatus env taskId status (managerTag env)); reflexivity.
Qed.

(** The file operations when the search finds nothing: the error, and
    nothing written. *)
Lemma setTaskStatusInFile_not_found (taskId : string) (status : TaskStatus)
    (env : Env) (st : State) (container : JSON) (info : Format.Extracted) :
  tasksJson st = Doc container ->
  Format.extractTasksFromContainer (persistedTag st) container = Ok info ->
  updateTasks taskId status (nowISO env) (Format.tasks info) = Ok None ->
  setTaskStatusInFile taskId status env st
  = (Throw (taskNotFound taskId), record (Attempt DirectFile "setTaskStatus") st).
Proof.
  intros Hdoc Hinfo Hnone.
  unfold setTaskStatusInFile, bind, emit, modify, getState, ask, liftResult, throw.
  simpl. rewrite Hdoc, Hinfo, Hnone. reflexivity.
Qed.

(** The file operations when no task of the stored document carries
    the id, whatever the file holds: an error, and nothing written. *)
Lemma setTaskStatusInFile_unknown_id (taskId : string) (status : TaskStatus)
    (env : Env) (st : State) :
  ~ In taskId (storedIds st) ->
  exists error,
    setTaskStatusInFile taskId status env st
    = (Throw error, record (Attempt DirectFile "setTaskStatus") st).
Proof.
  unfold storedIds. intros Hnot.
  unfold setTaskStatusInFile, bind, emit, modify, getState, ask, liftResult, throw.
  simpl.
  destruct (tasksJson st) as [| | container];
    [now exists tasksJsonNotFound | now exists SyntaxError |].
  destruct (Format.extractTasksFromContainer (persistedTag st) container) as [info | e];
    [| now exists e].
  destruct (updateTasks taskId status (nowISO env) (Format.tasks info))
    as [[tasks' |] | e] eqn:Hsearch.
  - exfalso. exact (Hnot (MutatorFacts.updateTasks_met _ _ _ _ _ Hsearch)).
  - now exists (taskNotFound taskId).
  - now exists e.
Qed.

(** C8, amended: when the id is carried by no main task and by no
    subtask at any level of the stored document, [setTaskStatus] leaves
    [tasks.json] as it was.  It consults the document only when the MCP
    server does not take the call: then it throws, whatever the file
    holds, and what it throws is the not-found error when the tasks of
    the document are well typed.  When the MCP server takes the call,
    it resolves. *)
Theorem setTaskStatus_not_found (taskId : string) (status : TaskStatus)
    (env : Env) (st : State) :
  ~ In taskId (storedIds st) ->
  let outcome := setTaskStatus taskId status env st in
  tasksJson (snd outcome) = tasksJson st
  /\ (servedByMCP env st taskId status = true -> fst outcome = Ok tt)
  /\ (servedByMCP env st taskId status = false ->
      (exists error, fst outcome = Throw error)
      /\ (forall container info,
            tasksJson st = Doc container ->
            Format.extractTasksFromContainer (persistedTag st) container = Ok info ->
            forallb wellTyped (Format.tasks info) = true ->
            fst outcome = Throw (taskNotFound taskId))).
Proof.
  intros Hnot. cbv zeta.
  assert (Hfile : forall st0,
             tasksJson st0 = tasksJson st -> persistedTag st0 = persistedTag st ->
             tasksJson (snd (setTaskStatusInFile taskId status env st0)) = tasksJson st
             /\ (exists error, fst (setTaskStatusInFile taskId status env st0) = Throw error)
             /\ (forall container info,
                   tasksJson st = Doc container ->
                   Format.extractTasksFromContainer (persistedTag st) container = Ok info ->
                   forallb wellTyped (Format.tasks info) = true ->
                   fst (setTaskStatusInFile taskId status env st0)
                   = Throw (taskNotFound taskId))).
  { intros st0 Hdoc0 Htag0.
    assert (Hnot0 : ~ In taskId (storedIds st0)).
    { unfold storedIds. rewrite Hdoc0, Htag0. exact Hnot. }
    destruct (setTaskStatusInFile_unknown_id taskId status env st0 Hnot0) as [error Hrun].
    split; [rewrite Hrun; exact Hdoc0 |]. split; [exists error; now rewrite Hrun |].
    intros container info Hdoc Hinfo Hwt.
    assert (Hids : ~ In taskId (allIds (Format.tasks info))).
    { unfold storedIds in Hnot. now rewrite Hdoc, Hinfo in Hnot. }
    rewrite (setTaskStatusInFile_not_found taskId status env st0 container info);
      [reflexivity | congruence | now rewrite Htag0 |].
    exact (MutatorFacts.updateTasks_not_found taskId status (nowISO env) _ Hwt Hids). }
  rewrite setTaskStatus_run. unfold servedByMCP. cbv zeta.
  destruct (mcpAvailable env (mcpProbes st)); simpl.
  - destruct (mcpSetTaskStatus env taskId status (managerTag env)); simpl.
    + split; [reflexivity |]. split; [reflexivity | discriminate].
    + destruct (Hfile (record (Attempt MCP "setTaskStatus")
                         (withProbes (S (mcpProbes st))
                            (record (Probe MCP "isAvailable") st))) eq_refl eq_refl)
        as (Hsame & Hthrows & Hnotfound).
      split; [exact Hsame |]. split; [discriminate |]. intros _. now split.
  - destruct (Hfile (withProbes (S (mcpProbes st)) (record (Probe MCP "isAvailable") st))
                eq_refl eq_refl) as (Hsame & Hthrows & Hnotfound).
    split; [exact Hsame |]. split; [discriminate |]. intros _. now split.
Qed.

Lemma setTaskStatus_not_found_witness :
  let st := freshOver scenario in
  let outcome := setTaskStatus "7.3" Completed offline st in
  tasksJson (snd outcome) = tasksJson st
  /\ (servedByMCP offline st "7.3" Completed = true -> fst outcome = Ok tt)
  /\ (servedByMCP offline st "7.3" Completed = false ->
      (exists error, fst outcome = Throw error)
      /\ (forall container info,
            tasksJson st = Doc container ->
            Format.extractTasksFromContainer (persistedTag st) container = Ok info ->
            forallb wellTyped (Format.tasks info) = true ->
            fst outcome = Throw (taskNotFound "7.3"))).
Proof.
  apply (setTaskStatus_not_found "7.3" Completed offline (freshOver scenario)).
  vm_compute. intros H. repeat (destruct H as [H | H]; [discriminate H |]). exact H.
Defined.

(** The witness is not vacuous: without MCP server and over the
    scenario, whose tasks are well typed, the outcome is the not-found
    error. *)
Example setTaskStatus_not_found_in_scenario :
  servedByMCP offline (freshOver scenario) "7.3" Completed = false
  /\ forallb wellTyped (masterTasks (Doc scenario)) = true
  /\ fst (setTaskStatus "7.3" Completed offline (freshOver scenario))
     = Throw (taskNotFound "7.3").
Proof. repeat split. Qed.

(** C8, as stated, fails.  No task of the scenario carries the id
    "7.3"; with an MCP server that takes the call, [setTaskStatus]
    resolves, and the document is neither searched nor written.  And
    without MCP server, over a document one task of which has no id,
    it throws the [TypeError] of reading that id, not the not-found
    error. *)
Lemma setTaskStatus_unknown_id_without_not_found :
  fst (setTaskStatus "7.3" Completed versionlessMCP (freshOver scenario)) = Ok tt
  /\ tasksJson (snd (setTaskStatus "7.3" Completed versionlessMCP (freshOver scenario)))
     = tasksJson (freshOver scenario)
  /\ ~ In "7.3" (storedIds (freshOver scenario))
  /\ fst (setTaskStatus "7.3" Completed offline
            (freshOver (taggedDocument (JObj [("title", JStr "A")]) [])))
     = Throw (TypeError "Cannot read properties of undefined (reading 'toString')")
  /\ storedIds (freshOver (taggedDocument (JObj [("title", JStr "A")]) [])) = [].
Proof.
  split; [reflexivity |]. split; [reflexivity |]. split; [| split; reflexivity].
  vm_compute. intros H. repeat (destruct H as [H | H]; [discriminate H |]). exact H.
Qed.

(** The file operations when the search finds the task: the container
    is written back. *)
Lemma setTaskStatusInFile_found (taskId : string) (status : TaskStatus)
    (env : Env) (st : State) (container written : JSON) (info : Format.Extracted)
    (tasks : list JSON) :
  tasksJson st = Doc container ->
  Format.extractTasksFromContainer (persistedTag st) container = Ok info ->
  updateTasks taskId status (nowISO env) (Format.tasks info) = Ok (Some tasks) ->
  writeTasksToContainer tasks (Format.isTaggedFormat info) (Format.currentTag info)
    (putAt (Format.origin info) (JArr tasks) container) = Ok written ->
  setTaskStatusInFile taskId status env st
  = (Ok tt,
     record (Written "tasks.json")
       (withTasksJson (Doc written) (record (Attempt DirectFile "setTaskStatus") st))).
Proof.
  intros Hdoc Hinfo Hsome Hwritten.
  unfold setTaskStatusInFile, bind, emit, modify, getState, ask, liftResult, throw.
  simpl. rewrite Hdoc, Hinfo, Hsome. simpl. rewrite Hwritten. reflexivity.
Qed.

Section Scenario.

Variables (sibling subtask parent otherTags : list (string * JSON)).

Lemma scenario_extracted (persisted : option string) :
  Format.tagFromState persisted = "master" ->
  Format.extractTasksFromContainer persisted (scenarioBefore sibling subtask parent otherTags)
  = Ok (Format.mkExtracted
          [parentObject [subtaskObject "1.1" sibling; subtaskObject "1.2" subtask] parent]
          true "master" ["master"; "tasks"] (scenarioBefore sibling subtask parent otherTags)).
Proof.
  intros Htag. unfold Format.extractTasksFromContainer, scenarioBefore, taggedDocument. simpl.
  unfold Format.tasksOfTag. rewrite Htag. reflexivity.
Qed.

Lemma scenario_updated (now : string) :
  updateTasks "1.2" Completed now
    [parentObject [subtaskObject "1.1" sibling; subtaskObject "1.2" subtask] parent]
  = Ok (Some
          [parentObject
             [ subtaskObject "1.1" sibling;
               subtaskObject "1.2"
                 (Js.setField (Js.setField subtask "status" (JStr "done")) "updated"
                              (JStr now)) ]
             parent]).
Proof. reflexivity. Qed.

Lemma scenario_written (now : string) (tasks : list JSON) :
  JsObject.ownProperty otherTags "tags" = None ->
  writeTasksToContainer tasks true "master" (putAt ["master"; "tasks"] (JArr tasks) (scenarioBefore sibling subtask parent otherTags))
  = Ok (JObj (("master", JObj [("tasks", JArr tasks)]) :: otherTags)).
Proof.
  intros Htags. unfold writeTasksToContainer, scenarioBefore, taggedDocument. simpl.
  rewrite Htags. reflexivity.
Qed.

(** C1: on a direct-tag document whose main task 1 holds the subtasks
    1.1 and 1.2, [setTaskStatus("1.2", "completed")] served from the
    file writes back a document in which subtask 1.2 has the status
    token [done] and the new [updated] stamp, and in which nothing else
    differs: sibling 1.1 is as it was, and so is every property of
    parent 1, its [updated] stamp included, which is not refreshed. *)
Theorem setTaskStatus_subtask_writes_subtask_only (env : Env) (st : State) :
  servedByMCP env st "1.2" Completed = false ->
  Format.tagFromState (persistedTag st) = "master" ->
  JsObject.ownProperty otherTags "tags" = None ->
  tasksJson st = Doc (scenarioBefore sibling subtask parent otherTags) ->
  fst (setTaskStatus "1.2" Completed env st) = Ok tt
  /\ tasksJson (snd (setTaskStatus "1.2" Completed env st)) = Doc (scenarioAfter (nowISO env) sibling subtask parent otherTags).
Proof.
  intros Hserved Htag Htags Hdoc.
  rewrite setTaskStatus_run. unfold servedByMCP in Hserved. cbv zeta.
  destruct (mcpAvailable env (mcpProbes st)); simpl in Hserved; try rewrite Hserved.
  - erewrite setTaskStatusInFile_found;
      [ split; reflexivity
      | exact Hdoc
      | apply scenario_extracted; exact Htag
      | apply scenario_updated
      | apply (scenario_written (nowISO env)); exact Htags ].
  - erewrite setTaskStatusInFile_found;
      [ split; reflexivity
      | exact Hdoc
      | apply scenario_extracted; exact Htag
      | apply scenario_updated
      | apply (scenario_written (nowISO env)); exact Htags ].
Qed.

End Scenario.

Lemma setTaskStatus_subtask_writes_subtask_only_witness :
  fst (setTaskStatus "1.2" Completed offline (freshOver scenario)) = Ok tt
  /\ tasksJson (snd (setTaskStatus "1.2" Completed offline (freshOver scenario)))
     = Doc (scenarioAfter (nowISO offline)
              (stamped2025 "first" "pending") (stamped2025 "second" "pending")
              (stamped2025 "main" "in-progress") []).
Proof.
  apply (setTaskStatus_subtask_writes_subtask_only
           (stamped2025 "first" "pending") (stamped2025 "second" "pending")
           (stamped2025 "main" "in-progress") [] offline (freshOver scenario));
    reflexivity.
Defined.

(** In the scenario the clock reads 2026, and the parent is written
    back with its stamp of 2025. *)
Example scenario_parent_stamp :
  let written := tasksJson (snd (setTaskStatus "1.2" Completed offline (freshOver scenario))) in
  nowISO offline = "2026-03-01T10:00:00.000Z"
  /\ match masterTasks written with
     | [parentTask] =>
         Js.own parentTask "updated" = Some (JStr "2025-01-01T00:00:00.000Z")
         /\ match Js.own parentTask "subtasks" with
            | Some (JArr [first; second]) =>
                first = subtaskObject "1.1" (stamped2025 "first" "pending")
                /\ Js.own second "status" = Some (JStr "done")
                /\ Js.own second "updated" = Some (JStr "2026-03-01T10:00:00.000Z")
            | _ => False
            end
     | _ => False
     end.
Proof. vm_compute. repeat split. Qed.

(** ** The order of the channels *)

Lemma attemptsOf_app (a b : list Event) :
  attemptsOf (a ++ b) = attemptsOf a ++ attemptsOf b.
Proof.
  induction a as [| e a IH]; [reflexivity |].
  destruct e; simpl; now rewrite IH.
Qed.

Lemma eventsOf_extends {A : Type} (operation : Client A) (env : Env) (st : State)
    (events : list Event) :
  trace (snd (operation env st)) = trace st ++ events ->
  eventsOf operation env st = events.
Proof. intros H. unfold eventsOf. rewrite H. apply drop_app_length. Qed.

(** The file operations of [setTaskStatus] attempt the file once, and
    nothing else. *)
Lemma setTaskStatusInFile_trace (taskId : string) (status : TaskStatus)
    (env : Env) (st : State) :
  exists events,
    trace (snd (setTaskStatusInFile taskId status env st)) = trace st ++ events
    /\ attemptsOf events = [DirectFile].
Proof.
  unfold setTaskStatusInFile, bind, emit, modify, getState, ask, liftResult, throw. simpl.
  destruct (tasksJson st) as [| | container];
    try (exists [Attempt DirectFile "setTaskStatus"]; split; reflexivity).
  destruct (Format.extractTasksFromContainer (persistedTag st) container) as [info | e];
    [| exists [Attempt DirectFile "setTaskStatus"]; split; reflexivity].
  destruct (updateTasks taskId status (nowISO env) (Format.tasks info)) as [[tasks |] | e];
    try (exists [Attempt DirectFile "setTaskStatus"]; split; reflexivity).
  simpl.
  destruct (writeTasksToContainer _ _ _ _) as [written | e];
    [| exists [Attempt DirectFile "setTaskStatus"]; split; reflexivity].
  exists [Attempt DirectFile "setTaskStatus"; Written "tasks.json"].
  split; [| reflexivity]. simpl. now rewrite <- app_assoc.
Qed.

(** The channels of [setTaskStatus]: the MCP server when it is
    available, and the file unless the server took the call. *)
Lemma setTaskStatus_attempts (taskId : string) (status : TaskStatus)
    (env : Env) (st : State) :
  attemptsOf (eventsOf (setTaskStatus taskId status) env st)
  = (if mcpAvailable env (mcpProbes st) then [MCP] else [])
    ++ (if servedByMCP env st taskId status then [] else [DirectFile]).
Proof.
  unfold servedByMCP.
  destruct (mcpAvailable env (mcpProbes st)) eqn:Havailable; simpl.
  - destruct (mcpSetTaskStatus env taskId status (managerTag env)) eqn:Hserved.
    + erewrite eventsOf_extends.
      2:{ rewrite setTaskStatus_run, Havailable, Hserved. simpl.
          rewrite <- app_assoc. reflexivity. }
      reflexivity.
    + destruct (setTaskStatusInFile_trace taskId status env
                  (record (Attempt MCP "setTaskStatus")
                     (withProbes (S (mcpProbes st)) (record (Probe MCP "isAvailable") st))))
        as [events [Htrace Hattempts]].
      erewrite eventsOf_extends.
      2:{ rewrite setTaskStatus_run, Havailable, Hserved. cbv zeta. rewrite Htrace.
          simpl. rewrite <- !app_assoc. reflexivity. }
      simpl. now rewrite Hattempts.
  - destruct (setTaskStatusInFile_trace taskId status env
                (withProbes (S (mcpProbes st)) (record (Probe MCP "isAvailable") st)))
      as [events [Htrace Hattempts]].
    erewrite eventsOf_extends.
    2:{ rewrite setTaskStatus_run, Havailable. cbv zeta. rewrite Htrace.
        simpl. rewrite <- !app_assoc. reflexivity. }
    simpl. now rewrite Hattempts.
Qed.

(** The version check never rejects, and it only asks questions. *)
Lemma checkVersionCompatibility_run (env : Env) (st : State) :
  exists versionCheck st' events,
    checkVersionCompatibility env st = (Ok versionCheck, st')
    /\ trace st' = trace st ++ events
    /\ attemptsOf events = [].
Proof.
  unfold checkVersionCompatibility, getCLIVersion, getMCPVersion, isTaskMasterInstalled,
    isMCPServerAvailable, tryCatch, bind, emit, modify, getState, ask, ret, throw.
  simpl.
  destruct (taskMasterInstalled st) as [installed |];
    [destruct (nowMillis env - versionCheckTimestamp st <? versionCheckInterval env)%Z |];
    try destruct (cliVersionOutput env) as [out |]; simpl;
    match goal with
    | |- context [mcpAvailable env ?n] => destruct (mcpAvailable env n)
    end; simpl;
    try (destruct (mcpGetVersion env) as [[v |] |]; simpl);
    do 3 eexists; (split; [reflexivity |]); simpl;
    rewrite <- ?app_assoc; simpl;
    first [ split; [reflexivity | reflexivity]
          | split; [symmetry; apply app_nil_r | reflexivity] ].
Qed.

(** C5: the MCP server is available but reports no version, so the MCP
    version is not known; [getMCPVersion] hands on the string
    "unknown", which [checkVersionCompatibility] takes for a version and
    parses as 0.0.0.  Against the CLI version 0.31.0 the result is
    [compatible = false], not the [compatible = true] with a warning
    that an unknown version is to give. *)
Theorem checkVersionCompatibility_versionless_mcp :
  fst (checkVersionCompatibility versionlessMCP (freshOver scenario))
  = Ok (VersionGate.mkVersionCheck false (Some "0.31.0") (Some "unknown")
          (Some ("Significant version difference: CLI v0.31.0 vs MCP vunknown. "
                 +:+ "Consider updating both to the same version."))).
Proof. reflexivity. Qed.

(** With that result and the default preference for the CLI, [getTasks]
    does not ask the MCP server at all. *)
Example getTasks_versionless_mcp_skipped :
  attemptsOf (eventsOf getTasks versionlessMCP (freshOver scenario)) = [DirectFile].
Proof. reflexivity. Qed.

(** A server that is available and reports nothing is always handed on
    as the version "unknown". *)
Lemma getMCPVersion_versionless (env : Env) (st : State) :
  mcpAvailable env (mcpProbes st) = true ->
  mcpGetVersion env = Some None ->
  fst (getMCPVersion env st) = Ok (Some "unknown").
Proof.
  intros Havailable Hversion.
  unfold getMCPVersion, tryCatch, bind. rewrite isMCPServerAvailable_run, Havailable.
  unfold emit, modify, ask, ret. simpl. rewrite Hversion. reflexivity.
Qed.

(** C2, as stated, fails: with an MCP server that answers the probe and
    then fails the call, [setTaskStatus] attempts the MCP channel once,
    then the file, and the CLI channel not at all. *)
Lemma cli_not_attempted_after_mcp_failure :
  servedByMCP failingMCP (freshOver scenario) "1.2" Completed = false
  /\ attemptsOf (eventsOf (setTaskStatus "1.2" Completed) failingMCP (freshOver scenario))
     = [MCP; DirectFile]
  /\ attempts CLI (eventsOf (setTaskStatus "1.2" Completed) failingMCP (freshOver scenario))
     <> 1.
Proof. vm_compute. repeat split. discriminate. Qed.

(** The channels of [getTasks], exactly: the MCP server when it is
    asked, and the file unless the server answered; an answer of the
    server is what [getTasks] returns. *)
Lemma getTasks_channels (env : Env) (st : State) :
  attemptsOf (eventsOf getTasks env st)
  = (if asksMCP env st then [MCP] else [])
    ++ (if answeredByMCP env st then [] else [DirectFile])
  /\ (answeredByMCP env st = true ->
      exists tasks, fst (getTasks env st) = Ok (FromMCP tasks)).
Proof.
  destruct (checkVersionCompatibility_run env st)
    as (versionCheck & st1 & events & Hrun & Htrace & Hprobes).
  assert (Hevents : forall more,
            attemptsOf (drop (length (trace st)) ((trace st ++ events) ++ more))
            = attemptsOf more).
  { intros more. rewrite <- app_assoc, drop_app_length, attemptsOf_app, Hprobes.
    reflexivity. }
  unfold answeredByMCP, asksMCP, skipsMCP.
  unfold eventsOf, getTasks, isMCPServerAvailable, tryCatch, bind, emit, modify, getState,
    ask, ret, throw, liftResult.
  cbv beta. rewrite Hrun. simpl.
  destruct (negb (VersionGate.compatible versionCheck)
            && preferCLIOnVersionMismatch env
            && bool_decide (VersionGate.cliVersion versionCheck <> None)); simpl.
  - split; [| discriminate].
    destruct (tasksJson st1) as [| | parsed]; simpl;
      try (destruct (Format.rawTasksOf (persistedTag st1) parsed); simpl);
      rewrite Htrace, Hevents; reflexivity.
  - destruct (mcpAvailable env (mcpProbes st1)); simpl.
    + destruct (mcpGetTasks env (managerTag env)) as [| | tasks]; simpl.
      * split; [| discriminate].
        destruct (tasksJson st1) as [| | parsed]; simpl;
          try (destruct (Format.rawTasksOf (persistedTag st1) parsed); simpl);
          rewrite Htrace, <- !app_assoc, app_assoc, Hevents; reflexivity.
      * split; [| discriminate].
        destruct (tasksJson st1) as [| | parsed]; simpl;
          try (destruct (Format.rawTasksOf (persistedTag st1) parsed); simpl);
          rewrite Htrace, <- !app_assoc, app_assoc, Hevents; reflexivity.
      * split; [| intros _; now exists tasks].
        rewrite Htrace, <- !app_assoc, app_assoc, Hevents. reflexivity.
    + split; [| discriminate].
      destruct (tasksJson st1) as [| | parsed]; simpl;
        try (destruct (Format.rawTasksOf (persistedTag st1) parsed); simpl);
        rewrite Htrace, <- !app_assoc, app_assoc, Hevents; reflexivity.
Qed.

(** C2, amended: the channels that [setTaskStatus] and [getTasks]
    attempt are, in this order, the MCP channel when the server is
    available (and, for [getTasks], not distrusted), and the direct
    file access unless the MCP attempt yielded the result.  So a failed
    MCP attempt is followed by the file and by nothing else, a skipped
    or unavailable MCP channel leaves the file as the one attempt, the
    CLI channel is never attempted and the MCP channel at most once. *)
Theorem fallback_is_direct_file (env : Env) (st : State)
    (taskId : string) (status : TaskStatus) :
  let writes := attemptsOf (eventsOf (setTaskStatus taskId status) env st) in
  let reads := attemptsOf (eventsOf getTasks env st) in
  writes = (if mcpAvailable env (mcpProbes st) then [MCP] else [])
           ++ (if servedByMCP env st taskId status then [] else [DirectFile])
  /\ reads = (if asksMCP env st then [MCP] else [])
             ++ (if answeredByMCP env st then [] else [DirectFile])
  /\ (servedByMCP env st taskId status = false -> last writes = Some DirectFile)
  /\ (answeredByMCP env st = false -> last reads = Some DirectFile)
  /\ (skipsMCP env st = true -> reads = [DirectFile])
  /\ (servedByMCP env st taskId status = true ->
      fst (setTaskStatus taskId status env st) = Ok tt)
  /\ (answeredByMCP env st = true ->
      exists tasks, fst (getTasks env st) = Ok (FromMCP tasks))
  /\ attempts CLI (eventsOf (setTaskStatus taskId status) env st) = 0
  /\ attempts CLI (eventsOf getTasks env st) = 0
  /\ attempts MCP (eventsOf (setTaskStatus taskId status) env st) <= 1
  /\ attempts MCP (eventsOf getTasks env st) <= 1.
Proof.
  cbv zeta.
  pose proof (setTaskStatus_attempts taskId status env st) as Hwrites.
  destruct (getTasks_channels env st) as [Hreads Hanswer].
  assert (Hserved : servedByMCP env st taskId status = true ->
                    fst (setTaskStatus taskId status env st) = Ok tt).
  { rewrite setTaskStatus_run. unfold servedByMCP. cbv zeta.
    destruct (mcpAvailable env (mcpProbes st)); [| discriminate].
    destruct (mcpSetTaskStatus env taskId status (managerTag env)); [| discriminate].
    reflexivity. }
  assert (Hskipped : skipsMCP env st = true ->
                     asksMCP env st = false /\ answeredByMCP env st = false).
  { unfold answeredByMCP, asksMCP. now intros ->. }
  unfold attempts. rewrite Hwrites, Hreads.
  repeat split; try assumption.
  - intros ->. now destruct (mcpAvailable env (mcpProbes st)).
  - intros ->. now destruct (asksMCP env st).
  - intros Hskip. destruct (Hskipped Hskip) as [-> ->]. reflexivity.
  - now destruct (mcpAvailable env (mcpProbes st)), (servedByMCP env st taskId status).
  - now destruct (asksMCP env st), (answeredByMCP env st).
  - destruct (mcpAvailable env (mcpProbes st)), (servedByMCP env st taskId status);
      simpl; lia.
  - destruct (asksMCP env st), (answeredByMCP env st); simpl; lia.
Qed.

End ClientFacts.

(* ===================================================================== *)
(** * Properties of the progress counters *)
(* ===================================================================== *)

Module ProgressFacts.

Import StatusNormalizer Progress.

(** Induction over a task and its subtasks. *)
Lemma Task_induction (P : Task -> Prop) :
  (forall id fields parentId subtasks,
      Forall P subtasks -> P (mkTask id fields parentId subtasks)) ->
  forall t, P t.
Proof.
  intros Hnode.
  exact (fix go (t : Task) : P t :=
           match t with
           | mkTask i f p subs =>
               Hnode i f p subs
                 ((fix all (l : list Task) : Forall P l :=
                     match l with
                     | [] => List.Forall_nil P
                     | x :: l' => @List.Forall_cons _ P x l' (go x) (all l')
                     end) subs)
           end).
Qed.

Lemma plus_assoc (a b c : Counts) : plus (plus a b) c = plus a (plus b c).
Proof. unfold plus. simpl. f_equal; lia. Qed.

Lemma plus_zero_r (a : Counts) : plus a zero = a.
Proof. destruct a. unfold plus. simpl. f_equal; lia. Qed.

Lemma count_plus (c : Counts) (taskStatus : string) :
  count c taskStatus = plus c (count zero taskStatus).
Proof.
  unfold count, plus. destruct c as [t c i d b].
  destruct (normalizeStatus taskStatus) as [[] |]; simpl; f_equal; lia.
Qed.

Lemma tally_cons (t : Task) (items : list Task) :
  tally (t :: items) = plus (count zero (status (fieldsOf t))) (tally items).
Proof.
  unfold tally, having, count, plus. simpl.
  destruct (normalizeStatus (status (fieldsOf t))) as [[] |]; reflexivity.
Qed.

Lemma tally_app (a b : list Task) : tally (a ++ b) = plus (tally a) (tally b).
Proof.
  induction a as [| t a IH]; simpl.
  - unfold tally, having, plus. simpl. reflexivity.
  - rewrite !tally_cons, IH. symmetry. apply plus_assoc.
Qed.

Lemma countItem_eq (c : Counts) (id : string) (f : TaskFields) (p : option string)
    (subs : list Task) :
  countItem c (mkTask id f p subs) = countAllItems (count c (status f)) subs.
Proof.
  unfold countAllItems. simpl. generalize (count c (status f)) as c0.
  induction subs as [| t l IH]; intros c0; [reflexivity |]. simpl. apply IH.
Qed.

Lemma withDescendants_eq (id : string) (f : TaskFields) (p : option string)
    (subs : list Task) :
  withDescendants (mkTask id f p subs) = mkTask id f p subs :: allTasks subs.
Proof. reflexivity. Qed.

(** The recursive loop counts a forest as the flat list of its tasks is
    counted. *)
Lemma countAllItems_tally_from (forest : list Task) :
  Forall (fun t => forall c, countItem c t = plus c (tally (withDescendants t))) forest ->
  forall c, countAllItems c forest = plus c (tally (allTasks forest)).
Proof.
  unfold countAllItems, allTasks.
  induction 1 as [| t forest Ht _ IH]; intros c; simpl.
  - symmetry. apply plus_zero_r.
  - rewrite IH, Ht, tally_app. apply plus_assoc.
Qed.

Lemma countItem_tally (t : Task) (c : Counts) :
  countItem c t = plus c (tally (withDescendants t)).
Proof.
  revert c. induction t as [id f p subs IH] using Task_induction. intros c.
  rewrite countItem_eq, withDescendants_eq, tally_cons.
  rewrite (countAllItems_tally_from subs IH). simpl.
  rewrite (count_plus c). apply plus_assoc.
Qed.

Lemma countAllItems_tally (forest : list Task) (c : Counts) :
  countAllItems c forest = plus c (tally (allTasks forest)).
Proof.
  apply countAllItems_tally_from. apply Forall_forall. intros t _ c'. apply countItem_tally.
Qed.

(** C9: the five legacy fields of the result equal the five fields of
    its [allItems], and [allItems] counts each task of the collection
    and each subtask below it, at every level, once: [total] is their
    number, and each other field the number of those that normalize to
    its status. *)
Theorem getTaskProgress_legacy_is_allItems (tasks : list Task) :
  let progress := getTaskProgress tasks in
  legacyTotal progress = total (allItems progress)
  /\ legacyCompleted progress = completed (allItems progress)
  /\ legacyInProgress progress = inProgress (allItems progress)
  /\ legacyTodo progress = todo (allItems progress)
  /\ legacyBlocked progress = blocked (allItems progress)
  /\ allItems progress = tally (allTasks tasks).
Proof.
  simpl. repeat (split; [reflexivity |]).
  rewrite countAllItems_tally. unfold plus, zero, tally. reflexivity.
Qed.

End ProgressFacts.

(* ===================================================================== *)
(** * Properties of the hierarchy builder *)
(* ===================================================================== *)

Module HierarchyFacts.

Import Hierarchy.

(** ** Ids *)

Lemma lastIndexOfDot_None (s : string) :
  lastIndexOfDot s = None -> includesDot s = false.
Proof.
  induction s as [| c rest IH]; [reflexivity |].
  simpl. destruct (lastIndexOfDot rest); [discriminate |].
  destruct (isDot c); [discriminate |]. intros _. now apply IH.
Qed.

(** A dotted id lies one level below its parent id. *)
Lemma getNestingLevel_parent (s : string) :
  includesDot s = true ->
  getNestingLevel s = S (getNestingLevel (getParentId s)).
Proof.
  unfold getParentId.
  induction s as [| c rest IH]; [discriminate |].
  simpl. intros Hdot.
  destruct (lastIndexOfDot rest) as [i |] eqn:Hlast.
  - simpl. assert (Hrest : includesDot rest = true).
    { destruct (includesDot rest) eqn:Hr; [reflexivity |].
      clear IH Hdot. revert i Hlast. induction rest as [| d r IHr]; [discriminate |].
      simpl in *. intros i. apply orb_false_iff in Hr as [Hd Hr].
      rewrite Hd. destruct (lastIndexOfDot r) as [j |]; [| discriminate].
      intros _. exact (IHr Hr j eq_refl). }
    rewrite (IH Hrest). lia.
  - rewrite (lastIndexOfDot_None rest Hlast) in Hdot.
    rewrite orb_false_r in Hdot. rewrite Hdot. simpl.
    assert (Hzero : getNestingLevel rest = 0).
    { clear IH Hdot. induction rest as [| d r IHr]; [reflexivity |].
      simpl in *. destruct (lastIndexOfDot r); [discriminate |].
      destruct (isDot d); [discriminate |]. now apply IHr. }
    now rewrite Hzero.
Qed.

Lemma getParentId_neq (s : string) : includesDot s = true -> getParentId s <> s.
Proof.
  intros Hdot Heq. pose proof (getNestingLevel_parent s Hdot) as H.
  rewrite Heq in H. lia.
Qed.

(** ** The map of the first pass *)

Lemma buildMap_snoc (tasks : list Task) (t : Task) :
  buildMap (tasks ++ [t]) = mapSet (idOf t) (mkTaskObject t []) (buildMap tasks).
Proof. unfold buildMap. now rewrite fold_left_app. Qed.

Lemma buildMap_lookup_Some (tasks : list Task) (k : string) :
  is_Some (objects (buildMap tasks) !! k) <-> In k (map idOf tasks).
Proof.
  induction tasks as [| t tasks IH] using rev_ind.
  - simpl. rewrite lookup_empty. split; [intros [x Hx]; discriminate | intros []].
  - rewrite buildMap_snoc, map_app, in_app_iff. simpl.
    destruct (decide (idOf t = k)) as [-> | Hne].
    + rewrite lookup_insert_eq. split; [intros _; right; now left | intros _; eauto].
    + rewrite lookup_insert_ne by exact Hne. rewrite IH.
      split; [now left | intros [H | [H | []]]; [exact H | contradiction]].
Qed.

Lemma buildMap_keys (tasks : list Task) (k : string) :
  In k (keys (buildMap tasks)) <-> In k (map idOf tasks).
Proof.
  induction tasks as [| t tasks IH] using rev_ind; [reflexivity |].
  rewrite buildMap_snoc, map_app, in_app_iff. simpl.
  destruct (objects (buildMap tasks) !! idOf t) as [obj |] eqn:Hlook.
  - rewrite IH. split; [now left |].
    intros [H | [<- | []]]; [exact H |].
    apply buildMap_lookup_Some. rewrite Hlook. eauto.
  - rewrite in_app_iff, IH. simpl. tauto.
Qed.

(** The object under a key is the copy of an input task with that id:
    the last one, which is the only one when the ids are distinct. *)
Lemma buildMap_lookup (tasks : list Task) (k : string) (obj : TaskObject) :
  objects (buildMap tasks) !! k = Some obj ->
  pushed obj = []
  /\ In (copy obj) tasks
  /\ idOf (copy obj) = k
  /\ (NoDup (map idOf tasks) -> forall t, In t tasks -> idOf t = k -> copy obj = t).
Proof.
  revert obj. induction tasks as [| t tasks IH] using rev_ind; intros obj.
  - simpl. rewrite lookup_empty. discriminate.
  - rewrite buildMap_snoc. simpl.
    destruct (decide (idOf t = k)) as [Heq | Hne].
    + rewrite Heq, lookup_insert_eq. intros [= <-]. simpl.
      repeat split; [apply in_or_app; right; now left | exact Heq |].
      intros Hnodup t' Hin Hid. rewrite map_app in Hnodup. simpl in Hnodup.
      apply in_app_or in Hin as [Hin | [<- | []]]; [| reflexivity].
      exfalso. apply NoDup_app in Hnodup as (_ & Hdisjoint & _).
      apply (Hdisjoint (idOf t')).
      * apply list_elem_of_In. apply in_map. exact Hin.
      * rewrite Hid, <- Heq. apply list_elem_of_In. now left.
    + rewrite lookup_insert_ne by exact Hne. intros Hlook.
      destruct (IH obj Hlook) as (Hpushed & Hin & Hid & Huniq).
      repeat split; [exact Hpushed | apply in_or_app; now left | exact Hid |].
      intros Hnodup t' Hin' Hid'. rewrite map_app in Hnodup.
      apply NoDup_app in Hnodup as (Hnodup & _ & _).
      apply in_app_or in Hin' as [Hin' | [<- | []]]; [| congruence].
      now apply Huniq.
Qed.

(** ** The sorted ids *)

Section Sorted.

Variable localeCompare : string -> string -> Z.

Lemma insertSorted_In (x y : string) (sorted : list string) :
  In y (insertSorted localeCompare x sorted) <-> y = x \/ In y sorted.
Proof.
  induction sorted as [| z rest IH]; simpl.
  - split; [intros [<- | []]; now left | intros [-> | []]; now left].
  - destruct (compareIds localeCompare x z <? 0)%Z; simpl; [| rewrite IH];
      intuition congruence.
Qed.

Lemma sortIds_In (ids : list string) (y : string) :
  In y (sortIds localeCompare ids) <-> In y ids.
Proof.
  unfold sortIds.
  assert (H : forall acc, In y (fold_left (fun sorted x => insertSorted localeCompare x sorted)
                                           ids acc) <-> In y acc \/ In y ids).
  { induction ids as [| x ids IH]; intros acc; simpl; [tauto |].
    rewrite IH, insertSorted_In. intuition congruence. }
  rewrite H. simpl. tauto.
Qed.

End Sorted.

(** ** The second pass *)

Lemma place_cases (st : Pass) (x : string) (objx : TaskObject) :
  heap st !! x = Some objx ->
  (includesDot x = true
   /\ exists objp,
       heap st !! getParentId x = Some objp
       /\ place st x
          = mkPass (<[x := mkTaskObject (setParentId (getParentId x) (copy objx))
                                        (pushed objx)]>
                      (<[getParentId x := mkTaskObject (copy objp) (pushed objp ++ [x])]>
                         (heap st)))
                   (rootTasks st))
  \/ ((includesDot x = false \/ heap st !! getParentId x = None)
      /\ place st x = mkPass (heap st) (rootTasks st ++ [x])).
Proof.
  intros Hx. unfold place.
  destruct (includesDot x) eqn:Hdot; [| right; split; [now left | reflexivity]].
  destruct (heap st !! getParentId x) as [objp |] eqn:Hp;
    [| right; split; [now right | reflexivity]].
  left. split; [reflexivity |]. exists objp. split; [reflexivity |].
  rewrite lookup_insert_ne by (apply getParentId_neq; exact Hdot).
  now rewrite Hx.
Qed.

Lemma Kept_place (initial : gmap string TaskObject) (st : Pass) (x : string) :
  Kept initial st -> is_Some (initial !! x) -> Kept initial (place st x).
Proof.
  intros HK Hx. destruct (proj2 (kept_keys _ _ HK x) Hx) as [objx Hobjx].
  destruct (place_cases st x objx Hobjx) as [(Hdot & objp & Hp & ->) | (_ & ->)];
    [| constructor; simpl; apply HK].
  pose proof (getParentId_neq x Hdot) as Hne.
  assert (Hatt : attachable initial x).
  { split; [exact Hdot | apply HK; eauto]. }
  assert (Hlift : forall y k objy,
             heap st !! y = Some objy ->
             parentIdOf (copy objy) = Some k ->
             (y = x -> k = getParentId x) ->
             exists objy',
               <[x := mkTaskObject (setParentId (getParentId x) (copy objx)) (pushed objx)]>
                 (<[getParentId x := mkTaskObject (copy objp) (pushed objp ++ [x])]>
                    (heap st)) !! y = Some objy'
               /\ parentIdOf (copy objy') = Some k).
  { intros y k objy Hy Hparent Hsame.
    destruct (decide (y = x)) as [-> | Hyx].
    - rewrite lookup_insert_eq. eexists. split; [reflexivity |]. simpl.
      now rewrite (Hsame eq_refl).
    - rewrite lookup_insert_ne by congruence.
      destruct (decide (y = getParentId x)) as [-> | Hyp].
      + rewrite lookup_insert_eq. eexists. split; [reflexivity |]. simpl. congruence.
      + rewrite lookup_insert_ne by congruence. eauto. }
  constructor; simpl.
  - intros k. destruct (decide (k = x)) as [-> | Hkx].
    + rewrite lookup_insert_eq. split; [intros _; exact Hx | eauto].
    + rewrite lookup_insert_ne by congruence.
      destruct (decide (k = getParentId x)) as [-> | Hkp].
      * rewrite lookup_insert_eq. split; [intros _; apply HK; eauto | eauto].
      * rewrite lookup_insert_ne by congruence. apply HK.
  - intros k obj. destruct (decide (k = x)) as [-> | Hkx].
    + rewrite lookup_insert_eq. intros [= <-]. simpl.
      destruct (kept_copy _ _ HK x objx Hobjx) as (obj0 & H0 & Hid & Hf & Hs & _).
      exists obj0. repeat split; try assumption. right. now split.
    + rewrite lookup_insert_ne by congruence.
      destruct (decide (k = getParentId x)) as [-> | Hkp].
      * rewrite lookup_insert_eq. intros [= <-]. simpl.
        exact (kept_copy _ _ HK _ objp Hp).
      * rewrite lookup_insert_ne by congruence. apply HK.
  - intros k obj y. destruct (decide (k = x)) as [-> | Hkx].
    + rewrite lookup_insert_eq. intros [= <-]. simpl. intros Hy.
      destruct (kept_pushed _ _ HK x objx y Hobjx Hy) as (Hydot & Hyparent & objy & Hobjy & Hpy).
      repeat split; try assumption.
      apply (Hlift y x objy Hobjy Hpy).
      intros ->. exfalso. exact (getParentId_neq x Hdot Hyparent).
    + rewrite lookup_insert_ne by congruence.
      destruct (decide (k = getParentId x)) as [-> | Hkp].
      * rewrite lookup_insert_eq. intros [= <-]. simpl. intros Hy.
        apply in_app_or in Hy as [Hy | [<- | []]].
        -- destruct (kept_pushed _ _ HK _ objp y Hp Hy)
             as (Hydot & Hyparent & objy & Hobjy & Hpy).
           repeat split; try assumption.
           apply (Hlift y _ objy Hobjy Hpy). intros _. reflexivity.
        -- repeat split; [exact Hdot |].
           rewrite lookup_insert_eq. eexists. split; reflexivity.
      * rewrite lookup_insert_ne by congruence. intros Hk Hy.
        destruct (kept_pushed _ _ HK k obj y Hk Hy) as (Hydot & Hyparent & objy & Hobjy & Hpy).
        repeat split; try assumption.
        apply (Hlift y k objy Hobjy Hpy). intros ->. now symmetry.
Qed.

Lemma Placed_place_other (initial : gmap string TaskObject) (st : Pass) (x y : string) :
  Kept initial st -> is_Some (initial !! x) ->
  Placed initial st y -> Placed initial (place st x) y.
Proof.
  intros HK Hx [Hattached Hroot].
  destruct (proj2 (kept_keys _ _ HK x) Hx) as [objx Hobjx].
  destruct (place_cases st x objx Hobjx) as [(Hdot & objp & Hp & ->) | (_ & ->)]; simpl.
  - split; [| exact Hroot].
    intros Hatt. destruct (Hattached Hatt) as (parent & Hparent & Hin). simpl.
    destruct (decide (getParentId y = x)) as [Hyx | Hyx].
    + rewrite Hyx, lookup_insert_eq. eexists. split; [reflexivity |]. simpl.
      rewrite Hyx in Hparent. congruence.
    + rewrite lookup_insert_ne by congruence.
      destruct (decide (getParentId y = getParentId x)) as [Hyp | Hyp].
      * rewrite Hyp, lookup_insert_eq. eexists. split; [reflexivity |]. simpl.
        rewrite Hyp in Hparent. apply in_or_app. left. congruence.
      * rewrite lookup_insert_ne by congruence. eauto.
  - split; [exact Hattached |].
    intros Hatt. apply in_or_app. left. now apply Hroot.
Qed.

Lemma Placed_place_self (initial : gmap string TaskObject) (st : Pass) (x : string) :
  Kept initial st -> is_Some (initial !! x) -> Placed initial (place st x) x.
Proof.
  intros HK Hx.
  destruct (proj2 (kept_keys _ _ HK x) Hx) as [objx Hobjx].
  destruct (place_cases st x objx Hobjx) as [(Hdot & objp & Hp & ->) | (Hnot & ->)]; simpl.
  - split.
    + intros _. simpl. pose proof (getParentId_neq x Hdot) as Hne.
      rewrite lookup_insert_ne by congruence.
      rewrite lookup_insert_eq. eexists. split; [reflexivity |]. simpl.
      apply in_or_app. right. now left.
    + intros Hnatt. exfalso. apply Hnatt. split; [exact Hdot | apply HK; eauto].
  - split.
    + intros [Hdot Hparent]. exfalso. destruct Hnot as [Hnot | Hnot]; [congruence |].
      apply (kept_keys _ _ HK) in Hparent. rewrite Hnot in Hparent.
      destruct Hparent as [? ?]. discriminate.
    + intros _. apply in_or_app. right. now left.
Qed.

(** After the second pass over ids of the map, the map is kept and each
    of the ids is placed. *)
Lemma fold_place (initial : gmap string TaskObject) (ids : list string) :
  (forall k obj, initial !! k = Some obj -> pushed obj = []) ->
  (forall x, In x ids -> is_Some (initial !! x)) ->
  Kept initial (fold_left place ids (mkPass initial []))
  /\ forall x, In x ids -> Placed initial (fold_left place ids (mkPass initial [])) x.
Proof.
  intros Hfresh.
  induction ids as [| x ids IH] using rev_ind; intros Hids.
  - split; [| intros x []].
    constructor; simpl.
    + tauto.
    + intros k obj Hk. exists obj. repeat split; try assumption. now left.
    + intros k obj y Hk Hy. rewrite (Hfresh k obj Hk) in Hy. destruct Hy.
  - rewrite fold_left_app. simpl.
    destruct IH as [HK HP]; [intros y Hy; apply Hids, in_or_app; now left |].
    assert (Hx : is_Some (initial !! x)) by (apply Hids, in_or_app; right; now left).
    split; [now apply Kept_place |].
    intros y Hy. apply in_app_or in Hy as [Hy | [<- | []]].
    + apply Placed_place_other; auto.
    + now apply Placed_place_self.
Qed.

(** ** Reading the forest off the objects *)

Lemma resolve_Some (h : gmap string TaskObject) (x : string) (obj : TaskObject) (depth : nat) :
  h !! x = Some obj ->
  exists t,
    resolve depth h x = Some t
    /\ idOf t = idOf (copy obj)
    /\ fieldsOf t = fieldsOf (copy obj)
    /\ parentIdOf t = parentIdOf (copy obj).
Proof.
  intros Hx. destruct depth; simpl; rewrite Hx; eexists; repeat split; reflexivity.
Qed.

Lemma resolve_child (h : gmap string TaskObject) (p x : string) (objp : TaskObject)
    (depth : nat) (tx : Task) :
  h !! p = Some objp ->
  In x (pushed objp) ->
  resolve depth h x = Some tx ->
  exists tp,
    resolve (S depth) h p = Some tp
    /\ In tx (subtasksOf tp)
    /\ idOf tp = idOf (copy objp).
Proof.
  intros Hp Hin Hx. simpl. rewrite Hp. eexists. split; [reflexivity |].
  split; [| reflexivity]. simpl. apply in_or_app. right.
  apply list_elem_of_In. apply list_elem_of_omap. exists x.
  split; [now apply list_elem_of_In | exact Hx].
Qed.

Lemma InForest_child (t p : Task) (forest : list Task) :
  InForest p forest -> In t (subtasksOf p) -> InForest t forest.
Proof.
  induction 1 as [forest Hin | forest q Hq _ IH]; intros Ht.
  - apply (InForest_below t forest p Hin). now apply InForest_here.
  - apply (InForest_below t forest q Hq). now apply IH.
Qed.

Lemma maxDepth_bound (ids : list string) (x : string) :
  In x ids -> getNestingLevel x <= maxDepth ids.
Proof.
  unfold maxDepth. induction ids as [| y ids IH]; simpl; [intros [] |].
  intros [-> | Hin]; [lia |]. specialize (IH Hin). lia.
Qed.

Section Reach.

Variables (initial : gmap string TaskObject) (final : Pass) (fuel : nat).

Hypothesis final_kept : Kept initial final.
Hypothesis final_placed : forall x, is_Some (initial !! x) -> Placed initial final x.
Hypothesis fuel_enough : forall x, is_Some (initial !! x) -> getNestingLevel x < fuel.

(** Every object of the map is read into the forest, with enough depth
    left to read its own subtasks. *)
Lemma every_object_reached (n : nat) (x : string) :
  getNestingLevel x = n ->
  is_Some (initial !! x) ->
  exists depth t,
    fuel <= depth + n
    /\ resolve depth (heap final) x = Some t
    /\ InForest t (omap (resolve fuel (heap final)) (rootTasks final)).
Proof.
  revert x. induction n as [| n IH]; intros x Hlevel Hx.
  - destruct (proj2 (kept_keys _ _ final_kept x) Hx) as [objx Hobjx].
    destruct (resolve_Some (heap final) x objx fuel Hobjx) as (t & Ht & _).
    exists fuel, t. split; [lia |]. split; [exact Ht |].
    apply InForest_here. apply list_elem_of_In, list_elem_of_omap. exists x.
    split; [| exact Ht]. apply list_elem_of_In.
    apply (final_placed x Hx). intros [Hdot _].
    rewrite (getNestingLevel_parent x Hdot) in Hlevel. discriminate.
  - destruct (proj2 (kept_keys _ _ final_kept x) Hx) as [objx Hobjx].
    destruct (includesDot x) eqn:Hdot.
    + destruct (initial !! getParentId x) as [objp0 |] eqn:Hparent.
      * assert (Hp : is_Some (initial !! getParentId x)) by (rewrite Hparent; eauto).
        pose proof (getNestingLevel_parent x Hdot) as Hlevels.
        destruct (IH (getParentId x)) as (depth & tp & Hdepth & Htp & Hforest);
          [lia | exact Hp |].
        pose proof (fuel_enough x Hx) as Hfuel.
        destruct depth as [| depth]; [lia |].
        destruct (proj1 (final_placed x Hx)) as (objp & Hobjp & Hin);
          [split; [exact Hdot | exact Hp] |].
        destruct (resolve_Some (heap final) x objx depth Hobjx) as (t & Ht & _).
        destruct (resolve_child (heap final) _ x objp depth t Hobjp Hin Ht)
          as (tp' & Htp' & Hchild & _).
        rewrite Htp in Htp'. injection Htp' as <-.
        exists depth, t. split; [lia |]. split; [exact Ht |].
        now apply (InForest_child t tp).
      * destruct (resolve_Some (heap final) x objx fuel Hobjx) as (t & Ht & _).
        exists fuel, t. split; [lia |]. split; [exact Ht |].
        apply InForest_here. apply list_elem_of_In, list_elem_of_omap. exists x.
        split; [| exact Ht]. apply list_elem_of_In.
        apply (final_placed x Hx). intros [_ [? Hsome]]. congruence.
    + destruct (resolve_Some (heap final) x objx fuel Hobjx) as (t & Ht & _).
      exists fuel, t. split; [lia |]. split; [exact Ht |].
      apply InForest_here. apply list_elem_of_In, list_elem_of_omap. exists x.
      split; [| exact Ht]. apply list_elem_of_In.
      apply (final_placed x Hx). intros [Hdot' _]. congruence.
Qed.

End Reach.

(** With enough depth left, reading deeper changes nothing: no
    [subtasks] array of the forest is cut short. *)
Lemma resolve_stable (initial : gmap string TaskObject) (final : Pass) (fuel : nat) :
  Kept initial final ->
  (forall x, is_Some (initial !! x) -> getNestingLevel x < fuel) ->
  forall depth x,
    fuel <= depth + getNestingLevel x ->
    resolve (S depth) (heap final) x = resolve depth (heap final) x.
Proof.
  intros HK Hfuel. induction depth as [| depth IH]; intros x Hdepth.
  - simpl. destruct (heap final !! x) as [obj |] eqn:Hx; [| reflexivity].
    assert (Hsome : is_Some (initial !! x)) by (apply HK; eauto).
    specialize (Hfuel x Hsome). lia.
  - change (resolve (S (S depth)) (heap final) x)
      with (match heap final !! x with
            | None => None
            | Some obj =>
                Some (mkTask (idOf (copy obj)) (fieldsOf (copy obj)) (parentIdOf (copy obj))
                        (subtasksOf (copy obj)
                         ++ omap (resolve (S depth) (heap final)) (pushed obj)))
            end).
    change (resolve (S depth) (heap final) x)
      with (match heap final !! x with
            | None => None
            | Some obj =>
                Some (mkTask (idOf (copy obj)) (fieldsOf (copy obj)) (parentIdOf (copy obj))
                        (subtasksOf (copy obj)
                         ++ omap (resolve depth (heap final)) (pushed obj)))
            end).
    destruct (heap final !! x) as [obj |] eqn:Hx; [| reflexivity].
    do 3 f_equal. apply list_omap_ext.
    apply Forall2_same_length_lookup. split; [reflexivity |].
    intros i y y' Hy Hy'. rewrite Hy in Hy'. injection Hy' as <-.
    assert (Hin : In y (pushed obj)).
    { apply list_elem_of_In. eapply list_elem_of_lookup_2. exact Hy. }
    destruct (kept_pushed _ _ HK x obj y Hx Hin) as (Hdot & Hparent & _).
    apply IH. rewrite (getNestingLevel_parent y Hdot), Hparent. lia.
Qed.

Section Builder.

Variable localeCompare : string -> string -> Z.

(** The second pass of [processTaskHierarchy] keeps the map and places
    every id. *)
Lemma secondPass_spec (tasks : list Task) :
  let initial := objects (buildMap tasks) in
  let final := secondPass localeCompare (buildMap tasks) in
  Kept initial final
  /\ (forall x, is_Some (initial !! x) -> Placed initial final x)
  /\ (forall x, is_Some (initial !! x) ->
                getNestingLevel x < S (maxDepth (keys (buildMap tasks)))).
Proof.
  cbv zeta. unfold secondPass.
  destruct (fold_place (objects (buildMap tasks))
              (sortIds localeCompare (keys (buildMap tasks)))) as [HK HP].
  - intros k obj Hk. apply (buildMap_lookup tasks k obj Hk).
  - intros x Hx. apply buildMap_lookup_Some, buildMap_keys.
    now apply (sortIds_In localeCompare).
  - split; [exact HK |]. split.
    + intros x Hx. apply HP. apply sortIds_In, buildMap_keys, buildMap_lookup_Some. exact Hx.
    + intros x Hx. apply Nat.lt_succ_r, maxDepth_bound.
      apply buildMap_keys, buildMap_lookup_Some. exact Hx.
Qed.

Lemma processTaskHierarchy_built (tasks : list Task) (t : Task) :
  existsb hasSubtasks tasks = false ->
  In t tasks ->
  includesDot (idOf t) = true ->
  processTaskHierarchy localeCompare tasks
  = omap (resolve (S (maxDepth (keys (buildMap tasks))))
                  (heap (secondPass localeCompare (buildMap tasks))))
         (rootTasks (secondPass localeCompare (buildMap tasks))).
Proof.
  intros Hnone Hin Hdot. unfold processTaskHierarchy. rewrite Hnone.
  assert (Hsome : existsb (fun t => includesDot (idOf t)) tasks = true).
  { apply existsb_exists. exists t. now split. }
  now rewrite Hsome.
Qed.

(** Where the builder puts an input task with a dotted id, in terms of
    the id that [getParentId] gives for it: inside the [subtasks] of
    the task of that id, with [parentId] set to it, when the input
    holds such a task; and among the roots when it does not. *)
Lemma processTaskHierarchy_places_by_getParentId (tasks : list Task) (t : Task) :
  existsb hasSubtasks tasks = false ->
  In t tasks ->
  includesDot (idOf t) = true ->
  let forest := processTaskHierarchy localeCompare tasks in
  let parent := getParentId (idOf t) in
  (In parent (map idOf tasks) ->
   exists p placed,
     InForest p forest
     /\ idOf p = parent
     /\ In placed (subtasksOf p)
     /\ parentIdOf placed = Some parent
     /\ StandsFor tasks t placed)
  /\ (~ In parent (map idOf tasks) ->
      exists placed, In placed forest /\ StandsFor tasks t placed).
Proof.
  intros Hnone Hin Hdot. cbv zeta.
  rewrite (processTaskHierarchy_built tasks t Hnone Hin Hdot).
  destruct (secondPass_spec tasks) as (HK & HP & Hfuel).
  set (initial := objects (buildMap tasks)) in *.
  set (final := secondPass localeCompare (buildMap tasks)) in *.
  set (fuel := S (maxDepth (keys (buildMap tasks)))) in *.
  assert (Hx : is_Some (initial !! idOf t)).
  { apply buildMap_lookup_Some. now apply in_map. }
  destruct (proj2 (kept_keys _ _ HK _) Hx) as [objx Hobjx].
  destruct (kept_copy _ _ HK _ objx Hobjx) as (obj0 & Hobj0 & Hid & Hfields & _ & Hparent).
  destruct (buildMap_lookup tasks _ obj0 Hobj0) as (_ & Hsource & Hsourceid & Huniq).
  assert (Hstands : forall depth placed,
             resolve depth (heap final) (idOf t) = Some placed ->
             StandsFor tasks t placed).
  { intros depth placed Hplaced.
    destruct (resolve_Some (heap final) _ objx depth Hobjx) as (t' & Ht' & Hid' & Hf' & Hp').
    rewrite Hplaced in Ht'. injection Ht' as <-.
    split; [congruence |]. exists (copy obj0).
    split; [exact Hsource |]. split; [exact Hsourceid |]. split; [congruence |].
    split.
    - destruct Hparent as [Hsame | [_ Hset]]; [left | right]; congruence.
    - intros Hnodup. now apply Huniq. }
  split.
  - intros Hpresent.
    assert (Hp : is_Some (initial !! getParentId (idOf t))).
    { now apply buildMap_lookup_Some. }
    destruct (every_object_reached initial final fuel HK HP Hfuel _ (getParentId (idOf t))
                eq_refl Hp) as (depth & tp & Hdepth & Htp & Hforest).
    pose proof (Hfuel _ Hx) as Hlevel.
    rewrite (getNestingLevel_parent _ Hdot) in Hlevel.
    destruct depth as [| depth]; [lia |].
    destruct (proj1 (HP _ Hx)) as (objp & Hobjp & Hpushed); [now split |].
    destruct (resolve_Some (heap final) _ objx depth Hobjx) as (placed & Hplaced & _ & _ & Hpp).
    destruct (resolve_child (heap final) _ _ objp depth placed Hobjp Hpushed Hplaced)
      as (tp' & Htp' & Hchild & Hpid).
    rewrite Htp in Htp'. injection Htp' as <-.
    exists tp, placed. split; [exact Hforest |]. split.
    + rewrite Hpid.
      destruct (kept_copy _ _ HK _ objp Hobjp) as (objp0 & Hobjp0 & Hidp & _).
      rewrite Hidp. apply (buildMap_lookup tasks _ objp0 Hobjp0).
    + split; [exact Hchild |]. split; [| now apply (Hstands depth)].
      rewrite Hpp.
      destruct (kept_pushed _ _ HK _ objp _ Hobjp Hpushed) as (_ & _ & objy & Hobjy & Hset).
      congruence.
  - intros Habsent.
    destruct (resolve_Some (heap final) _ objx fuel Hobjx) as (placed & Hplaced & _).
    exists placed. split; [| now apply (Hstands fuel)].
    apply list_elem_of_In, list_elem_of_omap. exists (idOf t).
    split; [| exact Hplaced]. apply list_elem_of_In.
    apply (HP _ Hx). intros [_ Hsome]. apply Habsent. now apply buildMap_lookup_Some.
Qed.

End Builder.

(** The spec's examples, run: ids 1, 1.1, 1.2, 1.2.1 make one tree, and
    the orphan 2.5 stays, as a root. *)
Example sampleTasks_forest :
  processTaskHierarchy byCodeUnits sampleTasks
  = [ mkTask "1" (plainFields "1") None
        [ mkTask "1.1" (plainFields "1.1") (Some "1") [];
          mkTask "1.2" (plainFields "1.2") (Some "1")
            [ mkTask "1.2.1" (plainFields "1.2.1") (Some "1.2") [] ] ];
      mkTask "2.5" (plainFields "2.5") None [] ].
Proof. vm_compute. reflexivity. Qed.

End HierarchyFacts.

(* ===================================================================== *)
(** * Properties of the task ids *)
(* ===================================================================== *)

Module TaskIdsFacts.
Import Hierarchy TaskIds.

Lemma append_String (c : ascii) (a b : string) : String c a +:+ b = String c (a +:+ b).
Proof. reflexivity. Qed.

Lemma includesDot_app (a b : string) :
  includesDot (a +:+ b) = includesDot a || includesDot b.
Proof.
  induction a as [| c a IH]; [reflexivity |].
  change (String c a +:+ b) with (String c (a +:+ b)).
  simpl. rewrite IH. now rewrite orb_assoc.
Qed.

Lemma getNestingLevel_app (a b : string) :
  getNestingLevel (a +:+ b) = getNestingLevel a + getNestingLevel b.
Proof.
  induction a as [| c a IH]; [reflexivity |].
  change (String c a +:+ b) with (String c (a +:+ b)).
  simpl. rewrite IH. lia.
Qed.

Lemma getNestingLevel_zero (s : string) :
  getNestingLevel s = 0 <-> includesDot s = false.
Proof.
  induction s as [| c s IH]; [split; reflexivity |].
  simpl. destruct (isDot c); simpl.
  - split; [lia | discriminate].
  - exact IH.
Qed.

(** The id is its parent id, a dot and a last segment without dots. *)
Lemma getParentId_last_segment (s : string) :
  includesDot s = true ->
  exists segment,
    includesDot segment = false /\ s = getParentId s +:+ "." +:+ segment.
Proof.
  unfold getParentId.
  induction s as [| c rest IH]; [discriminate |].
  simpl. intros Hdot.
  destruct (lastIndexOfDot rest) as [i |] eqn:Hlast.
  - assert (Hrest : includesDot rest = true).
    { destruct (includesDot rest) eqn:Hr; [reflexivity |].
      exfalso. clear -Hr Hlast. revert i Hlast.
      induction rest as [| d r IHr]; [discriminate |].
      simpl in *. apply orb_false_iff in Hr as [Hd Hr]. rewrite Hd.
      destruct (lastIndexOfDot r) as [j |]; [| discriminate].
      intros _ _. exact (IHr Hr j eq_refl). }
    destruct (IH Hrest) as (segment & Hseg & Heq).
    exists segment. split; [exact Hseg |].
    simpl. rewrite append_String. f_equal. exact Heq.
  - pose proof (HierarchyFacts.lastIndexOfDot_None rest Hlast) as Hnone.
    rewrite Hnone, orb_false_r in Hdot. rewrite Hdot.
    exists rest. split; [exact Hnone |].
    simpl. unfold isDot in Hdot. apply Ascii.eqb_eq in Hdot. now subst c.
Qed.

(** X1: an id with a dot is its parent id ([getParentId]), a dot and a
    last segment that has no dot; the parent id is one nesting level
    ([getNestingLevel]) above the id. *)
Theorem getParentId_splits_off_last_segment (taskId : string) :
  includesDot taskId = true ->
  exists segment,
    includesDot segment = false
    /\ taskId = getParentId taskId +:+ "." +:+ segment
    /\ getNestingLevel taskId = S (getNestingLevel (getParentId taskId)).
Proof.
  intros Hdot. destruct (getParentId_last_segment taskId Hdot) as (segment & Hseg & Heq).
  exists segment. split; [exact Hseg |]. split; [exact Heq |].
  now apply HierarchyFacts.getNestingLevel_parent.
Qed.

(** ** Segments *)

Lemma splitOnDot_not_nil (s : string) : splitOnDot s <> [].
Proof.
  induction s as [| c s IH]; [discriminate |].
  simpl. destruct (isDot c); [discriminate |].
  destruct (splitOnDot s); [contradiction | discriminate].
Qed.

(** An id without dots is its own single segment. *)
Lemma splitOnDot_plain (s : string) : includesDot s = false -> splitOnDot s = [s].
Proof.
  induction s as [| c s IH]; [reflexivity |].
  simpl. intros H. apply orb_false_iff in H as [-> H]. now rewrite (IH H).
Qed.

(** The segments of [first.rest] are [first] and the segments of [rest]. *)
Lemma splitOnDot_app (first rest : string) :
  includesDot first = false ->
  splitOnDot (first +:+ "." +:+ rest) = first :: splitOnDot rest.
Proof.
  induction first as [| c first IH]; [reflexivity |].
  simpl. intros H. apply orb_false_iff in H as [Hc H].
  change (String c first +:+ "." +:+ rest) with (String c (first +:+ "." +:+ rest)).
  simpl. rewrite Hc. now rewrite (IH H).
Qed.

(** A dotted id is a first segment without dots, a dot and a rest. *)
Lemma first_segment (s : string) :
  includesDot s = true ->
  exists first rest, includesDot first = false /\ s = first +:+ "." +:+ rest.
Proof.
  induction s as [| c s IH]; [discriminate |].
  simpl. destruct (isDot c) eqn:Hc; simpl.
  - intros _. exists "", s. split; [reflexivity |].
    unfold isDot in Hc. apply Ascii.eqb_eq in Hc. now subst c.
  - intros Hs. destruct (IH Hs) as (first & rest & Hfirst & ->).
    exists (String c first), rest. split; [| reflexivity].
    simpl. now rewrite Hc.
Qed.

Lemma append_assoc (a b c : string) : (a +:+ b) +:+ c = a +:+ (b +:+ c).
Proof.
  induction a as [| x a IH]; [reflexivity |].
  change (String x ((a +:+ b) +:+ c) = String x (a +:+ (b +:+ c))). now f_equal.
Qed.

(** X2: [extractParentTaskId] of the extension gives nothing for an id
    without dot, and otherwise the part before the first dot, which
    has no dot itself.  For an id of one dot this is [getParentId] of
    the client; for an id of more dots it is not that parent, but what
    [extractParentTaskId] gives for that parent. *)
Theorem extractParentTaskId_is_the_first_segment (taskId : string) :
  match extractParentTaskId taskId with
  | Some parent =>
      includesDot parent = false /\ exists rest, taskId = parent +:+ "." +:+ rest
  | None => includesDot taskId = false
  end
  /\ (getNestingLevel taskId = 1 -> extractParentTaskId taskId = Some (getParentId taskId))
  /\ (1 < getNestingLevel taskId ->
      extractParentTaskId taskId = extractParentTaskId (getParentId taskId)
      /\ extractParentTaskId taskId <> Some (getParentId taskId)).
Proof.
  unfold extractParentTaskId.
  destruct (includesDot taskId) eqn:Hdot.
  - destruct (first_segment taskId Hdot) as (first & rest & Hfirst & Hid).
    assert (Hhead : head (splitOnDot taskId) = Some first).
    { rewrite Hid, (splitOnDot_app first rest Hfirst). reflexivity. }
    rewrite Hhead.
    destruct (getParentId_last_segment taskId Hdot) as (segment & Hsegment & Hparent).
    pose proof (HierarchyFacts.getNestingLevel_parent taskId Hdot) as Hlevel.
    split; [split; [exact Hfirst | now exists rest] |]. split.
    + intros Hone. rewrite Hone in Hlevel. injection Hlevel as Hzero. symmetry in Hzero.
      apply getNestingLevel_zero in Hzero.
      rewrite Hparent in Hhead at 1.
      rewrite (splitOnDot_app _ segment Hzero) in Hhead. simpl in Hhead. congruence.
    + intros Hdeep.
      assert (Hpdot : includesDot (getParentId taskId) = true).
      { destruct (includesDot (getParentId taskId)) eqn:H; [reflexivity |].
        apply getNestingLevel_zero in H. lia. }
      rewrite Hpdot. split.
      * destruct (first_segment _ Hpdot) as (pfirst & prest & Hpfirst & Hpid).
        rewrite Hpid at 1. rewrite (splitOnDot_app pfirst prest Hpfirst). simpl.
        rewrite Hparent, Hpid, !append_assoc in Hhead.
        rewrite (splitOnDot_app pfirst _ Hpfirst) in Hhead. simpl in Hhead. congruence.
      * intros [= Heq]. rewrite <- Heq in Hpdot. congruence.
  - split; [reflexivity |]. apply getNestingLevel_zero in Hdot. split; intros H; lia.
Qed.

Lemma getParentId_splits_off_last_segment_witness :
  exists segment,
    includesDot segment = false
    /\ "1.2.3" = getParentId "1.2.3" +:+ "." +:+ segment
    /\ getNestingLevel "1.2.3" = S (getNestingLevel (getParentId "1.2.3")).
Proof. apply (getParentId_splits_off_last_segment "1.2.3"). reflexivity. Defined.

End TaskIdsFacts.

(* ===================================================================== *)
(** * Where the hierarchy builder puts a task with a dotted id *)
(* ===================================================================== *)

Module PlacementFacts.

Import Hierarchy.

Lemma lastIndexOfDot_without_dot (s : string) :
  includesDot s = false -> lastIndexOfDot s = None.
Proof.
  induction s as [| c s IH]; [reflexivity |].
  simpl. intros H. apply orb_false_iff in H as [Hc Hs]. now rewrite (IH Hs), Hc.
Qed.

(** The last dot of [parent.segment] is the one written, when the
    segment has none. *)
Lemma lastIndexOfDot_before_segment (parent segment : string) :
  includesDot segment = false ->
  lastIndexOfDot (parent +:+ "." +:+ segment) = Some (String.length parent).
Proof.
  intros Hsegment. induction parent as [| c parent IH].
  - change ("" +:+ "." +:+ segment) with (String "." segment).
    simpl. now rewrite (lastIndexOfDot_without_dot segment Hsegment).
  - change (String c parent +:+ "." +:+ segment)
      with (String c (parent +:+ "." +:+ segment)).
    simpl. now rewrite IH.
Qed.

Lemma substring_prefix (prefix rest : string) :
  String.substring 0 (String.length prefix) (prefix +:+ rest) = prefix.
Proof.
  induction prefix as [| c prefix IH].
  - simpl. now destruct rest.
  - change (String c prefix +:+ rest) with (String c (prefix +:+ rest)).
    simpl. now rewrite IH.
Qed.

(** [getParentId] cuts an id at its last dot: of [parent.segment] with
    a segment that has no dot it returns [parent]. *)
Lemma getParentId_before_last_dot (parent segment : string) :
  includesDot segment = false ->
  getParentId (parent +:+ "." +:+ segment) = parent.
Proof.
  intros Hsegment. unfold getParentId.
  rewrite (lastIndexOfDot_before_segment parent segment Hsegment).
  apply substring_prefix.
Qed.

(** C3: when no input task carries a non-empty [subtasks] array, every
    input task [t] with a dotted id is in the forest that
    [processTaskHierarchy] returns.  Its id is [parent.segment] for a
    segment that has no dot, so that [parent] is the part of the id
    before its last dot; and for that [parent], [t] is inside the
    [subtasks] of the task whose id is [parent], with [parentId] set to
    [parent], when the input holds such a task, and is a root task when
    it does not. *)
Theorem processTaskHierarchy_places_dotted_tasks (localeCompare : string -> string -> Z)
    (tasks : list Task) (t : Task) :
  existsb hasSubtasks tasks = false ->
  In t tasks ->
  includesDot (idOf t) = true ->
  (exists parent segment,
      idOf t = parent +:+ "." +:+ segment /\ includesDot segment = false)
  /\ forall parent segment,
       idOf t = parent +:+ "." +:+ segment ->
       includesDot segment = false ->
       let forest := processTaskHierarchy localeCompare tasks in
       (In parent (map idOf tasks) ->
        exists p placed,
          InForest p forest
          /\ idOf p = parent
          /\ In placed (subtasksOf p)
          /\ parentIdOf placed = Some parent
          /\ StandsFor tasks t placed)
       /\ (~ In parent (map idOf tasks) ->
           exists placed, In placed forest /\ StandsFor tasks t placed).
Proof.
  intros Hnone Hin Hdot. split.
  - destruct (TaskIdsFacts.getParentId_last_segment (idOf t) Hdot) as (segment & Hseg & Hid).
    now exists (getParentId (idOf t)), segment.
  - intros parent segment Hid Hsegment.
    pose proof (HierarchyFacts.processTaskHierarchy_places_by_getParentId
                  localeCompare tasks t Hnone Hin Hdot) as Hplaced.
    cbv zeta in Hplaced.
    rewrite Hid, (getParentId_before_last_dot parent segment Hsegment) in Hplaced.
    exact Hplaced.
Qed.

Lemma processTaskHierarchy_places_dotted_tasks_witness :
  let t := plainTask "1.2.1" in
  (exists parent segment,
      idOf t = parent +:+ "." +:+ segment /\ includesDot segment = false)
  /\ forall parent segment,
       idOf t = parent +:+ "." +:+ segment ->
       includesDot segment = false ->
       let forest := processTaskHierarchy byCodeUnits sampleTasks in
       (In parent (map idOf sampleTasks) ->
        exists p placed,
          InForest p forest
          /\ idOf p = parent
          /\ In placed (subtasksOf p)
          /\ parentIdOf placed = Some parent
          /\ StandsFor sampleTasks t placed)
       /\ (~ In parent (map idOf sampleTasks) ->
           exists placed, In placed forest /\ StandsFor sampleTasks t placed).
Proof.
  apply (processTaskHierarchy_places_dotted_tasks byCodeUnits sampleTasks (plainTask "1.2.1")).
  - reflexivity.
  - simpl. now left.
  - reflexivity.
Defined.

End PlacementFacts.

(* ===================================================================== *)
(** * Properties of reading and writing the task document *)
(* ===================================================================== *)

Module DocumentFacts.

Import Format Mutator.

(** ** Own properties under assignment *)

Lemma ownProperty_setField_same (fields : list (string * JSON)) (key : string) (v : JSON) :
  JsObject.ownProperty (Js.setField fields key v) key = Some v.
Proof.
  induction fields as [| [k w] fields IH]; simpl.
  - now rewrite String.eqb_refl.
  - destruct (String.eqb k key) eqn:Hk; simpl; rewrite Hk; [reflexivity | exact IH].
Qed.

Lemma ownProperty_setField_other (fields : list (string * JSON)) (key other : string)
    (v : JSON) :
  key <> other ->
  JsObject.ownProperty (Js.setField fields key v) other = JsObject.ownProperty fields other.
Proof.
  intros Hne. induction fields as [| [k w] fields IH]; simpl.
  - apply String.eqb_neq in Hne. now rewrite Hne.
  - destruct (String.eqb_spec k key) as [-> | Hk]; simpl.
    + apply String.eqb_neq in Hne. now rewrite Hne.
    + now rewrite IH.
Qed.

Lemma setField_same_value (fields : list (string * JSON)) (key : string) (v : JSON) :
  JsObject.ownProperty fields key = Some v -> Js.setField fields key v = fields.
Proof.
  induction fields as [| [k w] fields IH]; simpl; [discriminate |].
  destruct (String.eqb k key) eqn:Hk.
  - now intros [= ->].
  - intros H. now rewrite IH.
Qed.

Lemma setField_setField (fields : list (string * JSON)) (key : string) (v w : JSON) :
  Js.setField (Js.setField fields key v) key w = Js.setField fields key w.
Proof.
  induction fields as [| [k u] fields IH]; simpl.
  - now rewrite String.eqb_refl.
  - destruct (String.eqb k key) eqn:Hk; simpl; rewrite Hk; [reflexivity | now rewrite IH].
Qed.

(** Replacing what sits under a key that the object has is an
    assignment to that key. *)
Lemma putAt_object (fields : list (string * JSON)) (key : string) (rest : list string)
    (value w : JSON) :
  JsObject.ownProperty fields key = Some w ->
  putAt (key :: rest) value (JObj fields)
  = JObj (Js.setField fields key (putAt rest value w)).
Proof.
  intros Hw. simpl. f_equal.
  induction fields as [| [k u] fields IH]; simpl in *; [discriminate |].
  destruct (String.eqb k key) eqn:Hk.
  - now injection Hw as ->.
  - now rewrite IH.
Qed.

Lemma putAt_cons (holder : JSON) (key : string) (rest : list string) (value w : JSON) :
  Js.own holder key = Some w ->
  putAt (key :: rest) value holder = putAt [key] (putAt rest value w) holder.
Proof.
  destruct holder as [| b | r | s | items | fields]; try discriminate.
  - simpl. destruct (Js.arrayIndex key) as [i |]; [| discriminate].
    now intros ->.
  - intros Hw. simpl in Hw.
    now rewrite (putAt_object fields key rest value w Hw),
                (putAt_object fields key [] (putAt rest value w) w Hw).
Qed.

Lemma own_putAt_same (holder : JSON) (key : string) (value w : JSON) :
  Js.own holder key = Some w ->
  Js.own (putAt [key] value holder) key = Some value.
Proof.
  destruct holder as [| b | r | s | items | fields]; try discriminate; simpl.
  - destruct (Js.arrayIndex key) as [i |] eqn:Hi; [| discriminate].
    intros Hw. rewrite Hw. simpl. rewrite Hi.
    apply list_lookup_insert_eq. now apply lookup_lt_Some in Hw.
  - intros Hw.
    change (Js.own (putAt [key] value (JObj fields)) key = Some value).
    rewrite (putAt_object fields key [] value w Hw). simpl.
    apply ownProperty_setField_same.
Qed.

Lemma putAt_same_value (holder : JSON) (key : string) (w : JSON) :
  Js.own holder key = Some w -> putAt [key] w holder = holder.
Proof.
  destruct holder as [| b | r | s | items | fields]; try discriminate; simpl.
  - destruct (Js.arrayIndex key) as [i |] eqn:Hi; [| discriminate].
    intros Hw. rewrite Hw. f_equal. now apply list_insert_id.
  - intros Hw.
    change (putAt [key] w (JObj fields) = JObj fields).
    rewrite (putAt_object fields key [] w w Hw). simpl. f_equal.
    now apply setField_same_value.
Qed.

Lemma own_putAt_other (fields : list (string * JSON)) (key other : string) (value : JSON) :
  key <> other ->
  Js.own (putAt [key] value (JObj fields)) other = Js.own (JObj fields) other.
Proof.
  intros Hne. simpl.
  induction fields as [| [k u] fields IH]; simpl; [reflexivity |].
  destruct (String.eqb_spec k key) as [-> | Hk]; simpl.
  - apply String.eqb_neq in Hne. now rewrite Hne.
  - now rewrite IH.
Qed.

(** ** The data of a tag *)

Lemma tasksArrayOf_Some (data : option JSON) (items : list JSON) :
  tasksArrayOf data = Some items ->
  exists fields,
    data = Some (JObj fields) /\ JsObject.ownProperty fields "tasks" = Some (JArr items).
Proof.
  unfold tasksArrayOf. destruct data as [d |]; [| discriminate].
  destruct (Js.truthy d); [| discriminate].
  destruct d as [| b | r | s | l | fields]; simpl; try discriminate.
  destruct (JsObject.ownProperty fields "tasks") as [[| | | | l |] |] eqn:Ht; try discriminate.
  intros [= <-]. now exists fields.
Qed.

Lemma tasksArrayOf_object (fields : list (string * JSON)) (items : list JSON) :
  JsObject.ownProperty fields "tasks" = Some (JArr items) ->
  tasksArrayOf (Some (JObj fields)) = Some items.
Proof. unfold tasksArrayOf. simpl. now intros ->. Qed.

(** What the tag lookup found: the tag it used, the object under it
    and the array in that object. *)
Lemma tasksOfTag_Ok (holder : JSON) (prefix : list string) (tag : string) (container : JSON)
    (info : Extracted) :
  tasksOfTag holder prefix tag container = Ok info ->
  exists used fields,
    (used = tag \/ (used = "master" /\ tasksArrayOf (Js.own holder tag) = None))
    /\ Js.own holder used = Some (JObj fields)
    /\ JsObject.ownProperty fields "tasks" = Some (JArr (tasks info))
    /\ info = mkExtracted (tasks info) true used (prefix ++ [used; "tasks"]) container.
Proof.
  unfold tasksOfTag.
  destruct (tasksArrayOf (Js.own holder tag)) as [items |] eqn:Htag.
  - intros [= <-]. destruct (tasksArrayOf_Some _ _ Htag) as (fields & Hown & Htasks).
    exists tag, fields. simpl. repeat split; try assumption. now left.
  - destruct (tasksArrayOf (Js.own holder "master")) as [items |] eqn:Hmaster; [| discriminate].
    intros [= <-]. destruct (tasksArrayOf_Some _ _ Hmaster) as (fields & Hown & Htasks).
    exists "master", fields. simpl. repeat split; try assumption. right. now split.
Qed.

(** The lookup again, once the array under the tag it used is replaced. *)
Lemma tasksOfTag_after_assignment (holder : JSON) (prefix : list string) (tag used : string)
    (container container' : JSON) (fields : list (string * JSON)) (tasks' : list JSON) :
  used = tag \/ (used = "master" /\ tasksArrayOf (Js.own holder tag) = None) ->
  Js.own holder used = Some (JObj fields) ->
  tasksOfTag (putAt [used] (JObj (Js.setField fields "tasks" (JArr tasks'))) holder)
             prefix tag container'
  = Ok (mkExtracted tasks' true used (prefix ++ [used; "tasks"]) container').
Proof.
  intros Hused Hown. unfold tasksOfTag.
  pose proof (own_putAt_same holder used
                (JObj (Js.setField fields "tasks" (JArr tasks'))) _ Hown) as Hnew.
  assert (Harr : tasksArrayOf (Some (JObj (Js.setField fields "tasks" (JArr tasks'))))
                 = Some tasks').
  { apply tasksArrayOf_object. apply ownProperty_setField_same. }
  destruct Hused as [-> | [-> Hnone]].
  - now rewrite Hnew, Harr.
  - destruct (String.eqb_spec "master" tag) as [<- | Hne].
    + now rewrite Hnew, Harr.
    + destruct holder as [| b | r | s | items | fs]; try discriminate.
      rewrite (own_putAt_other fs "master" tag _ Hne), Hnone, Hnew, Harr. reflexivity.
Qed.

Lemma assignTasksOfTag_object (holder : JSON) (tag : string) (fields : list (string * JSON))
    (tasks' : list JSON) :
  Js.own holder tag = Some (JObj fields) ->
  assignTasksOfTag holder tag tasks'
  = Ok (putAt [tag] (JObj (Js.setField fields "tasks" (JArr tasks'))) holder).
Proof. intros Hown. unfold assignTasksOfTag. now rewrite Hown. Qed.

Lemma own_Some_not_null (v : JSON) (key : string) (w : JSON) :
  Js.own v key = Some w -> Js.get v key = Ok (Some w).
Proof. destruct v; try discriminate; simpl; now intros ->. Qed.

Lemma get_not_null (v : JSON) (key : string) :
  v <> JNull -> Js.get v key = Ok (Js.own v key).
Proof. destruct v; try reflexivity. congruence. Qed.

#[local] Arguments putAt : simpl never.

Section RoundTrip.

Variables (persisted : option string) (doc : JSON) (info : Extracted).

Hypothesis extracted : extractTasksFromContainer persisted doc = Ok info.
Hypothesis one_shape : isDirectTag doc && isNestedTag doc = false.

(** What is written, whatever the tasks. *)
Lemma writeTasksToContainer_cases (tasks' : list JSON) :
  exists written,
    writeTasksToContainer tasks' (isTaggedFormat info) (currentTag info) doc = Ok written
    /\ extractTasksFromContainer persisted written
       = Ok (mkExtracted tasks' (isTaggedFormat info) (currentTag info) (origin info) written)
    /\ (tasks' = tasks info -> written = doc)
    /\ isDirectTag written && isNestedTag written = false
    /\ written = putAt (origin info) (JArr tasks') doc.
Proof.
  pose proof extracted as Hex. rewrite FormatFacts.extractTasksFromContainer_cases in Hex.
  destruct (isFlatArray doc) eqn:Hflat.
  { injection Hex as <-. simpl.
    destruct doc as [| b | r | s | items | fields]; try discriminate.
    unfold writeTasksToContainer. simpl. exists (JArr tasks').
    repeat split. intros ->; reflexivity. }
  destruct (isDirectTag doc) eqn:Hdirect.
  { simpl in one_shape.
    destruct (tasksOfTag_Ok _ _ _ _ _ Hex) as (used & fields & Hused & Hown & Htasks & ->).
    simpl. unfold writeTasksToContainer.
    assert (Hnotnull : doc <> JNull) by (intros ->; discriminate).
    rewrite (get_not_null doc "tags" Hnotnull).
    assert (Hassign : match Js.own doc "tags" with
                      | Some tags =>
                          if Js.truthy tags && Js.typeofObject tags
                          then rbind (assignTasksOfTag tags used tasks')
                                 (fun tags' => Ok (Js.set doc "tags" tags'))
                          else assignTasksOfTag doc used tasks'
                      | None => assignTasksOfTag doc used tasks'
                      end = assignTasksOfTag doc used tasks').
    { unfold isNestedTag in one_shape. destruct (Js.own doc "tags"); [| reflexivity].
      now rewrite one_shape. }
    rewrite Hassign, (assignTasksOfTag_object doc used fields tasks' Hown).
    eexists. split; [reflexivity |].
    set (written := putAt [used] (JObj (Js.setField fields "tasks" (JArr tasks'))) doc).
    assert (Hobj : exists fs, doc = JObj fs).
    { destruct doc as [| b | r | s | items | fs]; try discriminate. now exists fs. }
    destruct Hobj as [fs ->].
    assert (Hmaster : isDirectTag written = true).
    { unfold isDirectTag.
      destruct (String.eqb_spec used "master") as [-> | Hne].
      - unfold written. rewrite (own_putAt_same _ _ _ _ Hown).
        rewrite (tasksArrayOf_object _ tasks'); [reflexivity |].
        apply ownProperty_setField_same.
      - unfold written. rewrite (own_putAt_other fs used "master" _ Hne).
        exact Hdirect. }
    assert (Htags : isNestedTag written = false).
    { unfold isNestedTag.
      destruct (String.eqb_spec used "tags") as [-> | Hne].
      - exfalso. unfold isNestedTag in one_shape. rewrite Hown in one_shape. discriminate.
      - unfold written. rewrite (own_putAt_other fs used "tags" _ Hne). exact one_shape. }
    split; [| split; [| split]].
    - rewrite FormatFacts.extractTasksFromContainer_cases.
      assert (Hflat' : isFlatArray written = false).
      { reflexivity. }
      rewrite Hflat', Hmaster. unfold written at 1.
      now apply tasksOfTag_after_assignment.
    - intros ->. unfold written.
      rewrite (setField_same_value fields "tasks" _ Htasks).
      now apply putAt_same_value.
    - now rewrite Hmaster, Htags.
    - unfold written. rewrite (putAt_cons _ used ["tasks"] _ _ Hown).
      now rewrite (putAt_object fields "tasks" [] _ _ Htasks). }
  clear one_shape.
  destruct (isNestedTag doc) eqn:Hnested.
  { unfold isNestedTag in Hnested.
    destruct (Js.own doc "tags") as [tags |] eqn:Htagsown; [| discriminate]. simpl in Hex.
    destruct (tasksOfTag_Ok _ _ _ _ _ Hex) as (used & fields & Hused & Hown & Htasks & ->).
    simpl. unfold writeTasksToContainer.
    rewrite (own_Some_not_null doc "tags" tags Htagsown), Hnested.
    rewrite (assignTasksOfTag_object tags used fields tasks' Hown). unfold rbind.
    eexists. split; [reflexivity |].
    set (tags' := putAt [used] (JObj (Js.setField fields "tasks" (JArr tasks'))) tags).
    assert (Hobj : exists fs, doc = JObj fs).
    { destruct doc as [| b | r | s | items | fs]; try discriminate. now exists fs. }
    destruct Hobj as [fs ->]. simpl in Htagsown.
    change (Js.set (JObj fs) "tags" tags') with (JObj (Js.setField fs "tags" tags')).
    assert (Hshape : Js.truthy tags' && Js.typeofObject tags' = true).
    { unfold tags', putAt. destruct tags as [| b | r | s | items | tfs]; try discriminate.
      - destruct (Js.arrayIndex used); [| reflexivity].
        now destruct (items !! n).
      - reflexivity. }
    assert (Hmaster : isDirectTag (JObj (Js.setField fs "tags" tags')) = false).
    { unfold isDirectTag. simpl.
      rewrite ownProperty_setField_other by discriminate. exact Hdirect. }
    assert (Hnested' : isNestedTag (JObj (Js.setField fs "tags" tags')) = true).
    { unfold isNestedTag. simpl. rewrite ownProperty_setField_same. exact Hshape. }
    split; [| split; [| split]].
    - rewrite FormatFacts.extractTasksFromContainer_cases.
      change (isFlatArray (JObj (Js.setField fs "tags" tags'))) with false. cbv iota.
      rewrite Hmaster, Hnested'.
      change (Js.own (JObj (Js.setField fs "tags" tags')) "tags")
        with (JsObject.ownProperty (Js.setField fs "tags" tags') "tags").
      rewrite ownProperty_setField_same. simpl default.
      unfold tags'. now apply tasksOfTag_after_assignment.
    - intros ->. unfold tags'.
      rewrite (setField_same_value fields "tasks" _ Htasks).
      rewrite (putAt_same_value tags used _ Hown).
      f_equal. now apply setField_same_value.
    - now rewrite Hmaster.
    - rewrite (putAt_object fs "tags" [used; "tasks"] _ _ Htagsown). do 2 f_equal.
      unfold tags'. rewrite (putAt_cons _ used ["tasks"] _ _ Hown).
      now rewrite (putAt_object fields "tasks" [] _ _ Htasks). }
  destruct (isLegacy doc) eqn:Hlegacy; [| discriminate].
  injection Hex as <-. simpl.
  unfold isLegacy in Hlegacy.
  destruct doc as [| b | r | s | items | fs]; try discriminate.
  simpl in Hlegacy.
  destruct (JsObject.ownProperty fs "tasks") as [[| | | | items |] |] eqn:Htasks;
    try discriminate.
  unfold writeTasksToContainer. simpl. eexists. split; [reflexivity |].
  assert (Hmaster : isDirectTag (JObj (Js.setField fs "tasks" (JArr tasks'))) = false).
  { unfold isDirectTag. simpl. rewrite ownProperty_setField_other by discriminate.
    exact Hdirect. }
  assert (Hnested' : isNestedTag (JObj (Js.setField fs "tasks" (JArr tasks'))) = false).
  { unfold isNestedTag. simpl. rewrite ownProperty_setField_other by discriminate.
    exact Hnested. }
  split; [| split; [| split]].
  - rewrite FormatFacts.extractTasksFromContainer_cases, Hmaster, Hnested'. simpl.
    unfold isLegacy. simpl. rewrite !ownProperty_setField_same. reflexivity.
  - simpl. rewrite Htasks. simpl. intros ->. f_equal. now apply setField_same_value.
  - now rewrite Hmaster.
  - now rewrite (putAt_object fs "tasks" [] _ _ Htasks).
Qed.

End RoundTrip.

(** ** Reading and extracting *)

Lemma rawTasksOfTag_tasksOfTag (holder : JSON) (prefix : list string) (tag : string)
    (container : JSON) :
  match tasksOfTag holder prefix tag container with
  | Ok info => rawTasksOfTag holder tag = tasks info
  | Throw _ => rawTasksOfTag holder tag = []
  end.
Proof.
  unfold tasksOfTag, rawTasksOfTag.
  destruct (tasksArrayOf (Js.own holder tag)); [reflexivity |].
  now destruct (tasksArrayOf (Js.own holder "master")).
Qed.

(** The statement of [getTasks] that fills [rawTasks] finds the array
    that the extractor finds, and no task where the extractor throws. *)
Lemma rawTasksOf_cases (persisted : option string) (doc : JSON) :
  match extractTasksFromContainer persisted doc with
  | Ok info => rawTasksOf persisted doc = Ok (tasks info)
  | Throw e =>
      rawTasksOf persisted doc = match doc with JNull => Throw e | _ => Ok [] end
  end.
Proof.
  destruct doc as [| b | r | s | items | fields]; try reflexivity.
  unfold extractTasksFromContainer, rawTasksOf. simpl.
  destruct (tasksArrayOf (JsObject.ownProperty fields "master")).
  { pose proof (rawTasksOfTag_tasksOfTag (JObj fields) [] (tagFromState persisted)
                  (JObj fields)) as H.
    destruct (tasksOfTag (JObj fields) [] (tagFromState persisted) (JObj fields));
      now rewrite H. }
  assert (Hlegacy : match legacyOrUnknown (JObj fields) with
                    | Ok info => Ok (legacyOrNothing (JObj fields)) = Ok (tasks info)
                    | Throw _ => Ok (legacyOrNothing (JObj fields)) = Ok []
                    end).
  { unfold legacyOrUnknown, legacyOrNothing.
    now destruct (Js.own (JObj fields) "tasks") as [[| | | | items |] |]. }
  destruct (JsObject.ownProperty fields "tags") as [tags |]; [| exact Hlegacy].
  destruct (Js.truthy tags && Js.typeofObject tags); [| exact Hlegacy].
  pose proof (rawTasksOfTag_tasksOfTag tags ["tags"] (tagFromState persisted)
                (JObj fields)) as H.
  destruct (tasksOfTag tags ["tags"] (tagFromState persisted) (JObj fields));
    now rewrite H.
Qed.

Lemma rawTasksOf_extracted (persisted : option string) (doc : JSON) (info : Extracted) :
  extractTasksFromContainer persisted doc = Ok info ->
  rawTasksOf persisted doc = Ok (tasks info).
Proof. intros H. pose proof (rawTasksOf_cases persisted doc) as Hc. now rewrite H in Hc. Qed.

(** X3: on a document that does not have both a [master] with a tasks
    array and an object under [tags], writing back the tasks that
    [extractTasksFromContainer] extracted, with the format and the tag
    it reported, leaves the document as it is. *)
Theorem writing_back_extracted_tasks_is_identity (persisted : option string) (doc : JSON)
    (info : Extracted) :
  extractTasksFromContainer persisted doc = Ok info ->
  isDirectTag doc && isNestedTag doc = false ->
  writeTasksToContainer (tasks info) (isTaggedFormat info) (currentTag info) doc = Ok doc.
Proof.
  intros Hinfo Hshape.
  destruct (writeTasksToContainer_cases persisted doc info Hinfo Hshape (tasks info))
    as (written & Hwrite & _ & Hsame & _).
  rewrite Hwrite. f_equal. now apply Hsame.
Qed.

(** X4: on such a document [writeTasksToContainer] succeeds for any array
    of tasks, and what [extractTasksFromContainer] then extracts from
    the written document is that array, with the format, the tag and
    the place it had reported before; [getTasks] reads the same array
    from it. *)
Theorem extract_after_write_yields_written_tasks (persisted : option string) (doc : JSON)
    (info : Extracted) (tasks' : list JSON) :
  extractTasksFromContainer persisted doc = Ok info ->
  isDirectTag doc && isNestedTag doc = false ->
  exists written,
    writeTasksToContainer tasks' (isTaggedFormat info) (currentTag info) doc = Ok written
    /\ extractTasksFromContainer persisted written
       = Ok (mkExtracted tasks' (isTaggedFormat info) (currentTag info) (origin info) written)
    /\ rawTasksOf persisted written = Ok tasks'.
Proof.
  intros Hinfo Hshape.
  destruct (writeTasksToContainer_cases persisted doc info Hinfo Hshape tasks')
    as (written & Hwrite & Hagain & _).
  exists written. split; [exact Hwrite |]. split; [exact Hagain |].
  now rewrite (rawTasksOf_extracted persisted written _ Hagain).
Qed.

Lemma writing_back_extracted_tasks_is_identity_witness :
  writeTasksToContainer (TaskDocument.masterTasks (Doc TaskDocument.scenario)) true "master"
    TaskDocument.scenario
  = Ok TaskDocument.scenario.
Proof.
  apply (writing_back_extracted_tasks_is_identity None TaskDocument.scenario
           (mkExtracted (TaskDocument.masterTasks (Doc TaskDocument.scenario))
                        true "master" ["master"; "tasks"] TaskDocument.scenario)).
  - reflexivity.
  - reflexivity.
Defined.

Lemma extract_after_write_yields_written_tasks_witness :
  exists written,
    writeTasksToContainer [JObj [("id", JNum "9")]] true "master" TaskDocument.scenario
    = Ok written
    /\ extractTasksFromContainer None written
       = Ok (mkExtracted [JObj [("id", JNum "9")]] true "master" ["master"; "tasks"] written)
    /\ rawTasksOf None written = Ok [JObj [("id", JNum "9")]].
Proof.
  apply (extract_after_write_yields_written_tasks None TaskDocument.scenario
           (mkExtracted (TaskDocument.masterTasks (Doc TaskDocument.scenario))
                        true "master" ["master"; "tasks"] TaskDocument.scenario)
           [JObj [("id", JNum "9")]]).
  - reflexivity.
  - reflexivity.
Defined.

End DocumentFacts.

(* ===================================================================== *)
(** * Properties of the mutations of the task file *)
(* ===================================================================== *)

Module TaskOperationsFacts.

Import Format Mutator TaskDocument TaskMasterClient TaskVocabulary TaskOperations.
Import DocumentFacts.

(** ** Searching by id *)


Lemma findById_None (id : string) (tasks : list JSON) :
  forallb hasAnId tasks = true ->
  existsb (hasId id) tasks = false ->
  findById id tasks = Ok None.
Proof.
  induction tasks as [| x rest IH]; [reflexivity |].
  simpl. unfold hasId at 1, hasAnId at 1.
  destruct (Js.idToString x) as [own |]; [| discriminate]. simpl.
  intros Hall Hnone. apply orb_false_iff in Hnone as [-> Hnone]. simpl.
  now rewrite (IH Hall Hnone).
Qed.

Lemma findById_first (id : string) (before after : list JSON) (task : JSON) :
  forallb hasAnId before = true ->
  existsb (hasId id) before = false ->
  hasId id task = true ->
  findById id (before ++ task :: after) = Ok (Some (before, task, after)).
Proof.
  intros Hall Hnone Htask.
  induction before as [| x before IH]; simpl in *.
  - unfold hasId in Htask. destruct (Js.idToString task); [| discriminate].
    simpl. now rewrite Htask.
  - unfold hasAnId at 1 in Hall. unfold hasId at 1 in Hnone.
    destruct (Js.idToString x) as [own |]; [| discriminate]. simpl in *.
    apply orb_false_iff in Hnone as [-> Hnone]. simpl.
    now rewrite (IH Hall Hnone).
Qed.

Lemma withoutId_filter (taskId : string) (tasks : list JSON) :
  forallb hasAnId tasks = true ->
  withoutId taskId tasks = Ok (List.filter (fun t => negb (hasId taskId t)) tasks).
Proof.
  induction tasks as [| x rest IH]; [reflexivity |].
  simpl. unfold hasId at 1, hasAnId at 1.
  destruct (Js.idToString x) as [own |]; [| discriminate]. simpl.
  intros Hall. rewrite (IH Hall). simpl.
  now destruct (String.eqb own taskId).
Qed.

Lemma filter_length_lt (taskId : string) (tasks : list JSON) :
  existsb (hasId taskId) tasks = true ->
  length (List.filter (fun t => negb (hasId taskId t)) tasks) < length tasks.
Proof.
  induction tasks as [| x rest IH]; [discriminate |].
  simpl. destruct (hasId taskId x); simpl.
  - intros _. pose proof (List.filter_length_le (fun t => negb (hasId taskId t)) rest). lia.
  - intros H. specialize (IH H). lia.
Qed.

Lemma filter_none (taskId : string) (tasks : list JSON) :
  existsb (hasId taskId) tasks = false ->
  List.filter (fun t => negb (hasId taskId t)) tasks = tasks.
Proof.
  induction tasks as [| x rest IH]; [reflexivity |].
  simpl. intros H. apply orb_false_iff in H as [-> H]. simpl. now rewrite IH.
Qed.

(** ** Writing after a change in place *)


(** ** [deleteTask] *)

Lemma deleteTask_run (taskId : string) (env : Env) (st : State) :
  deleteTask taskId env st =
  let tried := record (Attempt DirectFile "deleteTask") st in
  match tasksJson st with
  | NoFile => (Throw tasksJsonNotFound, tried)
  | Unparsable => (Throw SyntaxError, tried)
  | Doc doc =>
      match extractTasksFromContainer (persistedTag st) doc with
      | Throw e => (Throw e, tried)
      | Ok info =>
          match withoutId taskId (tasks info) with
          | Throw e => (Throw e, tried)
          | Ok kept =>
              if (length kept <? length (tasks info))%nat then
                match writeTasksToContainer kept (isTaggedFormat info) (currentTag info)
                        doc with
                | Throw e => (Throw e, tried)
                | Ok written =>
                    (Ok tt, record (Written "tasks.json") (withTasksJson (Doc written) tried))
                end
              else (Throw (mainTaskNotFound taskId), tried)
          end
      end
  end.
Proof.
  unfold deleteTask. rewrite ClientFacts.tryCatch_rethrow.
  unfold bind, emit, modify, getState, ask, liftResult, throw, ret. simpl.
  destruct (tasksJson st) as [| | doc]; try reflexivity.
  destruct (extractTasksFromContainer (persistedTag st) doc) as [info | e]; [| reflexivity].
  destruct (withoutId taskId (tasks info)) as [kept | e]; [| reflexivity].
  destruct (length kept <? length (tasks info))%nat; [| reflexivity].
  now destruct (writeTasksToContainer kept _ _ doc).
Qed.

(** X5: on a document that has at most one of the two tagged shapes and
    whose main tasks all have ids, one of them the id asked for,
    [deleteTask] resolves over the file alone, and the main tasks of
    the written file are the old ones without every task of that id,
    the others in their order. *)
Theorem deleteTask_removes_every_main_task_with_the_id (taskId : string) (env : Env)
    (st : State) (doc : JSON) (info : Extracted) :
  tasksJson st = Doc doc ->
  extractTasksFromContainer (persistedTag st) doc = Ok info ->
  isDirectTag doc && isNestedTag doc = false ->
  forallb hasAnId (tasks info) = true ->
  existsb (hasId taskId) (tasks info) = true ->
  let kept := List.filter (fun t => negb (hasId taskId t)) (tasks info) in
  fst (deleteTask taskId env st) = Ok tt
  /\ attemptsOf (eventsOf (deleteTask taskId) env st) = [DirectFile]
  /\ exists written,
       tasksJson (snd (deleteTask taskId env st)) = Doc written
       /\ extractTasksFromContainer (persistedTag st) written
          = Ok (mkExtracted kept (isTaggedFormat info) (currentTag info) (origin info) written)
       /\ rawTasksOf (persistedTag st) written = Ok kept.
Proof.
  intros Hdoc Hinfo Hshape Hids Hsome. cbv zeta.
  destruct (writeTasksToContainer_cases (persistedTag st) doc info Hinfo Hshape
              (List.filter (fun t => negb (hasId taskId t)) (tasks info)))
    as (written & Hwrite & Hagain & _ & _ & _).
  assert (Hrun : deleteTask taskId env st
                 = (Ok tt, record (Written "tasks.json")
                             (withTasksJson (Doc written)
                                (record (Attempt DirectFile "deleteTask") st)))).
  { rewrite deleteTask_run. cbv zeta.
    rewrite Hdoc, Hinfo, (withoutId_filter taskId _ Hids).
    apply filter_length_lt, Nat.ltb_lt in Hsome. rewrite Hsome, Hwrite. reflexivity. }
  split; [now rewrite Hrun |]. split.
  - erewrite ClientFacts.eventsOf_extends.
    2:{ rewrite Hrun. simpl. rewrite <- app_assoc. reflexivity. }
    reflexivity.
  - exists written. rewrite Hrun. split; [reflexivity |]. split; [exact Hagain |].
    now rewrite (rawTasksOf_extracted _ _ _ Hagain).
Qed.

(** X6: when the main tasks all have ids and none the one asked for,
    [deleteTask] rejects with [Main task ... not found.] and leaves
    the file as it was, whatever ids the subtasks have. *)
Theorem deleteTask_unknown_main_task (taskId : string) (env : Env) (st : State)
    (doc : JSON) (info : Extracted) :
  tasksJson st = Doc doc ->
  extractTasksFromContainer (persistedTag st) doc = Ok info ->
  forallb hasAnId (tasks info) = true ->
  existsb (hasId taskId) (tasks info) = false ->
  fst (deleteTask taskId env st) = Throw (mainTaskNotFound taskId)
  /\ tasksJson (snd (deleteTask taskId env st)) = tasksJson st
  /\ attemptsOf (eventsOf (deleteTask taskId) env st) = [DirectFile].
Proof.
  intros Hdoc Hinfo Hids Hnone.
  assert (Hrun : deleteTask taskId env st
                 = (Throw (mainTaskNotFound taskId),
                    record (Attempt DirectFile "deleteTask") st)).
  { rewrite deleteTask_run. cbv zeta.
    rewrite Hdoc, Hinfo, (withoutId_filter taskId _ Hids).
    rewrite (filter_none taskId _ Hnone), Nat.ltb_irrefl. reflexivity. }
  rewrite Hrun. split; [reflexivity |]. split; [reflexivity |].
  erewrite ClientFacts.eventsOf_extends.
  2:{ rewrite Hrun. simpl. reflexivity. }
  reflexivity.
Qed.

(** ** [setSubtaskStatus] *)

Lemma setSubtaskStatus_run (parentTaskId subtaskId : string) (status : TaskStatus)
    (env : Env) (st : State) :
  setSubtaskStatus parentTaskId subtaskId status env st =
  let probed := withProbes (S (mcpProbes st)) (record (Probe MCP "isAvailable") st) in
  if mcpAvailable env (mcpProbes st) then
    let tried := record (Attempt MCP "setTaskStatus") probed in
    if mcpSetTaskStatus env subtaskId status (managerTag env)
    then (Ok tt, tried)
    else setSubtaskStatusInFile parentTaskId subtaskId status env tried
  else setSubtaskStatusInFile parentTaskId subtaskId status env probed.
Proof.
  unfold setSubtaskStatus. rewrite ClientFacts.tryCatch_rethrow.
  unfold bind at 1. rewrite ClientFacts.isMCPServerAvailable_run.
  destruct (mcpAvailable env (mcpProbes st)); [| reflexivity].
  unfold bind, tryCatch, emit, modify, ask, ret, throw. simpl.
  destruct (mcpSetTaskStatus env subtaskId status (managerTag env)); reflexivity.
Qed.

Lemma setSubtaskStatusInFile_run (parentTaskId subtaskId : string) (status : TaskStatus)
    (env : Env) (st : State) :
  setSubtaskStatusInFile parentTaskId subtaskId status env st =
  let tried := record (Attempt DirectFile "setSubtaskStatus") st in
  match tasksJson st with
  | NoFile => (Throw tasksJsonNotFound, tried)
  | Unparsable => (Throw SyntaxError, tried)
  | Doc doc =>
      match extractTasksFromContainer (persistedTag st) doc with
      | Throw e => (Throw e, tried)
      | Ok info =>
          match updateSubtaskOf parentTaskId subtaskId status (nowISO env) (tasks info) with
          | Throw e => (Throw e, tried)
          | Ok tasks' =>
              match writeTasksToContainer tasks' (isTaggedFormat info) (currentTag info)
                      (putAt (origin info) (JArr tasks') doc) with
              | Throw e => (Throw e, tried)
              | Ok written =>
                  (Ok tt, record (Written "tasks.json") (withTasksJson (Doc written) tried))
              end
          end
      end
  end.
Proof.
  unfold setSubtaskStatusInFile.
  unfold bind, emit, modify, getState, ask, liftResult, throw, ret. simpl.
  destruct (tasksJson st) as [| | doc]; reflexivity.
Qed.

(** The state in which the file operations start: the probe, and the
    attempt over MCP when the server was there, change neither the
    file nor the tag. *)
Lemma setSubtaskStatus_in_file (parentTaskId subtaskId : string) (status : TaskStatus)
    (env : Env) (st : State) :
  servedByMCP env st subtaskId status = false ->
  exists st0,
    setSubtaskStatus parentTaskId subtaskId status env st
    = setSubtaskStatusInFile parentTaskId subtaskId status env st0
    /\ tasksJson st0 = tasksJson st
    /\ persistedTag st0 = persistedTag st.
Proof.
  unfold servedByMCP. intros Hserved. rewrite setSubtaskStatus_run. cbv zeta.
  destruct (mcpAvailable env (mcpProbes st)); simpl in Hserved.
  - rewrite Hserved. eexists. split; [reflexivity |]. now split.
  - eexists. split; [reflexivity |]. now split.
Qed.


(** X8: [setSubtaskStatus] looks for the parent among the main tasks and
    for the subtask among the elements of the parent's [subtasks], no
    deeper: when either is missing there it rejects with the message
    for it and leaves the file as it was. *)
Theorem setSubtaskStatus_searches_one_level (parentTaskId subtaskId : string)
    (status : TaskStatus) (env : Env) (st : State) (doc : JSON) (info : Extracted) :
  servedByMCP env st subtaskId status = false ->
  tasksJson st = Doc doc ->
  extractTasksFromContainer (persistedTag st) doc = Ok info ->
  forallb hasAnId (tasks info) = true ->
  let outcome := setSubtaskStatus parentTaskId subtaskId status env st in
  (existsb (hasId parentTaskId) (tasks info) = false ->
   fst outcome = Throw (parentNotFound parentTaskId)
   /\ tasksJson (snd outcome) = tasksJson st)
  /\ (forall before parentTask after items,
        findById parentTaskId (tasks info) = Ok (Some (before, parentTask, after)) ->
        Js.own parentTask "subtasks" = Some (JArr items) ->
        forallb hasAnId items = true ->
        existsb (hasId subtaskId) items = false ->
        fst outcome = Throw (subtaskNotFound subtaskId parentTaskId)
        /\ tasksJson (snd outcome) = tasksJson st).
Proof.
  intros Hserved Hdoc Hinfo Hids. cbv zeta.
  destruct (setSubtaskStatus_in_file parentTaskId subtaskId status env st Hserved)
    as (st0 & -> & Hdoc0 & Htag0).
  rewrite setSubtaskStatusInFile_run. cbv zeta.
  rewrite Hdoc0, Hdoc, Htag0, Hinfo. unfold updateSubtaskOf. split.
  - intros Hnone. rewrite (findById_None _ _ Hids Hnone). simpl.
    split; [reflexivity | congruence].
  - intros before parentTask after items Hparent Hitems Hsubids Hnone.
    rewrite Hparent. simpl. rewrite Hitems. simpl.
    rewrite (findById_None _ _ Hsubids Hnone). simpl.
    split; [reflexivity | congruence].
Qed.

(** ** [updateTask] *)




Lemma updateTask_run (taskId : string) (updates : list (string * JSON))
    (env : Env) (st : State) :
  updateTask taskId updates env st =
  let tried := record (Attempt DirectFile "updateTask")
                 (withProbes (S (mcpProbes st)) (record (Probe MCP "isAvailable") st)) in
  match tasksJson st with
  | NoFile => (Throw tasksJsonNotFound, tried)
  | Unparsable => (Throw SyntaxError, tried)
  | Doc doc =>
      match extractTasksFromContainer (persistedTag st) doc with
      | Throw e => (Throw e, tried)
      | Ok info =>
          match findById taskId (tasks info) with
          | Throw e => (Throw e, tried)
          | Ok None => (Throw (taskNotFound taskId), tried)
          | Ok (Some (before, task, after)) =>
              let tasks' := before ++ applyUpdates updates (nowISO env) task :: after in
              match writeTasksToContainer tasks' (isTaggedFormat info) (currentTag info)
                      (putAt (origin info) (JArr tasks') doc) with
              | Throw e => (Throw e, tried)
              | Ok written =>
                  (Ok tt, record (Written "tasks.json") (withTasksJson (Doc written) tried))
              end
          end
      end
  end.
Proof.
  unfold updateTask. rewrite ClientFacts.tryCatch_rethrow.
  unfold bind at 1. rewrite ClientFacts.isMCPServerAvailable_run.
  unfold bind, emit, modify, getState, ask, liftResult, throw, ret. simpl.
  destruct (tasksJson st) as [| | doc]; try reflexivity.
  destruct (extractTasksFromContainer (persistedTag st) doc) as [info | e]; [| reflexivity].
  simpl.
  destruct (findById taskId (tasks info)) as [[[[before task] after] |] | e];
    reflexivity.
Qed.


(** X10: when the main tasks all have ids and none the one asked for,
    [updateTask] rejects with [Task with ID ... not found.], leaves
    the file as it was and attempts nothing over MCP; subtasks are
    not searched. *)
Theorem updateTask_searches_main_tasks_only (taskId : string)
    (updates : list (string * JSON)) (env : Env) (st : State) (doc : JSON)
    (info : Extracted) :
  tasksJson st = Doc doc ->
  extractTasksFromContainer (persistedTag st) doc = Ok info ->
  forallb hasAnId (tasks info) = true ->
  existsb (hasId taskId) (tasks info) = false ->
  fst (updateTask taskId updates env st) = Throw (taskNotFound taskId)
  /\ tasksJson (snd (updateTask taskId updates env st)) = tasksJson st
  /\ attempts MCP (eventsOf (updateTask taskId updates) env st) = 0.
Proof.
  intros Hdoc Hinfo Hids Hnone.
  assert (Hrun : updateTask taskId updates env st
                 = (Throw (taskNotFound taskId),
                    record (Attempt DirectFile "updateTask")
                      (withProbes (S (mcpProbes st))
                         (record (Probe MCP "isAvailable") st)))).
  { rewrite updateTask_run. cbv zeta.
    now rewrite Hdoc, Hinfo, (findById_None _ _ Hids Hnone). }
  rewrite Hrun. split; [reflexivity |]. split; [reflexivity |].
  unfold attempts. erewrite ClientFacts.eventsOf_extends.
  2:{ rewrite Hrun. simpl. rewrite <- !app_assoc. reflexivity. }
  reflexivity.
Qed.

Lemma deleteTask_removes_every_main_task_with_the_id_witness :
  let outcome := deleteTask "1" offline (freshOver scenario) in
  fst outcome = Ok tt
  /\ attemptsOf (eventsOf (deleteTask "1") offline (freshOver scenario)) = [DirectFile]
  /\ exists written,
       tasksJson (snd outcome) = Doc written
       /\ extractTasksFromContainer None written
          = Ok (mkExtracted [] true "master" ["master"; "tasks"] written)
       /\ rawTasksOf None written = Ok [].
Proof.
  apply (deleteTask_removes_every_main_task_with_the_id "1" offline (freshOver scenario)
           scenario Samples.scenarioInfo); reflexivity.
Defined.

Lemma deleteTask_unknown_main_task_witness :
  fst (deleteTask "1.2" offline (freshOver scenario)) = Throw (mainTaskNotFound "1.2")
  /\ tasksJson (snd (deleteTask "1.2" offline (freshOver scenario)))
     = tasksJson (freshOver scenario)
  /\ attemptsOf (eventsOf (deleteTask "1.2") offline (freshOver scenario)) = [DirectFile].
Proof.
  apply (deleteTask_unknown_main_task "1.2" offline (freshOver scenario)
           scenario Samples.scenarioInfo); reflexivity.
Defined.


Lemma setSubtaskStatus_searches_one_level_witness :
  let outcome := setSubtaskStatus "1" "1.2.1" Completed offline (freshOver scenario) in
  (existsb (hasId "1") [Samples.mainTask] = false ->
   fst outcome = Throw (parentNotFound "1")
   /\ tasksJson (snd outcome) = tasksJson (freshOver scenario))
  /\ (forall before parentTask after items,
        findById "1" [Samples.mainTask] = Ok (Some (before, parentTask, after)) ->
        Js.own parentTask "subtasks" = Some (JArr items) ->
        forallb hasAnId items = true ->
        existsb (hasId "1.2.1") items = false ->
        fst outcome = Throw (subtaskNotFound "1.2.1" "1")
        /\ tasksJson (snd outcome) = tasksJson (freshOver scenario)).
Proof.
  apply (setSubtaskStatus_searches_one_level "1" "1.2.1" Completed offline
           (freshOver scenario) scenario Samples.scenarioInfo); reflexivity.
Defined.


Lemma updateTask_searches_main_tasks_only_witness :
  let updates := [("title", JStr "renamed")] in
  fst (updateTask "1.2" updates offline (freshOver scenario)) = Throw (taskNotFound "1.2")
  /\ tasksJson (snd (updateTask "1.2" updates offline (freshOver scenario)))
     = tasksJson (freshOver scenario)
  /\ attempts MCP (eventsOf (updateTask "1.2" updates) offline (freshOver scenario)) = 0.
Proof.
  apply (updateTask_searches_main_tasks_only "1.2" [("title", JStr "renamed")] offline
           (freshOver scenario) scenario Samples.scenarioInfo); reflexivity.
Defined.

End TaskOperationsFacts.

(* ===================================================================== *)
(** * Reading after writing *)
(* ===================================================================== *)

Module ReadWriteFacts.

Import Format Mutator TaskDocument TaskMasterClient TaskVocabulary TaskOperations.
Import DocumentFacts TaskOperationsFacts.

(** The version check leaves the files alone. *)
Lemma checkVersionCompatibility_files (env : Env) (st : State) :
  exists versionCheck st',
    checkVersionCompatibility env st = (Ok versionCheck, st')
    /\ tasksJson st' = tasksJson st
    /\ persistedTag st' = persistedTag st.
Proof.
  unfold checkVersionCompatibility, getCLIVersion, getMCPVersion, isTaskMasterInstalled,
    isMCPServerAvailable, tryCatch, bind, emit, modify, getState, ask, ret, throw.
  simpl.
  destruct (taskMasterInstalled st) as [installed |];
    [destruct (nowMillis env - versionCheckTimestamp st <? versionCheckInterval env)%Z |];
    try destruct (cliVersionOutput env) as [out |]; simpl;
    match goal with
    | |- context [mcpAvailable env ?n] => destruct (mcpAvailable env n)
    end; simpl;
    try (destruct (mcpGetVersion env) as [[v |] |]; simpl);
    do 2 eexists; (split; [reflexivity |]); simpl; split; reflexivity.
Qed.

(** X11: [getTasks] leaves [tasks.json] as it is, and when it answers
    from that file, the array it reads is the one that
    [extractTasksFromContainer] extracts, which is the one the
    mutators edit, or the empty array where the extractor throws. *)
Theorem getTasks_reads_the_array_the_mutators_edit (env : Env) (st : State) :
  tasksJson (snd (getTasks env st)) = tasksJson st
  /\ forall rawTasks,
       fst (getTasks env st) = Ok (FromTasksJson rawTasks) ->
       exists doc,
         tasksJson st = Doc doc
         /\ rawTasksOf (persistedTag st) doc = Ok rawTasks
         /\ match extractTasksFromContainer (persistedTag st) doc with
            | Ok info => rawTasks = tasks info
            | Throw _ => rawTasks = []
            end.
Proof.
  destruct (checkVersionCompatibility_files env st)
    as (versionCheck & st1 & Hrun & Hfile & Htag).
  assert (Hread : forall doc rawTasks,
             rawTasksOf (persistedTag st) doc = Ok rawTasks ->
             match extractTasksFromContainer (persistedTag st) doc with
             | Ok info => rawTasks = tasks info
             | Throw _ => rawTasks = []
             end).
  { intros doc rawTasks Hraw. pose proof (rawTasksOf_cases (persistedTag st) doc) as Hcases.
    destruct (extractTasksFromContainer (persistedTag st) doc) as [info | e].
    - congruence.
    - destruct doc; congruence. }
  unfold getTasks, isMCPServerAvailable, tryCatch, bind, emit, modify, getState,
    ask, ret, throw, liftResult.
  cbv beta. rewrite Hrun. simpl.
  destruct (negb (VersionGate.compatible versionCheck)
            && preferCLIOnVersionMismatch env
            && bool_decide (VersionGate.cliVersion versionCheck <> None)); simpl.
  - rewrite Hfile, Htag. destruct (tasksJson st) as [| | doc] eqn:Hdoc; simpl;
      try (split; [exact Hfile | discriminate]).
    destruct (rawTasksOf (persistedTag st) doc) as [raw |] eqn:Hraw; simpl;
      (split; [exact Hfile |]); [| discriminate].
    intros rawTasks [= <-]. exists doc.
    split; [reflexivity |]. split; [exact Hraw | now apply Hread].
  - destruct (mcpAvailable env (mcpProbes st1)); simpl.
    + destruct (mcpGetTasks env (managerTag env)) as [| | accepted]; simpl;
        try (split; [exact Hfile | discriminate]);
        rewrite Hfile, Htag; destruct (tasksJson st) as [| | doc] eqn:Hdoc; simpl;
        try (split; [exact Hfile | discriminate]);
        (destruct (rawTasksOf (persistedTag st) doc) as [raw |] eqn:Hraw; simpl;
         (split; [exact Hfile |]); [| discriminate];
         intros rawTasks [= <-]; exists doc;
         split; [reflexivity |]; split; [exact Hraw | now apply Hread]).
    + rewrite Hfile, Htag. destruct (tasksJson st) as [| | doc] eqn:Hdoc; simpl;
        try (split; [exact Hfile | discriminate]).
      destruct (rawTasksOf (persistedTag st) doc) as [raw |] eqn:Hraw; simpl;
        (split; [exact Hfile |]); [| discriminate].
      intros rawTasks [= <-]. exists doc.
      split; [reflexivity |]. split; [exact Hraw | now apply Hread].
Qed.

(** ** [setTaskStatus] on a main task *)




End ReadWriteFacts.

(* ===================================================================== *)
(** * A document with both tagged shapes *)
(* ===================================================================== *)

Module MixedDocumentFacts.

Import Format Mutator TaskDocument TaskMasterClient TaskVocabulary TaskOperations.
Import DocumentFacts TaskOperationsFacts.

(** The tag lookup reads the object it is given under the tag and
    under [master], and nothing else of it. *)
Lemma tasksOfTag_same_tags (holder holder' : JSON) (prefix : list string) (tag : string)
    (container container' : JSON) (info : Extracted) :
  Js.own holder' tag = Js.own holder tag ->
  Js.own holder' "master" = Js.own holder "master" ->
  tasksOfTag holder prefix tag container = Ok info ->
  tasksOfTag holder' prefix tag container'
  = Ok (mkExtracted (tasks info) (isTaggedFormat info) (currentTag info) (origin info)
                    container').
Proof.
  unfold tasksOfTag. intros -> ->.
  destruct (tasksArrayOf (Js.own holder tag)) as [items |].
  - now intros [= <-].
  - destruct (tasksArrayOf (Js.own holder "master")) as [items |]; [| discriminate].
    now intros [= <-].
Qed.

(** In a document with both tagged shapes the extractor reads the tags
    at the top and [writeTasksToContainer] writes under [tags]. *)
Lemma written_under_tags (persisted : option string) (doc : JSON) (info : Extracted)
    (tasks' : list JSON) (written : JSON) :
  extractTasksFromContainer persisted doc = Ok info ->
  isDirectTag doc = true ->
  isNestedTag doc = true ->
  tagFromState persisted <> "tags" ->
  writeTasksToContainer tasks' (isTaggedFormat info) (currentTag info) doc = Ok written ->
  extractTasksFromContainer persisted written
  = Ok (mkExtracted (tasks info) (isTaggedFormat info) (currentTag info) (origin info)
                    written).
Proof.
  unfold isDirectTag, isNestedTag. intros Hinfo Hdirect Hnested Htag.
  destruct (tasksArrayOf (Js.own doc "master")) as [items |] eqn:Hmaster; [| discriminate].
  destruct (tasksArrayOf_Some _ _ Hmaster) as (masterFields & Hown & _).
  destruct doc as [| b | r | s | l | fields]; try discriminate.
  simpl in Hown, Hnested.
  destruct (JsObject.ownProperty fields "tags") as [tags |] eqn:Htags; [| discriminate].
  unfold extractTasksFromContainer in Hinfo. simpl in Hinfo, Hmaster.
  rewrite Hown in Hinfo, Hmaster. rewrite Hmaster in Hinfo.
  assert (Htagged : isTaggedFormat info = true).
  { destruct (tasksOfTag_Ok _ _ _ _ _ Hinfo) as (used & fs & _ & _ & _ & ->). reflexivity. }
  intros Hwrite. unfold writeTasksToContainer in Hwrite.
  rewrite Htagged in Hwrite. simpl in Hwrite. rewrite Htags, Hnested in Hwrite.
  destruct (assignTasksOfTag tags (currentTag info) tasks') as [tags' |]; [| discriminate].
  simpl in Hwrite. injection Hwrite as <-.
  unfold extractTasksFromContainer. simpl.
  rewrite (ownProperty_setField_other fields "tags" "master") by discriminate.
  rewrite Hown, Hmaster.
  apply (tasksOfTag_same_tags (JObj fields) _ _ _ (JObj fields)); simpl.
  - apply ownProperty_setField_other. congruence.
  - apply ownProperty_setField_other. discriminate.
  - exact Hinfo.
Qed.

Lemma withoutId_Ok (taskId : string) (tasks kept : list JSON) :
  withoutId taskId tasks = Ok kept -> forallb hasAnId tasks = true.
Proof.
  revert kept. induction tasks as [| x rest IH]; intros kept; [reflexivity |].
  simpl. unfold hasAnId at 1.
  destruct (Js.idToString x) as [own |]; [| discriminate]. simpl.
  destruct (withoutId taskId rest) as [others |]; [| discriminate].
  intros _. now apply (IH others).
Qed.

(** X26: in a document with both tagged shapes, what [deleteTask] writes
    goes under [tags] while the main tasks are read from the tag at
    the top: when the call resolves, a main task had the id, and the
    written file still yields the main tasks from before the call. *)
Theorem deleteTask_is_not_seen_with_both_tag_shapes (taskId : string) (env : Env)
    (st : State) (doc : JSON) (info : Extracted) :
  tasksJson st = Doc doc ->
  extractTasksFromContainer (persistedTag st) doc = Ok info ->
  isDirectTag doc = true ->
  isNestedTag doc = true ->
  tagFromState (persistedTag st) <> "tags" ->
  fst (deleteTask taskId env st) = Ok tt ->
  exists written,
    tasksJson (snd (deleteTask taskId env st)) = Doc written
    /\ extractTasksFromContainer (persistedTag st) written
       = Ok (mkExtracted (tasks info) (isTaggedFormat info) (currentTag info) (origin info)
                         written)
    /\ rawTasksOf (persistedTag st) written = Ok (tasks info)
    /\ existsb (hasId taskId) (tasks info) = true.
Proof.
  intros Hdoc Hinfo Hdirect Hnested Htag. rewrite deleteTask_run. cbv zeta.
  rewrite Hdoc, Hinfo.
  destruct (withoutId taskId (tasks info)) as [kept |] eqn:Hkept; [| discriminate].
  destruct (length kept <? length (tasks info))%nat eqn:Hless; [| discriminate].
  destruct (writeTasksToContainer kept (isTaggedFormat info) (currentTag info) doc)
    as [written |] eqn:Hwritten; [| discriminate].
  intros _. exists written. split; [reflexivity |].
  pose proof (written_under_tags _ _ _ _ _ Hinfo Hdirect Hnested Htag Hwritten) as Hagain.
  split; [exact Hagain |]. split; [now rewrite (rawTasksOf_extracted _ _ _ Hagain) |].
  destruct (existsb (hasId taskId) (tasks info)) eqn:Hsome; [reflexivity |].
  rewrite (withoutId_filter taskId _ (withoutId_Ok _ _ _ Hkept)) in Hkept.
  rewrite (filter_none taskId _ Hsome) in Hkept. injection Hkept as <-.
  now rewrite Nat.ltb_irrefl in Hless.
Qed.

Lemma deleteTask_is_not_seen_with_both_tag_shapes_witness :
  let outcome := deleteTask "1" offline (freshOver Samples.bothShapes) in
  exists written,
    tasksJson (snd outcome) = Doc written
    /\ extractTasksFromContainer None written
       = Ok (mkExtracted [Samples.mainTask] true "master" ["master"; "tasks"] written)
    /\ rawTasksOf None written = Ok [Samples.mainTask]
    /\ existsb (hasId "1") [Samples.mainTask] = true.
Proof.
  apply (deleteTask_is_not_seen_with_both_tag_shapes "1" offline
           (freshOver Samples.bothShapes) Samples.bothShapes
           (mkExtracted [Samples.mainTask] true "master" ["master"; "tasks"]
                        Samples.bothShapes)); try reflexivity.
  discriminate.
Defined.

End MixedDocumentFacts.

(* ===================================================================== *)
(** * Properties of the queries *)
(* ===================================================================== *)

Module TaskQueriesFacts.

Import Hierarchy TaskIds TaskQueries Progress.

Lemma findTask_Some (id : string) (tasks : list Task) (t : Task) :
  findTask id tasks = Some t -> In t tasks /\ idOf t = id.
Proof.
  unfold findTask. intros H. apply List.find_some in H as [Hin Hid].
  split; [exact Hin | now apply String.eqb_eq].
Qed.

Lemma findTask_None (id : string) (tasks : list Task) :
  findTask id tasks = None -> ~ In id (map idOf tasks).
Proof.
  unfold findTask. intros H Hin. apply in_map_iff in Hin as (t & Hid & Hin).
  pose proof (List.find_none _ _ H t Hin) as Hne. simpl in Hne.
  apply String.eqb_neq in Hne. contradiction.
Qed.

Lemma allTasks_cons (t : Task) (rest : list Task) :
  allTasks (t :: rest) = t :: allTasks (subtasksOf t) ++ allTasks rest.
Proof. destruct t as [i f p subs]. reflexivity. Qed.

Lemma In_allTasks_top (t : Task) (tasks : list Task) : In t tasks -> In t (allTasks tasks).
Proof.
  induction tasks as [| x rest IH]; [intros [] |].
  rewrite allTasks_cons. intros [-> | Hin]; [now left |].
  right. apply in_or_app. right. now apply IH.
Qed.

Lemma In_allTasks_below (t x : Task) (tasks : list Task) :
  In x tasks -> In t (allTasks (subtasksOf x)) -> In t (allTasks tasks).
Proof.
  induction tasks as [| y rest IH]; [intros [] |].
  rewrite allTasks_cons. intros [-> | Hin] Ht.
  - right. apply in_or_app. now left.
  - right. apply in_or_app. right. now apply IH.
Qed.

Lemma findBelow_eq (taskId : string) (i : string) (f : TaskFields) (p : option string)
    (subtasks : list Task) :
  findBelow taskId (mkTask i f p subtasks)
  = match findTask taskId subtasks with
    | Some found => Some found
    | None => findSubtaskById taskId subtasks
    end.
Proof.
  simpl. destruct (findTask taskId subtasks); [reflexivity |].
  induction subtasks as [| t l IH]; [reflexivity |].
  simpl. destruct (findBelow taskId t); [reflexivity | exact IH].
Qed.

(** What the legacy search finds carries the id and lies in the
    forest; it finds nothing only when no task below the given ones
    carries the id. *)
Lemma findSubtaskById_spec (taskId : string) (tasks : list Task) :
  match findSubtaskById taskId tasks with
  | Some found => idOf found = taskId /\ In found (allTasks tasks)
  | None => forall t, In t tasks -> ~ In taskId (map idOf (allTasks (subtasksOf t)))
  end.
Proof.
  induction tasks as [| t rest IHrest]; [intros t [] |].
  assert (Ht : match findBelow taskId t with
               | Some found => idOf found = taskId /\ In found (allTasks (subtasksOf t))
               | None => ~ In taskId (map idOf (allTasks (subtasksOf t)))
               end).
  { clear IHrest rest.
    induction t as [i f p subs IH] using ProgressFacts.Task_induction.
    rewrite findBelow_eq. simpl subtasksOf.
    destruct (findTask taskId subs) as [found |] eqn:Hdirect.
    - apply findTask_Some in Hdirect as [Hin Hid].
      split; [exact Hid | now apply In_allTasks_top].
    - apply findTask_None in Hdirect.
      induction subs as [| s l IHl]; [intros [] |].
      apply Forall_cons in IH as [Hs Hl].
      simpl findSubtaskById.
      destruct (findBelow taskId s) as [found |].
      + destruct Hs as [Hid Hin]. split; [exact Hid |].
        rewrite allTasks_cons. right. apply in_or_app. now left.
      + assert (Hrest : ~ In taskId (map idOf l)).
        { intros H. apply Hdirect. now right. }
        specialize (IHl Hl Hrest).
        destruct (findSubtaskById taskId l) as [found |].
        * destruct IHl as [Hid Hin]. split; [exact Hid |].
          rewrite allTasks_cons. right. apply in_or_app. now right.
        * rewrite allTasks_cons. simpl. rewrite map_app, in_app_iff.
          intros [Heq | [Hin | Hin]].
          -- apply Hdirect. left. exact Heq.
          -- now apply Hs.
          -- now apply IHl. }
  simpl findSubtaskById. destruct (findBelow taskId t) as [found |].
  - destruct Ht as [Hid Hin]. split; [exact Hid |].
    rewrite allTasks_cons. right. apply in_or_app. now left.
  - destruct (findSubtaskById taskId rest) as [found |].
    + destruct IHrest as [Hid Hin]. split; [exact Hid |].
      rewrite allTasks_cons. right. apply in_or_app. now right.
    + intros x [<- | Hin]; [exact Ht | now apply IHrest].
Qed.

Lemma In_ids_allTasks (taskId : string) (tasks : list Task) :
  In taskId (map idOf (allTasks tasks)) ->
  In taskId (map idOf tasks)
  \/ exists t, In t tasks /\ In taskId (map idOf (allTasks (subtasksOf t))).
Proof.
  induction tasks as [| x rest IH]; [intros [] |].
  rewrite allTasks_cons. simpl. rewrite map_app, in_app_iff.
  intros [Heq | [Hin | Hin]].
  - left. now left.
  - right. exists x. split; [now left | exact Hin].
  - destruct (IH Hin) as [H | (t & Ht & H)].
    + left. now right.
    + right. exists t. split; [now right | exact H].
Qed.

(** X13: for an id without dot and no [subtaskId], [getTaskDetails]
    returns a task of that id from the main tasks or from any level
    below them, the first main task of that id when there is one, and
    [null] only when no task at any level has the id. *)
Theorem getTaskDetails_plain_id_searches_every_level (tasks : list Task) (taskId : string) :
  includesDot taskId = false ->
  match getTaskDetails tasks taskId None with
  | Some found =>
      idOf found = taskId
      /\ In found (allTasks tasks)
      /\ (In taskId (map idOf tasks) -> findTask taskId tasks = Some found)
  | None => ~ In taskId (map idOf (allTasks tasks))
  end.
Proof.
  intros Hdot. unfold getTaskDetails. rewrite Hdot.
  destruct (findTask taskId tasks) as [mainTask |] eqn:Hmain.
  - apply findTask_Some in Hmain as [Hin Hid].
    split; [exact Hid |]. split; [now apply In_allTasks_top | reflexivity].
  - apply findTask_None in Hmain.
    pose proof (findSubtaskById_spec taskId tasks) as Hspec.
    destruct (findSubtaskById taskId tasks) as [found |].
    + destruct Hspec as [Hid Hin]. split; [exact Hid |]. split; [exact Hin |].
      intros H. contradiction.
    + intros Hin. apply In_ids_allTasks in Hin as [H | (t & Ht & H)];
        [contradiction | exact (Hspec t Ht H)].
Qed.

(** X14: for an id with a dot and no [subtaskId], what [getTaskDetails]
    returns is a direct subtask of the first main task whose id is
    the first segment, with the whole id or what follows the first
    dot as its id; without such a main task the result is [null]. *)
Theorem getTaskDetails_dotted_id_looks_under_first_segment (tasks : list Task)
    (taskId : string) :
  includesDot taskId = true ->
  (forall found,
      getTaskDetails tasks taskId None = Some found ->
      exists mainTask,
        findTask (firstSegment taskId) tasks = Some mainTask
        /\ In found (subtasksOf mainTask)
        /\ (idOf found = taskId \/ idOf found = afterFirstDot taskId))
  /\ (~ In (firstSegment taskId) (map idOf tasks) ->
      getTaskDetails tasks taskId None = None).
Proof.
  intros Hdot. unfold getTaskDetails. rewrite Hdot. split.
  - intros found.
    destruct (String.eqb (firstSegment taskId) ""); [discriminate |].
    destruct (findTask (firstSegment taskId) tasks) as [mainTask |]; [| discriminate].
    destruct (String.eqb (afterFirstDot taskId) ""); [discriminate |].
    intros Hfound. apply List.find_some in Hfound as [Hin Hid].
    exists mainTask. split; [reflexivity |]. split; [exact Hin |].
    apply orb_true_iff in Hid as [Hid | Hid]; apply String.eqb_eq in Hid; tauto.
  - intros Habsent.
    destruct (String.eqb (firstSegment taskId) ""); [reflexivity |].
    destruct (findTask (firstSegment taskId) tasks) as [mainTask |] eqn:Hmain;
      [| reflexivity].
    apply findTask_Some in Hmain as [Hin Hid].
    exfalso. apply Habsent. rewrite <- Hid. now apply in_map.
Qed.

(** X15: with a [subtaskId], what [getTaskDetails] returns is a direct
    subtask of the first main task of id [taskId]; its id is
    [subtaskId], or [taskId.subtaskId], or has [subtaskId] after its
    first dot, and it is [subtaskId] when a subtask has that id. *)
Theorem getTaskDetails_with_subtask_id (tasks : list Task) (taskId sub : string)
    (found : Task) :
  sub <> "" ->
  getTaskDetails tasks taskId (Some sub) = Some found ->
  exists mainTask,
    findTask taskId tasks = Some mainTask
    /\ In found (subtasksOf mainTask)
    /\ (idOf found = sub
        \/ idOf found = taskId +:+ "." +:+ sub
        \/ (includesDot (idOf found) = true /\ afterFirstDot (idOf found) = sub))
    /\ (In sub (map idOf (subtasksOf mainTask)) -> idOf found = sub).
Proof.
  intros Hsub. unfold getTaskDetails. apply String.eqb_neq in Hsub. rewrite Hsub.
  destruct (findTask taskId tasks) as [mainTask |]; [| discriminate].
  intros Hfound. exists mainTask. split; [reflexivity |].
  destruct (findTask sub (subtasksOf mainTask)) as [exact |] eqn:Hexact.
  - injection Hfound as <-. apply findTask_Some in Hexact as [Hin Hid]. tauto.
  - apply findTask_None in Hexact.
    destruct (findTask (taskId +:+ "." +:+ sub) (subtasksOf mainTask)) as [full |] eqn:Hfull.
    + injection Hfound as <-. apply findTask_Some in Hfull as [Hin Hid]. tauto.
    + apply List.find_some in Hfound as [Hin Hid].
      apply andb_true_iff in Hid as [Hdot Hsuffix]. apply String.eqb_eq in Hsuffix.
      tauto.
Qed.

(** ** [getNextTask] *)

Section SortFacts.

Context {A : Type} (compare : A -> A -> Z).

Lemma sortBy_snoc (items : list A) (x : A) :
  sortBy compare (items ++ [x]) = insertBy compare x (sortBy compare items).
Proof. unfold sortBy. now rewrite fold_left_app. Qed.

Lemma head_insertBy (x : A) (sorted : list A) :
  head (insertBy compare x sorted)
  = match sorted with
    | [] => Some x
    | y :: _ => if (compare x y <? 0)%Z then Some x else Some y
    end.
Proof. destruct sorted as [| y rest]; [reflexivity |]. simpl. now destruct (_ <? _)%Z. Qed.

(** The head of the sorted list is the first element that nothing
    before it equals or beats and nothing after it beats, when the
    comparator is the difference of a measure. *)
Lemma head_sortBy (measure : A -> Z) (items : list A) :
  (forall a b, In a items -> In b items -> compare a b = (measure b - measure a)%Z) ->
  match head (sortBy compare items) with
  | Some best =>
      exists earlier later,
        items = earlier ++ best :: later
        /\ Forall (fun t => (measure t < measure best)%Z) earlier
        /\ Forall (fun t => (measure t <= measure best)%Z) later
  | None => items = []
  end.
Proof.
  induction items as [| x items IH] using rev_ind; intros Hcompare; [reflexivity |].
  rewrite sortBy_snoc, head_insertBy.
  assert (Hitems : forall a b, In a items -> In b items ->
                               compare a b = (measure b - measure a)%Z).
  { intros a b Ha Hb. apply Hcompare; apply in_or_app; now left. }
  specialize (IH Hitems).
  destruct (sortBy compare items) as [| y rest] eqn:Hsorted.
  - simpl in IH. subst items. exists [], []. repeat split; constructor.
  - simpl in IH. destruct IH as (earlier & later & -> & Hearlier & Hlater).
    rewrite (Hcompare x y);
      [| apply in_or_app; right; now left
       | apply in_or_app; left; apply in_or_app; right; now left].
    destruct (measure y - measure x <? 0)%Z eqn:Hlt.
    + apply Z.ltb_lt in Hlt. exists (earlier ++ y :: later), [].
      split; [reflexivity |]. split; [| constructor].
      apply Forall_app. split.
      * eapply Forall_impl; [exact Hearlier |]. simpl. intros. lia.
      * constructor; [lia |]. eapply Forall_impl; [exact Hlater |]. simpl. intros. lia.
    + apply Z.ltb_ge in Hlt. exists earlier, (later ++ [x]).
      split; [now rewrite <- app_assoc |]. split; [exact Hearlier |].
      apply Forall_app. split; [exact Hlater |]. constructor; [lia | constructor].
Qed.

End SortFacts.

Lemma byPriority_rank (a b : Task) :
  JsObject.isPrototypeMember (priority (fieldsOf a)) = false ->
  JsObject.isPrototypeMember (priority (fieldsOf b)) = false ->
  byPriority a b = (rank b - rank a)%Z.
Proof.
  unfold byPriority, rank, priorityOf, JsObject.get. intros -> ->.
  destruct (JsObject.ownProperty priorityOrder (priority (fieldsOf a)));
    destruct (JsObject.ownProperty priorityOrder (priority (fieldsOf b))); reflexivity.
Qed.

(** X16: when no priority is the name of a member of [Object.prototype],
    [getNextTask] returns the first of the available tasks of the
    highest priority: the available tasks before it rank strictly
    lower and those after it rank no higher; it returns [null] when
    no task is available. *)
Theorem getNextTask_first_available_of_highest_priority (tasks : list Task) :
  Forall (fun t => JsObject.isPrototypeMember (priority (fieldsOf t)) = false) tasks ->
  match getNextTask tasks with
  | Some next =>
      In next tasks
      /\ isAvailable tasks next = true
      /\ exists earlier later,
           List.filter (isAvailable tasks) tasks = earlier ++ next :: later
           /\ Forall (fun t => (rank t < rank next)%Z) earlier
           /\ Forall (fun t => (rank t <= rank next)%Z) later
  | None => forall t, In t tasks -> isAvailable tasks t = false
  end.
Proof.
  intros Hpriorities. unfold getNextTask.
  pose proof (head_sortBy byPriority rank (List.filter (isAvailable tasks) tasks)) as Hhead.
  destruct (head (sortBy byPriority (List.filter (isAvailable tasks) tasks))) as [next |].
  - destruct Hhead as (earlier & later & Hsplit & Hearlier & Hlater).
    { intros a b Ha Hb. apply List.filter_In in Ha as [Ha _], Hb as [Hb _].
      rewrite List.Forall_forall in Hpriorities.
      apply byPriority_rank; now apply Hpriorities. }
    assert (Hin : In next (List.filter (isAvailable tasks) tasks)).
    { rewrite Hsplit. apply in_or_app. right. now left. }
    apply List.filter_In in Hin as [Hin Havailable].
    split; [exact Hin |]. split; [exact Havailable |]. now exists earlier, later.
  - intros t Hin. destruct (isAvailable tasks t) eqn:Havailable; [| reflexivity].
    assert (Hfiltered : In t (List.filter (isAvailable tasks) tasks)).
    { apply List.filter_In. now split. }
    rewrite Hhead in Hfiltered; [destruct Hfiltered |].
    intros a b Ha Hb. apply List.filter_In in Ha as [Ha _], Hb as [Hb _].
    rewrite List.Forall_forall in Hpriorities.
    apply byPriority_rank; now apply Hpriorities.
Qed.

Lemma getTaskDetails_plain_id_searches_every_level_witness :
  match getTaskDetails Samples.tree "7" None with
  | Some found =>
      idOf found = "7"
      /\ In found (allTasks Samples.tree)
      /\ (In "7" (map idOf Samples.tree) -> findTask "7" Samples.tree = Some found)
  | None => ~ In "7" (map idOf (allTasks Samples.tree))
  end.
Proof.
  apply (getTaskDetails_plain_id_searches_every_level Samples.tree "7"). reflexivity.
Defined.

Lemma getTaskDetails_dotted_id_looks_under_first_segment_witness :
  (forall found,
      getTaskDetails Samples.tree "1.1" None = Some found ->
      exists mainTask,
        findTask (firstSegment "1.1") Samples.tree = Some mainTask
        /\ In found (subtasksOf mainTask)
        /\ (idOf found = "1.1" \/ idOf found = afterFirstDot "1.1"))
  /\ (~ In (firstSegment "1.1") (map idOf Samples.tree) ->
      getTaskDetails Samples.tree "1.1" None = None).
Proof.
  apply (getTaskDetails_dotted_id_looks_under_first_segment Samples.tree "1.1").
  reflexivity.
Defined.

Lemma getTaskDetails_with_subtask_id_witness :
  exists mainTask,
    findTask "1" Samples.tree = Some mainTask
    /\ In (Samples.leaf "2") (subtasksOf mainTask)
    /\ (idOf (Samples.leaf "2") = "2"
        \/ idOf (Samples.leaf "2") = "1" +:+ "." +:+ "2"
        \/ (includesDot (idOf (Samples.leaf "2")) = true
            /\ afterFirstDot (idOf (Samples.leaf "2")) = "2"))
    /\ (In "2" (map idOf (subtasksOf mainTask)) -> idOf (Samples.leaf "2") = "2").
Proof.
  apply (getTaskDetails_with_subtask_id Samples.tree "1" "2" (Samples.leaf "2")).
  - discriminate.
  - reflexivity.
Defined.

Lemma getNextTask_first_available_of_highest_priority_witness :
  match getNextTask Samples.queue with
  | Some next =>
      In next Samples.queue
      /\ isAvailable Samples.queue next = true
      /\ exists earlier later,
           List.filter (isAvailable Samples.queue) Samples.queue
           = earlier ++ next :: later
           /\ Forall (fun t => (rank t < rank next)%Z) earlier
           /\ Forall (fun t => (rank t <= rank next)%Z) later
  | None => forall t, In t Samples.queue -> isAvailable Samples.queue t = false
  end.
Proof.
  apply (getNextTask_first_available_of_highest_priority Samples.queue).
  repeat constructor.
Defined.

End TaskQueriesFacts.

(* ===================================================================== *)
(** * Properties of the version cache *)
(* ===================================================================== *)

Module CacheFacts.

Import TaskMasterClient TaskDocument.





End CacheFacts.

(* ===================================================================== *)
(** * Properties of the tree view *)
(* ===================================================================== *)

Module TreeViewFacts.

Import TreeView.

(** X18: while not everything is expanded, [toggleExpansion] flips what
    [isExpanded] answers for the key and for no other key, and doing
    it twice changes no answer. *)
Theorem toggleExpansion_flips_one_item (s : Expansion) (itemKey other : string) :
  allExpanded s = false ->
  isExpanded other (toggleExpansion itemKey s)
  = (if decide (other = itemKey) then negb (isExpanded itemKey s) else isExpanded other s)
  /\ isExpanded other (toggleExpansion itemKey (toggleExpansion itemKey s))
     = isExpanded other s.
Proof.
  intros Hall. unfold isExpanded, toggleExpansion, refresh. simpl. rewrite Hall. simpl.
  destruct (decide (itemKey ∈ expandedItems s)) as [Hin | Hout]; simpl.
  - rewrite (decide_False (P := itemKey ∈ expandedItems s ∖ {[itemKey]})).
    2:{ rewrite elem_of_difference, elem_of_singleton. tauto. }
    simpl. split.
    + destruct (decide (other = itemKey)) as [-> | Hne].
      * rewrite (bool_decide_eq_true_2 _ Hin). simpl. apply bool_decide_eq_false_2.
        rewrite elem_of_difference, elem_of_singleton. tauto.
      * apply bool_decide_ext. rewrite elem_of_difference, elem_of_singleton. tauto.
    + apply bool_decide_ext.
      rewrite elem_of_union, elem_of_difference, elem_of_singleton.
      destruct (decide (other = itemKey)) as [-> | Hne]; tauto.
  - rewrite (decide_True (P := itemKey ∈ expandedItems s ∪ {[itemKey]})).
    2:{ rewrite elem_of_union, elem_of_singleton. tauto. }
    simpl. split.
    + destruct (decide (other = itemKey)) as [-> | Hne].
      * rewrite (bool_decide_eq_false_2 _ Hout). simpl. apply bool_decide_eq_true_2.
        rewrite elem_of_union, elem_of_singleton. tauto.
      * apply bool_decide_ext. rewrite elem_of_union, elem_of_singleton. tauto.
    + apply bool_decide_ext.
      rewrite elem_of_difference, elem_of_union, elem_of_singleton.
      destruct (decide (other = itemKey)) as [-> | Hne]; tauto.
Qed.

(** X19: after [expandAll] every key is expanded and after [collapseAll]
    none; toggling a key right after [expandAll] leaves that key
    expanded and collapses every other. *)
Theorem toggle_after_expandAll_keeps_one_item (s : Expansion) (itemKey other : string) :
  isExpanded other (expandAll s) = true
  /\ isExpanded other (collapseAll s) = false
  /\ isExpanded other (toggleExpansion itemKey (expandAll s)) = bool_decide (other = itemKey)
  /\ refreshes (toggleExpansion itemKey (expandAll s)) = S (S (refreshes s)).
Proof.
  unfold isExpanded, toggleExpansion, expandAll, collapseAll, refresh. simpl.
  split; [reflexivity |].
  split; [apply bool_decide_eq_false_2, not_elem_of_empty |].
  split; [| reflexivity].
  rewrite (decide_False (P := itemKey ∈ (∅ : gset string))) by apply not_elem_of_empty.
  apply bool_decide_ext. rewrite elem_of_union, elem_of_singleton.
  pose proof (not_elem_of_empty (C := gset string) other). tauto.
Qed.

(** ** [groupTasksByStatus] *)

Lemma groupTasksByStatus_snoc (tasks : list Task) (t : Task) :
  groupTasksByStatus (tasks ++ [t])
  = rbind (groupTasksByStatus tasks) (fun groups => groupTask groups t).
Proof. unfold groupTasksByStatus. now rewrite fold_left_app. Qed.

Lemma pushTo_keys (key : string) (task : Task) (groups : list (string * list Task)) :
  map fst (pushTo key task groups) = map fst groups.
Proof.
  induction groups as [| [k members] rest IH]; [reflexivity |].
  simpl. destruct (String.eqb k key); simpl; [reflexivity | now rewrite IH].
Qed.

Lemma ownProperty_pushTo (key other : string) (task : Task)
    (groups : list (string * list Task)) :
  JsObject.ownProperty (pushTo key task groups) other
  = if String.eqb key other
    then option_map (fun members => members ++ [task]) (JsObject.ownProperty groups other)
    else JsObject.ownProperty groups other.
Proof.
  induction groups as [| [k members] rest IH]; simpl.
  - now destruct (String.eqb key other).
  - destruct (String.eqb_spec k key) as [-> | Hk]; simpl.
    + now destruct (String.eqb key other).
    + rewrite IH. destruct (String.eqb_spec key other) as [<- | Hne].
      * apply String.eqb_neq in Hk. now rewrite Hk.
      * reflexivity.
Qed.

Lemma ownProperty_keys {A : Type} (groups : list (string * A)) (key : string) :
  is_Some (JsObject.ownProperty groups key) <-> In key (map fst groups).
Proof.
  induction groups as [| [k v] rest IH]; simpl.
  - split; [intros [x Hx]; discriminate | intros []].
  - destruct (String.eqb_spec k key) as [-> | Hne].
    + split; [now left | eauto].
    + rewrite IH. split; [now right | intros [H | H]; [contradiction | exact H]].
Qed.

Lemma filter_snoc {A : Type} (f : A -> bool) (l : list A) (x : A) :
  List.filter f (l ++ [x]) = List.filter f l ++ (if f x then [x] else []).
Proof. rewrite List.filter_app. reflexivity. Qed.

(** X20: when no status is the name of a member of [Object.prototype],
    [groupTasksByStatus] returns the seven groups in the order of the
    table, each with exactly the tasks whose status stands for its
    key, in the order of the input. *)
Theorem groupTasksByStatus_partitions_by_status (tasks : list Task) :
  Forall (fun t => JsObject.isPrototypeMember (groupKeyOf (status (fieldsOf t))) = false)
         tasks ->
  exists groups,
    groupTasksByStatus tasks = Ok groups
    /\ map fst groups = groupKeys
    /\ forall key,
         In key groupKeys ->
         JsObject.ownProperty groups key
         = Some (List.filter (fun t => String.eqb (groupKeyOf (status (fieldsOf t))) key)
                             tasks).
Proof.
  induction tasks as [| t tasks IH] using rev_ind; intros Hstatuses.
  - exists emptyGroups. split; [reflexivity |]. split; [reflexivity |].
    intros key Hin. simpl in Hin.
    repeat (destruct Hin as [<- | Hin]; [reflexivity |]). destruct Hin.
  - apply Forall_app in Hstatuses as [Hrest Ht]. apply Forall_cons in Ht as [Ht _].
    destruct (IH Hrest) as (groups & Hrun & Hkeys & Hgroups).
    rewrite groupTasksByStatus_snoc, Hrun. simpl. unfold groupTask, JsObject.get.
    destruct (JsObject.ownProperty groups (groupKeyOf (status (fieldsOf t))))
      as [members |] eqn:Hown.
    + eexists. split; [reflexivity |]. split; [now rewrite pushTo_keys |].
      intros key Hin. rewrite ownProperty_pushTo, filter_snoc, (Hgroups key Hin).
      rewrite String.eqb_sym. destruct (String.eqb key _); simpl;
        [reflexivity | now rewrite app_nil_r].
    + rewrite Ht. exists groups. split; [reflexivity |]. split; [exact Hkeys |].
      intros key Hin. rewrite filter_snoc, (Hgroups key Hin).
      destruct (String.eqb_spec (groupKeyOf (status (fieldsOf t))) key) as [Heq | Hne];
        [| now rewrite app_nil_r].
      exfalso. assert (Hin' : In key (map fst groups)) by (rewrite Hkeys; exact Hin).
      apply ownProperty_keys in Hin' as [x Hx]. rewrite <- Heq in Hx. congruence.
Qed.

Lemma toggleExpansion_flips_one_item_witness :
  isExpanded "task-2" (toggleExpansion "task-1" (collapseAll (mkExpansion true ∅ 0)))
  = (if decide ("task-2" = "task-1")
     then negb (isExpanded "task-1" (collapseAll (mkExpansion true ∅ 0)))
     else isExpanded "task-2" (collapseAll (mkExpansion true ∅ 0)))
  /\ isExpanded "task-2"
       (toggleExpansion "task-1"
          (toggleExpansion "task-1" (collapseAll (mkExpansion true ∅ 0))))
     = isExpanded "task-2" (collapseAll (mkExpansion true ∅ 0)).
Proof.
  apply (toggleExpansion_flips_one_item (collapseAll (mkExpansion true ∅ 0))
           "task-1" "task-2").
  reflexivity.
Defined.

Lemma groupTasksByStatus_partitions_by_status_witness :
  exists groups,
    groupTasksByStatus Samples.queue = Ok groups
    /\ map fst groups = groupKeys
    /\ forall key,
         In key groupKeys ->
         JsObject.ownProperty groups key
         = Some (List.filter (fun t => String.eqb (groupKeyOf (status (fieldsOf t))) key)
                             Samples.queue).
Proof.
  apply (groupTasksByStatus_partitions_by_status Samples.queue).
  repeat constructor.
Defined.

End TreeViewFacts.

(* ===================================================================== *)
(** * Further properties of the hierarchy builder *)
(* ===================================================================== *)

Module ForestFacts.

Import Hierarchy HierarchyFacts TaskIds.

Lemma StandsFor_itself (tasks : list Task) (t : Task) : In t tasks -> StandsFor tasks t t.
Proof.
  intros Hin. split; [reflexivity |]. exists t. repeat split; try assumption. now left.
Qed.

(** What is read off the final objects under an id of the map stands
    for the input task with that id. *)
Lemma resolve_StandsFor (localeCompare : string -> string -> Z) (tasks : list Task)
    (t placed : Task) (depth : nat) :
  In t tasks ->
  resolve depth (heap (secondPass localeCompare (buildMap tasks))) (idOf t) = Some placed ->
  StandsFor tasks t placed.
Proof.
  intros Hin Hplaced.
  destruct (secondPass_spec localeCompare tasks) as (HK & _ & _).
  assert (Hx : is_Some (objects (buildMap tasks) !! idOf t)).
  { apply buildMap_lookup_Some. now apply in_map. }
  destruct (proj2 (kept_keys _ _ HK _) Hx) as [objx Hobjx].
  destruct (kept_copy _ _ HK _ objx Hobjx) as (obj0 & Hobj0 & Hid & Hfields & _ & Hparent).
  destruct (buildMap_lookup tasks _ obj0 Hobj0) as (_ & Hsource & Hsourceid & Huniq).
  destruct (resolve_Some _ _ objx depth Hobjx) as (t' & Ht' & Hid' & Hf' & Hp').
  rewrite Hplaced in Ht'. injection Ht' as <-.
  split; [congruence |]. exists (copy obj0).
  split; [exact Hsource |]. split; [exact Hsourceid |]. split; [congruence |].
  split.
  - destruct Hparent as [Hsame | [_ Hset]]; [left | right]; congruence.
  - intros Hnodup. now apply Huniq.
Qed.

(** X21: whatever the input, every input task occurs in the forest that
    [processTaskHierarchy] returns, as a root or below one. *)
Theorem processTaskHierarchy_keeps_every_task (localeCompare : string -> string -> Z)
    (tasks : list Task) (t : Task) :
  In t tasks ->
  exists placed,
    InForest placed (processTaskHierarchy localeCompare tasks) /\ StandsFor tasks t placed.
Proof.
  intros Hin. unfold processTaskHierarchy.
  destruct (existsb hasSubtasks tasks).
  { exists t. split; [now apply InForest_here | now apply StandsFor_itself]. }
  destruct (existsb (fun t => includesDot (idOf t)) tasks); simpl.
  2:{ exists t. split; [now apply InForest_here | now apply StandsFor_itself]. }
  destruct (secondPass_spec localeCompare tasks) as (HK & HP & Hfuel).
  assert (Hx : is_Some (objects (buildMap tasks) !! idOf t)).
  { apply buildMap_lookup_Some. now apply in_map. }
  destruct (every_object_reached _ _ _ HK HP Hfuel _ (idOf t) eq_refl Hx)
    as (depth & placed & _ & Hplaced & Hforest).
  exists placed. split; [exact Hforest |].
  now apply (resolve_StandsFor localeCompare tasks t placed depth).
Qed.

(** No id that can be attached is ever put among the roots. *)
Lemma fold_place_roots (initial : gmap string TaskObject) (ids : list string) :
  (forall k obj, initial !! k = Some obj -> pushed obj = []) ->
  (forall x, In x ids -> is_Some (initial !! x)) ->
  forall x,
    In x (rootTasks (fold_left place ids (mkPass initial []))) ->
    In x ids /\ ~ attachable initial x.
Proof.
  intros Hfresh.
  induction ids as [| y ids IH] using rev_ind; intros Hids x; [intros [] |].
  rewrite fold_left_app. simpl.
  assert (Hprefix : forall z, In z ids -> is_Some (initial !! z)).
  { intros z Hz. apply Hids, in_or_app. now left. }
  destruct (fold_place initial ids Hfresh Hprefix) as [HK _].
  assert (Hy : is_Some (initial !! y)) by (apply Hids, in_or_app; right; now left).
  destruct (proj2 (kept_keys _ _ HK y) Hy) as [objy Hobjy].
  destruct (place_cases _ y objy Hobjy) as [(Hdot & objp & Hp & ->) | (Hnot & ->)]; simpl.
  - intros Hin. destruct (IH Hprefix x Hin) as [Hxin Hxatt].
    split; [apply in_or_app; now left | exact Hxatt].
  - intros Hin. apply in_app_or in Hin as [Hin | [<- | []]].
    + destruct (IH Hprefix x Hin) as [Hxin Hxatt].
      split; [apply in_or_app; now left | exact Hxatt].
    + split; [apply in_or_app; right; now left |].
      intros [Hdot Hparent]. destruct Hnot as [Hnot | Hnot]; [congruence |].
      apply (kept_keys _ _ HK) in Hparent. rewrite Hnot in Hparent.
      destruct Hparent as [? ?]. discriminate.
Qed.

(** X22: when no input task has subtasks of its own, a root of the
    returned forest is an input task whose id has no dot or whose
    parent id no input task has; it keeps its fields and its
    [parentId]. *)
Theorem processTaskHierarchy_roots_are_unattached (localeCompare : string -> string -> Z)
    (tasks : list Task) (root : Task) :
  existsb hasSubtasks tasks = false ->
  In root (processTaskHierarchy localeCompare tasks) ->
  In (idOf root) (map idOf tasks)
  /\ (includesDot (idOf root) = false
      \/ ~ In (getParentId (idOf root)) (map idOf tasks))
  /\ exists source,
       In source tasks /\ idOf source = idOf root
       /\ fieldsOf root = fieldsOf source /\ parentIdOf root = parentIdOf source.
Proof.
  intros Hnone. unfold processTaskHierarchy. rewrite Hnone.
  destruct (existsb (fun t => includesDot (idOf t)) tasks) eqn:Hdotted; simpl.
  2:{ intros Hin. split; [now apply in_map |]. split.
      - left. destruct (includesDot (idOf root)) eqn:Hdot; [| reflexivity].
        assert (Hsome : existsb (fun t => includesDot (idOf t)) tasks = true).
        { apply existsb_exists. now exists root. }
        congruence.
      - now exists root. }
  intros Hin. apply list_elem_of_In, list_elem_of_omap in Hin as (x & Hx & Hroot).
  apply list_elem_of_In in Hx.
  destruct (secondPass_spec localeCompare tasks) as (HK & _ & _).
  destruct (fold_place_roots (objects (buildMap tasks))
              (sortIds localeCompare (keys (buildMap tasks)))) with (x := x)
    as [Hsorted Hnatt].
  { intros k obj Hk. apply (buildMap_lookup tasks k obj Hk). }
  { intros y Hy. apply buildMap_lookup_Some, buildMap_keys.
    now apply (sortIds_In localeCompare). }
  { exact Hx. }
  assert (Hkey : is_Some (objects (buildMap tasks) !! x)).
  { apply buildMap_lookup_Some, buildMap_keys. now apply (sortIds_In localeCompare). }
  destruct (proj2 (kept_keys _ _ HK _) Hkey) as [objx Hobjx].
  destruct (kept_copy _ _ HK _ objx Hobjx) as (obj0 & Hobj0 & Hid & Hfields & _ & Hparent).
  destruct (buildMap_lookup tasks _ obj0 Hobj0) as (_ & Hsource & Hsourceid & _).
  destruct (resolve_Some _ _ objx (S (maxDepth (keys (buildMap tasks)))) Hobjx)
    as (t' & Ht' & Hid' & Hf' & Hp').
  pose proof (eq_trans (eq_sym Ht') Hroot) as Heq. injection Heq as ->.
  assert (Hrootid : idOf root = x) by congruence.
  rewrite Hrootid. split; [now apply buildMap_lookup_Some |]. split.
  - destruct (includesDot x) eqn:Hdot; [right | now left].
    intros Hpresent. apply Hnatt. split; [exact Hdot |].
    now apply buildMap_lookup_Some.
  - exists (copy obj0). split; [exact Hsource |]. split; [exact Hsourceid |].
    split; [congruence |].
    destruct Hparent as [Hsame | [Hatt _]]; [congruence | contradiction].
Qed.

(** ** The order of the roots *)

Section Order.

Variable localeCompare : string -> string -> Z.

(** Whatever the collation, the comparator puts an id of fewer dots
    first. *)
Lemma insertSorted_byLevel (x : string) (sorted : list string) :
  StronglySorted byLevel sorted ->
  StronglySorted byLevel (insertSorted localeCompare x sorted).
Proof.
  induction sorted as [| y rest IH]; intros Hsorted; simpl.
  - constructor; constructor.
  - apply StronglySorted_cons in Hsorted as [Hy Hrest].
    assert (Hcases : (compareIds localeCompare x y <? 0)%Z = true /\ byLevel x y
                     \/ (compareIds localeCompare x y <? 0)%Z = false /\ byLevel y x).
    { unfold compareIds, byLevel.
      destruct (getNestingLevel x =? getNestingLevel y)%nat eqn:Hlevel; simpl.
      - apply Nat.eqb_eq in Hlevel. rewrite Hlevel.
        destruct (localeCompare x y <? 0)%Z; [left | right]; split; auto.
      - apply Nat.eqb_neq in Hlevel.
        destruct (Z.of_nat (getNestingLevel x) - Z.of_nat (getNestingLevel y) <? 0)%Z
          eqn:Hlt; [left | right]; split; try reflexivity.
        + apply Z.ltb_lt in Hlt. lia.
        + apply Z.ltb_ge in Hlt. lia. }
    destruct Hcases as [[-> Hxy] | [-> Hyx]].
    + apply StronglySorted_cons. split.
      * constructor; [exact Hxy |].
        eapply Forall_impl; [exact Hy |]. unfold byLevel in *. simpl. intros. lia.
      * apply StronglySorted_cons. now split.
    + apply StronglySorted_cons. split; [| now apply IH].
      apply Forall_forall. intros z Hz. apply list_elem_of_In, insertSorted_In in Hz.
      destruct Hz as [-> | Hz]; [exact Hyx |].
      rewrite Forall_forall in Hy. apply Hy. now apply list_elem_of_In.
Qed.

Lemma sortIds_byLevel (ids : list string) :
  StronglySorted byLevel (sortIds localeCompare ids).
Proof.
  unfold sortIds.
  assert (H : forall acc, StronglySorted byLevel acc ->
                          StronglySorted byLevel
                            (fold_left (fun sorted x => insertSorted localeCompare x sorted)
                                       ids acc)).
  { induction ids as [| x ids IH]; intros acc Hacc; [exact Hacc |].
    simpl. apply IH. now apply insertSorted_byLevel. }
  apply H. constructor.
Qed.

End Order.

(** The roots are taken from the processed ids, in their order. *)
Lemma fold_place_roots_sublist (ids : list string) (st : Pass) :
  exists more,
    rootTasks (fold_left place ids st) = rootTasks st ++ more /\ more `sublist_of` ids.
Proof.
  revert st. induction ids as [| x ids IH]; intros st; simpl.
  - exists []. split; [now rewrite app_nil_r | constructor].
  - destruct (IH (place st x)) as (more & -> & Hsub).
    unfold place.
    destruct (includesDot x); [destruct (heap st !! getParentId x) as [parent |] |]; simpl.
    + match goal with |- context [?m !! x] => destruct (m !! x) end; simpl;
        exists more; (split; [reflexivity | now apply sublist_cons]).
    + exists (x :: more). split; [now rewrite <- app_assoc | now apply sublist_skip].
    + exists (x :: more). split; [now rewrite <- app_assoc | now apply sublist_skip].
Qed.

Lemma StronglySorted_sublist {A : Type} (R : A -> A -> Prop) (l k : list A) :
  l `sublist_of` k -> StronglySorted R k -> StronglySorted R l.
Proof.
  induction 1 as [| x l k Hsub IH | x l k Hsub IH]; intros Hk.
  - constructor.
  - apply StronglySorted_cons in Hk as [Hx Hk]. apply StronglySorted_cons.
    split; [| now apply IH].
    rewrite Forall_forall in *. intros y Hy. apply Hx. eapply elem_of_sublist; eassumption.
  - apply StronglySorted_cons in Hk as [_ Hk]. now apply IH.
Qed.

Lemma omap_sorted (f : string -> option Task) (ids : list string) :
  (forall x t, In x ids -> f x = Some t -> idOf t = x) ->
  StronglySorted byLevel ids ->
  StronglySorted (fun a b => byLevel (idOf a) (idOf b)) (omap f ids).
Proof.
  induction ids as [| x ids IH]; intros Hid Hsorted; [constructor |].
  apply StronglySorted_cons in Hsorted as [Hx Hrest].
  assert (IH' : StronglySorted (fun a b => byLevel (idOf a) (idOf b)) (omap f ids)).
  { apply IH; [| exact Hrest]. intros y t Hy. apply Hid. now right. }
  simpl. destruct (f x) as [t |] eqn:Hfx; [| exact IH'].
  apply StronglySorted_cons. split; [| exact IH'].
  apply Forall_forall. intros u Hu. apply list_elem_of_omap in Hu as (y & Hy & Hfy).
  rewrite (Hid x t (or_introl eq_refl) Hfx).
  rewrite (Hid y u (or_intror (proj1 (list_elem_of_In _ _) Hy)) Hfy).
  rewrite Forall_forall in Hx. now apply Hx.
Qed.

(** X23: when the forest is built from dotted ids, its roots come in the
    order of their nesting levels, whatever the collation: no root
    has more dots than one after it. *)
Theorem processTaskHierarchy_roots_in_order_of_depth
    (localeCompare : string -> string -> Z) (tasks : list Task) :
  existsb hasSubtasks tasks = false ->
  existsb (fun t => includesDot (idOf t)) tasks = true ->
  StronglySorted (fun a b => byLevel (idOf a) (idOf b))
                 (processTaskHierarchy localeCompare tasks).
Proof.
  intros Hnone Hdotted. unfold processTaskHierarchy. rewrite Hnone, Hdotted. simpl.
  destruct (secondPass_spec localeCompare tasks) as (HK & _ & _).
  apply omap_sorted.
  - intros x t _ Hresolved.
    destruct (heap (secondPass localeCompare (buildMap tasks)) !! x) as [objx |] eqn:Hobjx.
    2:{ discriminate Hresolved. }
    destruct (kept_copy _ _ HK _ objx Hobjx) as (obj0 & Hobj0 & Hid & _).
    destruct (buildMap_lookup tasks _ obj0 Hobj0) as (_ & _ & Hsourceid & _).
    injection Hresolved as <-. simpl. congruence.
  - unfold secondPass.
    destruct (fold_place_roots_sublist (sortIds localeCompare (keys (buildMap tasks)))
                (mkPass (objects (buildMap tasks)) [])) as (more & -> & Hsub).
    simpl. eapply StronglySorted_sublist; [exact Hsub | apply sortIds_byLevel].
Qed.

Lemma processTaskHierarchy_keeps_every_task_witness :
  exists placed,
    InForest placed (processTaskHierarchy byCodeUnits sampleTasks)
    /\ StandsFor sampleTasks (plainTask "1") placed.
Proof.
  apply (processTaskHierarchy_keeps_every_task byCodeUnits sampleTasks (plainTask "1")).
  simpl. tauto.
Defined.

Lemma processTaskHierarchy_roots_are_unattached_witness :
  In (idOf (plainTask "2.5")) (map idOf sampleTasks)
  /\ (includesDot (idOf (plainTask "2.5")) = false
      \/ ~ In (getParentId (idOf (plainTask "2.5"))) (map idOf sampleTasks))
  /\ exists source,
       In source sampleTasks /\ idOf source = idOf (plainTask "2.5")
       /\ fieldsOf (plainTask "2.5") = fieldsOf source
       /\ parentIdOf (plainTask "2.5") = parentIdOf source.
Proof.
  apply (processTaskHierarchy_roots_are_unattached byCodeUnits sampleTasks (plainTask "2.5")).
  - reflexivity.
  - vm_compute. right. left. reflexivity.
Defined.

Lemma processTaskHierarchy_roots_in_order_of_depth_witness :
  StronglySorted (fun a b => byLevel (idOf a) (idOf b))
                 (processTaskHierarchy byCodeUnits sampleTasks).
Proof.
  apply (processTaskHierarchy_roots_in_order_of_depth byCodeUnits sampleTasks);
    reflexivity.
Defined.

End ForestFacts.

(* ===================================================================== *)
(** * Further properties of the progress counters *)
(* ===================================================================== *)

Module CounterFacts.

Import StatusNormalizer Progress ProgressFacts.

(** The loop over the main tasks counts them as a flat list. *)
Lemma countMainTasks_tally (tasks : list Task) (c : Counts) :
  countMainTasks c tasks = plus c (tally tasks).
Proof.
  unfold countMainTasks. revert c.
  induction tasks as [| t tasks IH]; intros c; simpl.
  - symmetry. apply plus_zero_r.
  - rewrite IH, tally_cons, (count_plus c). apply plus_assoc.
Qed.

Lemma allTasks_unfold (t : Task) (rest : list Task) :
  allTasks (t :: rest) = t :: allTasks (subtasksOf t) ++ allTasks rest.
Proof. destruct t as [i f p subs]. reflexivity. Qed.

(** One task adds one to the total and at most one to one bucket. *)
Lemma count_zero_bucket (taskStatus : string) :
  let c := count zero taskStatus in
  total c = 1 /\ completed c + inProgress c + todo c + blocked c <= 1.
Proof. unfold count. destruct (normalizeStatus taskStatus) as [[] |]; simpl; lia. Qed.

Lemma tally_buckets (items : list Task) :
  let c := tally items in
  total c = length items
  /\ completed c + inProgress c + todo c + blocked c <= total c.
Proof.
  induction items as [| t items IH]; [vm_compute; lia |].
  cbv zeta in *. rewrite tally_cons.
  destruct (count_zero_bucket (status (fieldsOf t))) as [Hone Hbucket].
  destruct IH as [Htotal Hsum]. cbn [length].
  destruct (count zero (status (fieldsOf t))) as [t1 c1 i1 d1 b1].
  destruct (tally items) as [t2 c2 i2 d2 b2]. unfold plus. simpl in *. lia.
Qed.

Lemma tally_main_within_all (tasks : list Task) :
  let main := tally tasks in
  let all := tally (allTasks tasks) in
  total main <= total all /\ completed main <= completed all
  /\ inProgress main <= inProgress all /\ todo main <= todo all
  /\ blocked main <= blocked all.
Proof.
  induction tasks as [| t tasks IH]; [vm_compute; lia |].
  cbv zeta in *. rewrite allTasks_unfold, !tally_cons, tally_app.
  destruct (count zero (status (fieldsOf t))) as [t1 c1 i1 d1 b1].
  destruct (tally tasks) as [t2 c2 i2 d2 b2].
  destruct (tally (allTasks (subtasksOf t))) as [t3 c3 i3 d3 b3].
  destruct (tally (allTasks tasks)) as [t4 c4 i4 d4 b4].
  unfold plus. simpl in *. lia.
Qed.

(** X24: in what [getTaskProgress] returns, the total of the main tasks
    is their number, the four status counters of either record sum
    to at most its total, and no counter of the main tasks exceeds
    the one of all items. *)
Theorem getTaskProgress_counters_are_consistent (tasks : list Task) :
  let progress := getTaskProgress tasks in
  let main := mainTasks progress in
  let all := allItems progress in
  total main = length tasks
  /\ completed main + inProgress main + todo main + blocked main <= total main
  /\ completed all + inProgress all + todo all + blocked all <= total all
  /\ total main <= total all
  /\ completed main <= completed all
  /\ inProgress main <= inProgress all
  /\ todo main <= todo all
  /\ blocked main <= blocked all.
Proof.
  cbv zeta. unfold getTaskProgress. cbn [mainTasks allItems].
  rewrite countMainTasks_tally, countAllItems_tally.
  assert (Hzero : forall c, plus zero c = c).
  { intros [t c i d b]. reflexivity. }
  rewrite !Hzero.
  destruct (tally_buckets tasks) as [Hlen Hmain].
  destruct (tally_buckets (allTasks tasks)) as [_ Hall].
  pose proof (tally_main_within_all tasks) as Hwithin.
  cbv zeta in *.
  destruct (tally tasks) as [t2 c2 i2 d2 b2].
  destruct (tally (allTasks tasks)) as [t4 c4 i4 d4 b4].
  simpl in *. lia.
Qed.

End CounterFacts.

(* ===================================================================== *)
(** * Properties of the validation *)
(* ===================================================================== *)

Module ValidationFacts.

Import StatusNormalizer Validation.

(** The loop over the subtasks inside [sanitize] is the loop over the
    entries. *)
Lemma each_sanitizeAll (now : string) (l : list JSON) :
  (fix each (l : list JSON) : Result (list Sanitized) :=
     match l with
     | [] => Ok []
     | x :: l' =>
         rbind (sanitize now x) (fun kept =>
         rbind (each l') (fun others =>
           Ok (match kept with
               | Some s => s :: others
               | None => others
               end)))
     end) l
  = sanitizeAll now l.
Proof.
  induction l as [| x l IH]; [reflexivity |].
  cbn [sanitizeAll]. rewrite <- IH. reflexivity.
Qed.

Lemma sanitize_skipped (now : string) (task : JSON) :
  accepted task = false -> sanitize now task = Ok None.
Proof.
  unfold accepted. intros H.
  destruct task as [| b | r | s | items | fields]; cbn [sanitize];
    destruct (Js.truthy _) eqn:Htruthy; cbn [negb]; try reflexivity;
    destruct (truthyOwn _ "id") as [id |] eqn:Hid; try reflexivity;
    destruct (truthyOwn _ "title") as [title |] eqn:Htitle; try reflexivity;
    exfalso; rewrite !bool_decide_eq_true_2 in H by eauto; discriminate H.
Qed.

Lemma sanitize_kept (now : string) (task : JSON) (kept : option Sanitized) :
  accepted task = true ->
  sanitize now task = Ok kept ->
  exists s, kept = Some s /\ keptAs now task s.
Proof.
  unfold accepted. intros H.
  apply andb_true_iff in H as [H Htitle]. apply andb_true_iff in H as [Htruthy Hid].
  apply bool_decide_eq_true in Hid as [id Hid].
  apply bool_decide_eq_true in Htitle as [title Htitle].
  destruct task as [| b | r | s | items | fields];
    try (unfold truthyOwn in Hid; simpl in Hid; discriminate).
  cbn [sanitize]. rewrite Htruthy, Hid, Htitle. cbn [negb].
  destruct (Js.toString id) as [id' |] eqn:Hid'; [| discriminate]. cbn [rbind].
  destruct (Js.toString title) as [title' |] eqn:Htitle'; [| discriminate]. cbn [rbind].
  destruct (stringOrEmpty (JObj fields) "description"); [| discriminate]. cbn [rbind].
  destruct (stringOrEmpty (JObj fields) "details"); [| discriminate]. cbn [rbind].
  destruct (statusOf (JObj fields)) as [status' |] eqn:Hstatus; [| discriminate].
  cbn [rbind].
  destruct (dependenciesOf (JObj fields)); [| discriminate]. cbn [rbind].
  intros [= <-]. eexists. split; [reflexivity |].
  exists id, title. cbn [sanitizedId sanitizedTitle sanitizedStatus sanitizedSubtasks].
  do 5 (split; [first [assumption | reflexivity] |]).
  cbn [Js.own]. clear. induction fields as [| [k v] fields IH]; [reflexivity |].
  cbn [JsObject.ownProperty]. destruct (String.eqb k "subtasks"); [| exact IH].
  destruct v as [| b | r | s | subtasks | fs]; try reflexivity.
  unfold validateTasksResponse. rewrite each_sanitizeAll.
  now destruct (sanitizeAll now subtasks).
Qed.

Lemma sanitizeAll_kept (now : string) (items : list JSON) (tasks : list Sanitized) :
  sanitizeAll now items = Ok tasks ->
  Forall2 (keptAs now) (List.filter accepted items) tasks.
Proof.
  revert tasks. induction items as [| item items IH]; intros tasks; simpl.
  - intros [= <-]. constructor.
  - destruct (accepted item) eqn:Haccepted.
    + destruct (sanitize now item) as [kept |] eqn:Hkept; [| discriminate]. simpl.
      destruct (sanitize_kept now item kept Haccepted Hkept) as (s & -> & Hs).
      destruct (sanitizeAll now items) as [others |]; [| discriminate]. simpl.
      intros [= <-]. constructor; [exact Hs | now apply IH].
    + rewrite (sanitize_skipped now item Haccepted). simpl.
      destruct (sanitizeAll now items) as [others |]; [| discriminate]. simpl.
      intros [= <-]. now apply IH.
Qed.

(** X25: when [validateTasksResponse] returns a list, the response is an
    array, and the list has, in order, one task for each entry that
    is truthy with a truthy [id] and [title], made of it as [keptAs]
    says, and nothing for the other entries. *)
Theorem validateTasksResponse_keeps_entries_with_id_and_title (now : string)
    (response : JSON) (tasks : list Sanitized) :
  validateTasksResponse now response = Some tasks ->
  exists items,
    response = JArr items
    /\ Forall2 (keptAs now) (List.filter accepted items) tasks
    /\ length tasks <= length items.
Proof.
  unfold validateTasksResponse.
  destruct response as [| b | r | s | items | fields]; try discriminate.
  destruct (sanitizeAll now items) as [validTasks |] eqn:Hall; [| discriminate].
  intros [= <-]. exists items. split; [reflexivity |].
  pose proof (sanitizeAll_kept now items validTasks Hall) as Hkept.
  split; [exact Hkept |].
  rewrite <- (Forall2_length _ _ _ Hkept). apply List.filter_length_le.
Qed.

Lemma validateTasksResponse_keeps_entries_with_id_and_title_witness :
  exists items,
    Samples.response = JArr items
    /\ Forall2 (keptAs "2026-03-01T10:00:00.000Z") (List.filter accepted items)
               (Samples.validated "2026-03-01T10:00:00.000Z")
    /\ length (Samples.validated "2026-03-01T10:00:00.000Z") <= length items.
Proof.
  apply (validateTasksResponse_keeps_entries_with_id_and_title
           "2026-03-01T10:00:00.000Z" Samples.response
           (Samples.validated "2026-03-01T10:00:00.000Z")).
  reflexivity.
Defined.

End ValidationFacts.
